(** * NOLA news crawler: a shallow embedding of [newscrawler.py] and of the
    document reader of [article_vectorize.py], with the properties of the
    natural-language specification stated and proved over it.

    Conventions of the embedding:
    - a Python [str] is the list of its code points, each a [Z];
    - [bytes] is a list of [Byte.byte];
    - a call that can raise returns a [result]: [Ok v] or [Err e];
    - values decoded from JSON, and the records of the ledger, are [pyval]s;
    - what the program obtains from the outside world (the rendered page,
      the clock, the success of a write or of an upload) is an explicit
      argument;
    - [print] leaves no trace in the state, but it raises on a text that
      standard output cannot encode: it is modelled where that exception
      would leave the function.  The message of an exception that a handler
      prints is taken to be printable.  [time.sleep] is omitted. *)

From Stdlib Require Import String Ascii.
From Stdlib.Strings Require Import Byte.
From Stdlib Require Import ZArith List Bool Lia SpecFloat DecimalString.
Import ListNotations.
Open Scope Z_scope.

(** ** Exceptions and the error monad *)

Inductive exn : Type :=
| UnicodeEncodeError
| AttributeError
| TypeError
| JSONDecodeError
| BoxAPIException
| OSError
| IndexError
| WebDriverException.

Inductive result (A : Type) : Type :=
| Ok (a : A)
| Err (e : exn).
Arguments Ok {A} a.
Arguments Err {A} e.

Definition bind {A B : Type} (m : result A) (k : A -> result B) : result B :=
  match m with
  | Ok a => k a
  | Err e => Err e
  end.

Notation "'let*' x ':=' m 'in' k" := (bind m (fun x => k))
  (at level 10, x pattern, m at level 200, k at level 200).

(** ** Python strings *)

Module Py.

Definition char := Z.
Definition str := list char.
Definition bytes := list byte.

(** ASCII literals of the source text. *)
Definition lit (s : string) : str :=
  map (fun a => Z.of_N (N_of_ascii a)) (list_ascii_of_string s).

Definition nl : char := 10.

Fixpoint str_eqb (a b : str) : bool :=
  match a, b with
  | [], [] => true
  | x :: a', y :: b' => Z.eqb x y && str_eqb a' b'
  | _, _ => false
  end.

(** [len(s)] as an integer. *)
Definition len {A : Type} (s : list A) : Z := Z.of_nat (length s).

(** [s[:n]] for a literal [n >= 0]. *)
Definition slice_to {A : Type} (n : nat) (s : list A) : list A := firstn n s.

(** [sep.join(parts)] *)
Fixpoint join (sep : str) (parts : list str) : str :=
  match parts with
  | [] => []
  | [p] => p
  | p :: rest => p ++ sep ++ join sep rest
  end.

(** [str.startswith] *)
Fixpoint startswith (p s : str) : bool :=
  match p, s with
  | [], _ => true
  | x :: p', y :: s' => Z.eqb x y && startswith p' s'
  | _ :: _, [] => false
  end.

(** [k in s] on strings: [k] occurs as a contiguous substring of [s]. *)
Fixpoint contains (k s : str) : bool :=
  startswith k s ||
  match s with
  | [] => false
  | _ :: s' => contains k s'
  end.

(** [str.isspace] on one character: the code points whose bidirectional
    class is WS, B or S, or whose category is Zs. *)
Definition isspace (c : char) : bool :=
  ((9 <=? c) && (c <=? 13)) || ((28 <=? c) && (c <=? 32)) ||
  (c =? 0x85) || (c =? 0xA0) || (c =? 0x1680) ||
  ((0x2000 <=? c) && (c <=? 0x200A)) ||
  (c =? 0x2028) || (c =? 0x2029) || (c =? 0x202F) || (c =? 0x205F) ||
  (c =? 0x3000).

Fixpoint lstrip (s : str) : str :=
  match s with
  | [] => []
  | c :: s' => if isspace c then lstrip s' else s
  end.

(** [str.rstrip()]: drop the maximal whitespace suffix. *)
Fixpoint rstrip (s : str) : str :=
  match s with
  | [] => []
  | c :: s' =>
      match rstrip s' with
      | [] => if isspace c then [] else [c]
      | r => c :: r
      end
  end.

Definition strip (s : str) : str := lstrip (rstrip s).

(** ASCII part of the character classes; outside ASCII the Unicode database
    decides, and it is an argument of the functions that need it. *)
Definition ascii_isalnum (c : char) : bool :=
  ((48 <=? c) && (c <=? 57)) || ((65 <=? c) && (c <=? 90)) ||
  ((97 <=? c) && (c <=? 122)).

Definition ascii_lower (c : char) : char :=
  if (65 <=? c) && (c <=? 90) then c + 32 else c.

Definition is_ascii (c : char) : bool := (0 <=? c) && (c <? 128).

(** *** UTF-8 *)

Definition byte_of_Z (z : Z) : byte :=
  match Byte.of_N (Z.to_N (z mod 256)) with
  | Some b => b
  | None => x00
  end.

Definition Z_of_byte (b : byte) : Z := Z.of_N (Byte.to_N b).

(** A code point that is not a surrogate: what UTF-8 can encode. *)
Definition is_scalar (c : char) : bool :=
  (0 <=? c) && (c <? 0x110000) && negb ((0xD800 <=? c) && (c <=? 0xDFFF)).

Definition cont (c : Z) (shift : Z) : byte :=
  byte_of_Z (Z.lor 0x80 (Z.land (Z.shiftr c shift) 0x3F)).

Definition utf8_char (c : char) : result bytes :=
  if negb (is_scalar c) then Err UnicodeEncodeError
  else if c <? 0x80 then Ok [byte_of_Z c]
  else if c <? 0x800 then
    Ok [byte_of_Z (Z.lor 0xC0 (Z.shiftr c 6)); cont c 0]
  else if c <? 0x10000 then
    Ok [byte_of_Z (Z.lor 0xE0 (Z.shiftr c 12)); cont c 6; cont c 0]
  else
    Ok [byte_of_Z (Z.lor 0xF0 (Z.shiftr c 18)); cont c 12; cont c 6; cont c 0].

(** [s.encode("utf-8")] *)
Fixpoint encode_utf8 (s : str) : result bytes :=
  match s with
  | [] => Ok []
  | c :: s' =>
      let* b := utf8_char c in
      let* bs := encode_utf8 s' in
      Ok (b ++ bs)
  end.

End Py.

(** ** SHA-256 (FIPS 180-4), as [hashlib.sha256] computes it *)

Module Sha256.

Definition w32 (x : Z) : Z := x mod 2 ^ 32.
Definition add32 (x y : Z) : Z := w32 (x + y).
Definition rotr (n x : Z) : Z :=
  Z.lor (Z.shiftr x n) (w32 (Z.shiftl x (32 - n))).
Definition not32 (x : Z) : Z := Z.lxor x (2 ^ 32 - 1).

Definition Ch (x y z : Z) := Z.lxor (Z.land x y) (Z.land (not32 x) z).
Definition Maj (x y z : Z) :=
  Z.lxor (Z.lxor (Z.land x y) (Z.land x z)) (Z.land y z).
Definition bsig0 (x : Z) := Z.lxor (Z.lxor (rotr 2 x) (rotr 13 x)) (rotr 22 x).
Definition bsig1 (x : Z) := Z.lxor (Z.lxor (rotr 6 x) (rotr 11 x)) (rotr 25 x).
Definition ssig0 (x : Z) :=
  Z.lxor (Z.lxor (rotr 7 x) (rotr 18 x)) (Z.shiftr x 3).
Definition ssig1 (x : Z) :=
  Z.lxor (Z.lxor (rotr 17 x) (rotr 19 x)) (Z.shiftr x 10).

Definition round_constants : list Z :=
  [ 1116352408; 1899447441; 3049323471; 3921009573;
    961987163; 1508970993; 2453635748; 2870763221;
    3624381080; 310598401; 607225278; 1426881987;
    1925078388; 2162078206; 2614888103; 3248222580;
    3835390401; 4022224774; 264347078; 604807628;
    770255983; 1249150122; 1555081692; 1996064986;
    2554220882; 2821834349; 2952996808; 3210313671;
    3336571891; 3584528711; 113926993; 338241895;
    666307205; 773529912; 1294757372; 1396182291;
    1695183700; 1986661051; 2177026350; 2456956037;
    2730485921; 2820302411; 3259730800; 3345764771;
    3516065817; 3600352804; 4094571909; 275423344;
    430227734; 506948616; 659060556; 883997877;
    958139571; 1322822218; 1537002063; 1747873779;
    1955562222; 2024104815; 2227730452; 2361852424;
    2428436474; 2756734187; 3204031479; 3329325298 ].

Record state : Type := mkState {
  sa : Z; sb : Z; sc : Z; sd : Z; se : Z; sf : Z; sg : Z; sh : Z }.

Definition initial : state :=
  mkState 1779033703 3144134277 1013904242 2773480762
          1359893119 2600822924 528734635 1541459225.

(** Padding: a 1 bit, zero bits up to 448 mod 512, the bit length on 64 bits. *)
Definition be_bytes (n : nat) (x : Z) : list Z :=
  map (fun i => Z.shiftr x (8 * Z.of_nat i) mod 256) (rev (seq 0 n)).

Definition pad (msg : list Z) : list Z :=
  let l := Z.of_nat (length msg) in
  msg ++ [128] ++ repeat 0 (Z.to_nat ((55 - l) mod 64)) ++ be_bytes 8 (8 * l).

Fixpoint chunks (n : nat) (size : nat) (l : list Z) : list (list Z) :=
  match n with
  | O => []
  | S n' => firstn size l :: chunks n' size (skipn size l)
  end.

Definition be_word (bs : list Z) : Z :=
  fold_left (fun acc b => acc * 256 + b) bs 0.

Definition words_of_block (blk : list Z) : list Z :=
  map be_word (chunks 16 4 blk).

(** The message schedule: 16 words of the block, then 48 derived ones. *)
Definition extend (w : list Z) : list Z :=
  let i := length w in
  let at_ (k : nat) := nth (i - k) w 0 in
  w ++ [add32 (add32 (add32 (ssig1 (at_ 2%nat)) (at_ 7%nat))
                     (ssig0 (at_ 15%nat))) (at_ 16%nat)].

Definition schedule (blk : list Z) : list Z :=
  Nat.iter 48 extend (words_of_block blk).

Definition round (s : state) (kw : Z * Z) : state :=
  let (k, w) := kw in
  let t1 := add32 (add32 (add32 (add32 (sh s) (bsig1 (se s)))
                                (Ch (se s) (sf s) (sg s))) k) w in
  let t2 := add32 (bsig0 (sa s)) (Maj (sa s) (sb s) (sc s)) in
  mkState (add32 t1 t2) (sa s) (sb s) (sc s) (add32 (sd s) t1)
          (se s) (sf s) (sg s).

Definition compress (h : state) (blk : list Z) : state :=
  let s := fold_left round (combine round_constants (schedule blk)) h in
  mkState (add32 (sa h) (sa s)) (add32 (sb h) (sb s))
          (add32 (sc h) (sc s)) (add32 (sd h) (sd s))
          (add32 (se h) (se s)) (add32 (sf h) (sf s))
          (add32 (sg h) (sg s)) (add32 (sh h) (sh s)).

Definition hash_words (msg : list Z) : state :=
  let p := pad msg in
  fold_left compress (chunks (length p / 64) 64 p) initial.

(** The 32 bytes of the digest. *)
Definition word_bytes (x : Z) : Py.bytes := map Py.byte_of_Z (be_bytes 4 x).

Definition digest (data : Py.bytes) : Py.bytes :=
  let s := hash_words (map Py.Z_of_byte data) in
  word_bytes (sa s) ++ word_bytes (sb s) ++ word_bytes (sc s) ++
  word_bytes (sd s) ++ word_bytes (se s) ++ word_bytes (sf s) ++
  word_bytes (sg s) ++ word_bytes (sh s).

(** [bytes.hex()]: two lowercase hexadecimal digits per byte. *)
Definition hexdigit (n : Z) : Py.char := if n <? 10 then 48 + n else 87 + n.

Definition hex_of_byte (b : byte) : Py.str :=
  let n := Py.Z_of_byte b in [hexdigit (n / 16); hexdigit (n mod 16)].

Definition hex (bs : Py.bytes) : Py.str := flat_map hex_of_byte bs.

(** [hashlib.sha256(data).hexdigest()] *)
Definition hexdigest (data : Py.bytes) : Py.str := hex (digest data).

End Sha256.

(** ** [newscrawler.py]: identifiers *)

(** [sha16]: first 16 hexadecimal digits of the SHA-256 of the UTF-8 bytes. *)
Definition sha16 (s : Py.str) : result Py.str :=
  let* data := Py.encode_utf8 s in
  Ok (Py.slice_to 16 (Sha256.hexdigest data)).

Definition is_lower_hex (c : Py.char) : bool :=
  ((48 <=? c) && (c <=? 57)) || ((97 <=? c) && (c <=? 102)).


(** ** Python values: what [json.loads] returns and what the ledger holds *)

#[local] Set Warnings "-register-all".

Inductive pyval : Type :=
| PNone
| PBool (b : bool)
| PInt (n : Z)
| PFloat (f : spec_float)
| PStr (s : Py.str)
| PList (l : list pyval)
| PDict (d : list (Py.str * pyval)).

(** Truth value of an object in a condition. *)
Definition truthy (v : pyval) : bool :=
  match v with
  | PNone => false
  | PBool b => b
  | PInt n => negb (n =? 0)
  | PFloat (S754_zero _) => false
  | PFloat _ => true
  | PStr [] => false
  | PStr _ => true
  | PList [] => false
  | PList _ => true
  | PDict [] => false
  | PDict _ => true
  end.

(** Lists and dicts cannot be members of a set. *)
Definition hashable (v : pyval) : bool :=
  match v with
  | PList _ | PDict _ => false
  | _ => true
  end.

(** A dict keeps its keys in insertion order; a key occurs once. *)
Fixpoint dict_lookup {V : Type} (k : Py.str) (d : list (Py.str * V))
  : option V :=
  match d with
  | [] => None
  | (k', v) :: d' => if Py.str_eqb k' k then Some v else dict_lookup k d'
  end.

Fixpoint dict_set {V : Type} (k : Py.str) (v : V) (d : list (Py.str * V))
  : list (Py.str * V) :=
  match d with
  | [] => [(k, v)]
  | (k', v') :: d' =>
      if Py.str_eqb k' k then (k', v) :: d' else (k', v') :: dict_set k v d'
  end.

(** [obj.get(k)]: only a dict has the method. *)
Definition py_get (obj : pyval) (k : Py.str) : result pyval :=
  match obj with
  | PDict d =>
      Ok (match dict_lookup k d with Some v => v | None => PNone end)
  | _ => Err AttributeError
  end.

(** A set of hashable values, as a list of its members.  The list stands for
    the set of the values that occur in it: the order of the list and the
    number of times a value occurs have no meaning, and the statements use
    membership only.  The program only asks whether a [str] is a member, and
    a [str] equals nothing but a [str]. *)
Definition pyset := list pyval.

Definition set_contains_str (key : Py.str) (s : pyset) : bool :=
  existsb (fun v => match v with PStr x => Py.str_eqb x key | _ => false end) s.

Definition set_add (v : pyval) (s : pyset) : pyset := v :: s.

(** ** [json.dumps(v, indent=2, ensure_ascii=False)]

    The encoder of the [json] module for the values above.  The text of a
    [float] is that of [float.__repr__], an argument. *)

Module Json.

Definition hex_digit (n : Z) : Py.char := if n <? 10 then 48 + n else 87 + n.

(** One character inside a string: the quote, the backslash and the
    characters below U+0020 are escaped; every other character, a lone
    surrogate too, goes out as it is. *)
Definition escape_char (c : Py.char) : Py.str :=
  if c =? 34 then [92; 34]
  else if c =? 92 then [92; 92]
  else if c =? 10 then [92; 110]
  else if c =? 13 then [92; 114]
  else if c =? 9 then [92; 116]
  else if c =? 8 then [92; 98]
  else if c =? 12 then [92; 102]
  else if c <? 32 then
    [92; 117; 48; 48; hex_digit (c / 16); hex_digit (c mod 16)]
  else [c].

Definition encode_str (s : Py.str) : Py.str :=
  [34] ++ flat_map escape_char s ++ [34].

Definition encode_int (n : Z) : Py.str :=
  Py.lit (NilZero.string_of_int (Z.to_int n)).

(** A newline and the indentation of a nesting level. *)
Definition newline_indent (level : nat) : Py.str :=
  [Py.nl] ++ repeat 32 (2 * level).

Fixpoint encode (float_repr : spec_float -> Py.str) (level : nat)
    (v : pyval) : Py.str :=
  match v with
  | PNone => Py.lit "null"
  | PBool true => Py.lit "true"
  | PBool false => Py.lit "false"
  | PInt n => encode_int n
  | PFloat f => float_repr f
  | PStr s => encode_str s
  | PList [] => Py.lit "[]"
  | PList (x :: l) =>
      Py.lit "[" ++ newline_indent (S level) ++
      encode float_repr (S level) x ++
      (fix rest (l : list pyval) : Py.str :=
         match l with
         | [] => []
         | y :: l' =>
             Py.lit "," ++ newline_indent (S level) ++
             encode float_repr (S level) y ++ rest l'
         end) l ++
      newline_indent level ++ Py.lit "]"
  | PDict [] => Py.lit "{}"
  | PDict ((k, x) :: d) =>
      Py.lit "{" ++ newline_indent (S level) ++
      encode_str k ++ Py.lit ": " ++ encode float_repr (S level) x ++
      (fix rest (d : list (Py.str * pyval)) : Py.str :=
         match d with
         | [] => []
         | (k', y) :: d' =>
             Py.lit "," ++ newline_indent (S level) ++
             encode_str k' ++ Py.lit ": " ++
             encode float_repr (S level) y ++ rest d'
         end) d ++
      newline_indent level ++ Py.lit "}"
  end.

Definition dumps (float_repr : spec_float -> Py.str) (v : pyval) : Py.str :=
  encode float_repr 0 v.

End Json.

(** ** The Box folder *)

Inductive item_kind : Type := KFile | KFolder | KWebLink.

Record box_item : Type := mkItem {
  item_name : Py.str;
  item_kind_of : item_kind;
  item_content : Py.bytes }.

Definition box_folder := list box_item.

Definition is_file_named (name : Py.str) (it : box_item) : bool :=
  Py.str_eqb (item_name it) name &&
  match item_kind_of it with KFile => true | _ => false end.

(** The loop over [folder.get_items()] that stops at the first file of that
    name. *)
Definition find_file (name : Py.str) (items : box_folder) : option box_item :=
  find (is_file_named name) items.

(** [client.file(id).update_contents_with_stream]: the file found by the
    loop gets a new content; every other item is left as it is. *)
Fixpoint update_contents (name : Py.str) (data : Py.bytes) (items : box_folder)
  : box_folder :=
  match items with
  | [] => []
  | it :: rest =>
      if is_file_named name it
      then mkItem (item_name it) KFile data :: rest
      else it :: update_contents name data rest
  end.

(** [folder.upload_stream(stream, name)] *)
Definition upload_stream (name : Py.str) (data : Py.bytes) (items : box_folder)
  : box_folder :=
  items ++ [mkItem name KFile data].

Definition articles_json : Py.str := Py.lit "articles.json".

(** ** The local output directory *)

Definition directory := list (Py.str * Py.bytes).

Definition write_bytes (name : Py.str) (data : Py.bytes) (d : directory)
  : directory := dict_set name data d.

Definition read_bytes (name : Py.str) (d : directory) : result Py.bytes :=
  match dict_lookup name d with
  | Some data => Ok data
  | None => Err OSError
  end.

(** ** Feed items, rendered pages, article records *)

(** What [fetch_rss_entries] yields for one entry. *)
Record feed_item : Type := mkFeedItem {
  it_title : Py.str;
  it_url : option Py.str;
  it_published : Py.str;
  it_source : Py.str }.

(** What the libraries return for one rendered page: [trafilatura.extract],
    the title of [trafilatura.extract_metadata], and for BeautifulSoup the
    [get_text(strip=True)] of each [p], [h2], [h3] of the article element
    after its script, style, nav, aside, header and footer subtrees are
    removed ([None] when the page has no such element), of each [p] of the
    page, and of the [title] tag. *)
Record page : Type := mkPage {
  page_extract : option Py.str;
  page_meta_title : option Py.str;
  page_article : option (list Py.str);
  page_paragraphs : list Py.str;
  page_title_tag : option Py.str }.

Record article_record : Type := mkRecord {
  rec_id : Py.str;
  rec_source : Py.str;
  rec_url : Py.str;
  rec_title : Py.str;
  rec_published : Py.str;
  rec_saved_at : Py.str;
  rec_content_preview : Py.str }.

(** The dict that [main] builds, with its keys in the order of the source. *)
Definition record_dict (r : article_record) : pyval :=
  PDict [ (Py.lit "id", PStr (rec_id r));
          (Py.lit "source", PStr (rec_source r));
          (Py.lit "url", PStr (rec_url r));
          (Py.lit "title", PStr (rec_title r));
          (Py.lit "published", PStr (rec_published r));
          (Py.lit "saved_at", PStr (rec_saved_at r));
          (Py.lit "content_preview", PStr (rec_content_preview r)) ].

(** What the world answers while one feed item is processed. *)
Record world : Type := mkWorld {
  w_render : result page;
  w_now : Py.str;
  w_today : Py.str;
  w_write_ok : bool;
  w_upload_ok : bool }.

Definition is_empty {A : Type} (l : list A) : bool :=
  match l with [] => true | _ => false end.

Definition KEYWORDS : list Py.str :=
  map Py.lit
  [ "city council"; "ordinance"; "zoning"; "budget"; "millage"; "public works";
    "sewerage & water board"; "swbno"; "dpw"; "planning commission"; "permit";
    "tax"; "mayor"; "poll"; "school board"; "reform"; "bond"; "levy";
    "land use"; "infrastructure"; "litigation"; "city hall"; "municipal";
    "nopd"; "nofd"; "crime"; "public safety"; "drainage"; "flooding";
    "affordable housing"; "rta"; "streetcar"; "neighborhood"; "city attorney";
    "audit"; "tourism"; "economic development"; "property tax"; "blight";
    "sanitation"; "street repair"; "pothole"; "traffic"; "parking" ]%string.

(** [record_md] before the final [encode]: the f-string. *)
Definition record_md_text (rec : article_record) (full_text : Py.str)
  : Py.str :=
  Py.lit "---" ++ [Py.nl] ++
  Py.lit "source: " ++ rec_source rec ++ [Py.nl] ++
  Py.lit "title: " ++ rec_title rec ++ [Py.nl] ++
  Py.lit "url: " ++ rec_url rec ++ [Py.nl] ++
  Py.lit "published: " ++ rec_published rec ++ [Py.nl] ++
  Py.lit "saved_at: " ++ rec_saved_at rec ++ [Py.nl] ++
  Py.lit "---" ++ [Py.nl] ++
  [Py.nl] ++
  full_text ++ [Py.nl].

Definition record_md (rec : article_record) (full_text : Py.str)
  : result Py.bytes :=
  Py.encode_utf8 (record_md_text rec full_text).

(** The body of [extract_text] after the page is rendered. *)
Definition weak (downloaded : option Py.str) : bool :=
  match downloaded with
  | None => true
  | Some d => is_empty d || (Py.len d <? 100)
  end.

Definition long_blocks (paragraphs : list Py.str) : Py.str :=
  Py.join [Py.nl; Py.nl] (filter (fun p => 20 <? Py.len p) paragraphs).

Definition or_empty (o : option Py.str) : Py.str :=
  match o with Some s => s | None => [] end.

Definition extract_page (pg : page) : Py.str * Py.str :=
  let downloaded := page_extract pg in
  let title := or_empty (page_meta_title pg) in
  if weak downloaded then
    let downloaded1 :=
      match page_article pg with
      | Some paragraphs => Some (long_blocks paragraphs)
      | None => downloaded
      end in
    let downloaded2 :=
      if weak downloaded1
      then Some (long_blocks (page_paragraphs pg))
      else downloaded1 in
    let title1 :=
      if is_empty title then or_empty (page_title_tag pg) else title in
    (title1, or_empty downloaded2)
  else (title, or_empty downloaded).

(** [extract_text]: an exception of the browser leaves through [finally]. *)
Definition extract_text (rendered : result page) : result (Py.str * Py.str) :=
  let* pg := rendered in Ok (extract_page pg).

(** The file name of an article document, lines 446 to 450 of [main]. *)
Definition published_date (published today : Py.str) : Py.str :=
  if is_empty published then today else Py.slice_to 10 published.

Definition underscore : Py.str := Py.lit "_".

(** ** [article_vectorize.py]: the reader of the article documents *)

Module Vectorize.

(** [s.split(sep)] for a non-empty [sep]: the occurrences of [sep] are taken
    from the left and do not overlap.  [skip] counts the characters of an
    occurrence still to pass over; the head of the result is the piece being
    read. *)
Fixpoint split_go (sep : Py.str) (skip : nat) (s : Py.str) : list Py.str :=
  match s with
  | [] => [[]]
  | c :: s' =>
      match skip with
      | S k => split_go sep k s'
      | O =>
          if Py.startswith sep s
          then [] :: split_go sep (length sep - 1) s'
          else match split_go sep O s' with
               | p :: ps => (c :: p) :: ps
               | [] => [[c]]
               end
      end
  end.

Definition split (sep s : Py.str) : list Py.str := split_go sep 0 s.

(** [line.split(':', 1)] on a line that has a colon. *)
Fixpoint split_once (c : Py.char) (s : Py.str) : option (Py.str * Py.str) :=
  match s with
  | [] => None
  | x :: s' =>
      if x =? c then Some ([], s')
      else match split_once c s' with
           | Some (a, b) => Some (x :: a, b)
           | None => None
           end
  end.

(** [open(md_file, 'r', encoding='utf-8')] reads with universal newlines:
    a CR LF pair and a lone CR both come back as LF. *)
Fixpoint universal_newlines (s : Py.str) : Py.str :=
  match s with
  | [] => []
  | c :: s' =>
      if c =? 13 then
        match s' with
        | d :: s'' =>
            if d =? 10 then 10 :: universal_newlines s''
            else 10 :: universal_newlines s'
        | [] => [10]
        end
      else c :: universal_newlines s'
  end.

Definition frontmatter := list (Py.str * Py.str).

Definition parse_line (fm : frontmatter) (line : Py.str) : frontmatter :=
  match split_once 58 line with
  | Some (key, val) => dict_set (Py.strip key) (Py.strip val) fm
  | None => fm
  end.

Definition parse_frontmatter (block : Py.str) : frontmatter :=
  fold_left parse_line (split [Py.nl] (Py.strip block)) [].

(** Lines 26 to 39: [None] stands for the [continue] on fewer than three
    parts. *)
Definition parse_document (content : Py.str) : option (frontmatter * Py.str) :=
  match split (Py.lit "---") content with
  | _ :: part1 :: part2 :: _ => Some (parse_frontmatter part1, Py.strip part2)
  | _ => None
  end.

(** The document as the reader sees it, from the text whose UTF-8 encoding
    the crawler wrote. *)
Definition read_document (written : Py.str) : option (frontmatter * Py.str) :=
  parse_document (universal_newlines written).

(** [os.path.basename], [str.replace], and line 42. *)
Definition basename (path : Py.str) : Py.str := last (split [47] path) [].

Definition replace (old new s : Py.str) : Py.str := Py.join new (split old s).

Definition article_id (md_file : Py.str) : result Py.str :=
  match split [95] (replace (Py.lit ".md") [] (basename md_file)) with
  | _ :: second :: _ => Ok second
  | _ => Err IndexError
  end.

(** The collection, as the list of the triples added to it. *)
Definition collection := list (Py.str * frontmatter * Py.str).

Fixpoint make_vector_db (coll : collection) (md_files : list (Py.str * Py.str))
  : result collection :=
  match md_files with
  | [] => Ok coll
  | (md_file, written) :: rest =>
      match read_document written with
      | None => make_vector_db coll rest
      | Some (fm, article_text) =>
          let* id := article_id md_file in
          make_vector_db (coll ++ [(article_text, fm, id)]) rest
      end
  end.

(** The five fields that [record_md] writes above the body. *)
Definition frontmatter_of (r : article_record) : frontmatter :=
  [ (Py.lit "source", rec_source r);
    (Py.lit "title", rec_title r);
    (Py.lit "url", rec_url r);
    (Py.lit "published", rec_published r);
    (Py.lit "saved_at", rec_saved_at r) ].

End Vectorize.

(** ** The crawler *)

Section Crawler.

(** The parts of the Python runtime that the embedding does not define:
    the Unicode database outside ASCII, and the JSON codec of
    [articles.json]: [json.loads] after [decode], from the bytes of the file
    to a value, which raises on bytes that are not a JSON text, and
    [json.dumps], from a value to its text, which [encode] then turns into
    bytes. *)
Variable unicode_isalnum : Py.char -> bool.
Variable unicode_lower : Py.str -> Py.str.
Variable json_loads : Py.bytes -> result pyval.
Variable json_dumps : pyval -> Py.str.

(** [c.isalnum()] *)
Definition isalnum (c : Py.char) : bool :=
  if Py.is_ascii c then Py.ascii_isalnum c else unicode_isalnum c.

(** [s.lower()] *)
Definition lower (s : Py.str) : Py.str :=
  if forallb Py.is_ascii s then map Py.ascii_lower s else unicode_lower s.

Definition matched_keywords (title text : Py.str) : list Py.str :=
  let blob := lower (title ++ [Py.nl] ++ text) in
  filter (fun k => Py.contains k blob) KEYWORDS.

Definition looks_relevant (title text : Py.str) : bool :=
  negb (is_empty (matched_keywords title text)).

Definition keeps (c : Py.char) : bool :=
  isalnum c || (c =? 32) || (c =? 45) || (c =? 95).

Definition clean_title (title : Py.str) : Py.str :=
  Py.slice_to 50 (Py.rstrip (filter keeps title)).

Definition md_filename (published today key title : Py.str) : Py.str :=
  published_date published today ++ underscore ++ key ++ underscore ++
  clean_title title ++ Py.lit ".md".

(** *** The ledger in the Box folder *)

Definition load_articles_from_box (api_ok : bool) (folder : box_folder)
  : result (list pyval * box_folder) :=
  if negb api_ok then Err BoxAPIException else
  match find_file articles_json folder with
  | Some articles_file =>
      let* data := json_loads (item_content articles_file) in
      Ok (match data with PList l => l | _ => [] end, folder)
  | None =>
      Ok ([], upload_stream articles_json [x5b; x5d] folder)
  end.

(** The set comprehension of line 170; the result lists the members of the
    set, see [pyset]. *)
Fixpoint get_seen_urls (articles : list pyval) : result pyset :=
  match articles with
  | [] => Ok []
  | article :: rest =>
      let* cond := py_get article (Py.lit "id") in
      let* here :=
        (if truthy cond then
           let* v := py_get article (Py.lit "id") in
           if hashable v then Ok [v] else Err TypeError
         else Ok []) in
      let* more := get_seen_urls rest in
      Ok (here ++ more)
  end.

(** Line 186: the bytes of a ledger.  [encode] raises on a lone surrogate,
    which [json.dumps] with [ensure_ascii=False] writes as it is. *)
Definition ledger_bytes (articles : list pyval) : result Py.bytes :=
  Py.encode_utf8 (json_dumps (PList articles)).

(** The folder is listed first; the bytes are made before anything is
    written, so an exception there leaves the folder as it was. *)
Definition save_articles_to_box (api_ok : bool) (folder : box_folder)
    (articles : list pyval) : result box_folder :=
  if negb api_ok then Err BoxAPIException else
  let articles_file := find_file articles_json folder in
  let* data := ledger_bytes articles in
  match articles_file with
  | Some _ => Ok (update_contents articles_json data folder)
  | None => Ok (upload_stream articles_json data folder)
  end.

Definition box_upload_file (api_ok : bool) (folder : box_folder)
    (out : directory) (file_path box_filename : Py.str) : result box_folder :=
  if negb api_ok then Err BoxAPIException else
  let existing_file := find_file box_filename folder in
  let* f := read_bytes file_path out in
  match existing_file with
  | Some _ => Ok (update_contents box_filename f folder)
  | None => Ok (upload_stream box_filename f folder)
  end.

(** *** The loop of [main] *)

(** [print(f"... {s} ...")]: standard output is taken to encode in UTF-8
    with the strict error handler, which the fixed parts of the messages
    need and can always use; the call raises when the text put into the
    message holds a lone surrogate. *)
Definition print (s : Py.str) : result unit :=
  let* _ := Py.encode_utf8 s in Ok tt.

Record run_state : Type := mkRun {
  seen : pyset;
  new_articles : list article_record;
  out_dir : directory;
  box : box_folder;
  processed_count : Z;
  skipped_seen : Z;
  skipped_no_url : Z }.

Definition content_preview (full_text : Py.str) : Py.str :=
  if 200 <? Py.len full_text
  then Py.slice_to 200 full_text ++ Py.lit "..."
  else full_text.

(** [title_ext or item["title"]] *)
Definition chosen_title (item : feed_item) (title_ext : Py.str) : Py.str :=
  if is_empty title_ext then it_title item else title_ext.

(** The record of lines 436 to 444. *)
Definition make_record (item : feed_item) (url key title full_text : Py.str)
    (w : world) : article_record :=
  mkRecord key (it_source item) url title (it_published item)
           (w_now w) (content_preview full_text).

(** The [try] block for one item: an exception leaves the state as it was
    when it was raised.  The messages printed inside the block cannot change
    what it does: line 341 prints the extracted title, and a title that
    cannot be printed is not empty, so it is the title of the record, whose
    document cannot be encoded either ([unprintable_title_is_skipped]); line
    455 prints the file name, made of texts that were encoded just before
    and of today's date ([md_filename_printable]); the message of a caught
    exception is taken to be printable. *)
Definition try_item (st : run_state) (item : feed_item) (url key : Py.str)
    (w : world) : run_state :=
  match extract_text (w_render w) with
  | Err _ => st
  | Ok (title_ext, text) =>
      let title := chosen_title item title_ext in
      if negb (looks_relevant title text) then st else
      let full_text := Py.strip text in
      let rec := make_record item url key title full_text w in
      let name := md_filename (rec_published rec) (w_today w) key title in
      match record_md rec full_text with
      | Err _ => st
      | Ok data =>
          if negb (w_write_ok w) then st else
          let out := write_bytes name data (out_dir st) in
          let st1 :=
            mkRun (seen st) (new_articles st) out (box st)
                  (processed_count st) (skipped_seen st) (skipped_no_url st) in
          match box_upload_file (w_upload_ok w) (box st) out name name with
          | Err _ => st1
          | Ok folder =>
              mkRun (set_add (PStr key) (seen st))
                    (new_articles st ++ [rec]) out folder
                    (processed_count st) (skipped_seen st) (skipped_no_url st)
          end
      end
  end.

Definition has_url (item : feed_item) : option Py.str :=
  match it_url item with
  | Some (c :: u) => Some (c :: u)
  | _ => None
  end.

(** One iteration of the [for] loop.  [sha16] and the messages of lines
    410, 420 and 421, with the title and the source of the item, are outside
    the [try]: an exception there leaves the loop.  Line 422 prints the URL,
    which [sha16] has encoded before. *)
Definition process_item (st : run_state) (iw : feed_item * world)
  : result run_state :=
  let (item, w) := iw in
  match has_url item with
  | None =>
      let* _ := print (Py.slice_to 50 (it_title item)) in
      Ok (mkRun (seen st) (new_articles st) (out_dir st) (box st)
                (processed_count st) (skipped_seen st) (skipped_no_url st + 1))
  | Some url =>
      let* key := sha16 url in
      if set_contains_str key (seen st) then
        Ok (mkRun (seen st) (new_articles st) (out_dir st) (box st)
                  (processed_count st) (skipped_seen st + 1)
                  (skipped_no_url st))
      else
        let* _ := print (Py.slice_to 60 (it_title item)) in
        let* _ := print (it_source item) in
        Ok (try_item
              (mkRun (seen st) (new_articles st) (out_dir st) (box st)
                     (processed_count st + 1) (skipped_seen st)
                     (skipped_no_url st))
              item url key w)
  end.

Fixpoint run_loop (st : run_state) (feed : list (feed_item * world))
  : result run_state :=
  match feed with
  | [] => Ok st
  | iw :: rest =>
      let* st' := process_item st iw in
      run_loop st' rest
  end.

(** Lines 473 to 476: the merge of the new records into the ledger. *)
Definition merge_and_persist (api_ok : bool) (folder : box_folder)
    (articles : list pyval) (new_records : list article_record)
  : result (list pyval * box_folder) :=
  if is_empty new_records then Ok (articles, folder) else
  let articles' := articles ++ map record_dict new_records in
  let* folder' := save_articles_to_box api_ok folder articles' in
  Ok (articles', folder').

(** The outcome of a run: the ledger in memory, the folder, the local
    directory, the records added.  [main] is modelled from the load of the
    ledger on: the assertions on the credentials and the construction of the
    client come before and touch none of this state.  [load_ok] and
    [save_ok] say whether the Box API answers the load and the final save;
    [feed] is what [fetch_rss_entries] yields, each item with what the world
    answers while it is processed. *)
Record outcome : Type := mkOutcome {
  final_articles : list pyval;
  final_box : box_folder;
  final_out : directory;
  added : list article_record }.

Definition main (load_ok save_ok : bool) (folder : box_folder)
    (out : directory) (feed : list (feed_item * world)) : result outcome :=
  let* (articles, folder1) := load_articles_from_box load_ok folder in
  let* seen0 := get_seen_urls articles in
  let* st := run_loop (mkRun seen0 [] out folder1 0 0 0) feed in
  let* (articles', folder2) :=
    merge_and_persist save_ok (box st) articles (new_articles st) in
  Ok (mkOutcome articles' folder2 (out_dir st) (new_articles st)).

(** ** Notions used in the statements *)

(** [k] occurs in [s] as a contiguous substring. *)
Definition substring (k s : Py.str) : Prop := exists a b, s = a ++ k ++ b.

Definition has_char (c : Py.char) (s : Py.str) : bool := existsb (Z.eqb c) s.

(** The [id] of a ledger entry, when it has one. *)
Definition id_field (article : pyval) : option pyval :=
  match article with
  | PDict d => dict_lookup (Py.lit "id") d
  | _ => None
  end.

Definition ids (articles : list pyval) : list pyval :=
  flat_map (fun a => match id_field a with Some v => [v] | None => [] end)
           articles.

(** The bytes of [articles.json] in a folder. *)
Definition ledger_document (folder : box_folder) : option Py.bytes :=
  option_map item_content (find_file articles_json folder).

Definition is_digit (c : Py.char) : bool := (48 <=? c) && (c <=? 57).

(** The shape YYYY-MM-DD. *)
Definition is_iso_date (s : Py.str) : bool :=
  match s with
  | [y1; y2; y3; y4; d1; m1; m2; d2; a1; a2] =>
      forallb is_digit [y1; y2; y3; y4; m1; m2; a1; a2] &&
      (d1 =? 45) && (d2 =? 45)
  | _ => false
  end.

(** A frontmatter value that the reader returns as written: one line, no
    delimiter inside, no blank at either end. *)
Definition plain_field (s : Py.str) : bool :=
  negb (has_char 10 s) && negb (has_char 13 s) &&
  negb (Py.contains (Py.lit "---") s) && Py.str_eqb (Py.strip s) s.

Definition plain_body (s : Py.str) : bool :=
  negb (has_char 13 s) &&
  negb (Py.contains (Py.lit "---") s) && Py.str_eqb (Py.strip s) s.

Definition plain_record (r : article_record) : bool :=
  plain_field (rec_source r) && plain_field (rec_title r) &&
  plain_field (rec_url r) && plain_field (rec_published r) &&
  plain_field (rec_saved_at r).

(** What the loop of [main] maintains, for the ledger [articles] that was
    loaded: every true id of the ledger is in the seen set, every record
    added so far has a non-empty id that is in the seen set, and the ids of
    the ledger followed by the added records are pairwise distinct. *)
Definition loop_invariant (articles : list pyval) (st : run_state) : Prop :=
  (forall a v, In a articles -> id_field a = Some v -> truthy v = true ->
               In v (seen st)) /\
  (forall r, In r (new_articles st) ->
             rec_id r <> [] /\ set_contains_str (rec_id r) (seen st) = true) /\
  NoDup (ids (articles ++ map record_dict (new_articles st))).

(** The state after an item is skipped as already seen. *)
Definition skip_seen (st : run_state) : run_state :=
  mkRun (seen st) (new_articles st) (out_dir st) (box st)
        (processed_count st) (skipped_seen st + 1) (skipped_no_url st).

(** The state in which the loop starts. *)
Definition start (s : pyset) (out : directory) (folder : box_folder)
  : run_state := mkRun s [] out folder 0 0 0.

(** The state in which the [try] block is entered. *)
Definition enter (st : run_state) : run_state :=
  mkRun (seen st) (new_articles st) (out_dir st) (box st)
        (processed_count st + 1) (skipped_seen st) (skipped_no_url st).

(** The structural stage as the specification words it: the blocks of at
    least 20 characters, joined by blank lines. *)
Definition spec_structural_stage (paragraphs : list Py.str) : Py.str :=
  Py.join [Py.nl; Py.nl] (filter (fun p => 20 <=? Py.len p) paragraphs).

(** The two blocks of a document: the lines between the delimiters, without
    the newline that ends the last of them, and what follows the second
    delimiter. *)
Definition frontmatter_lines (rec : article_record) : Py.str :=
  [Py.nl] ++
  Py.lit "source: " ++ rec_source rec ++ [Py.nl] ++
  Py.lit "title: " ++ rec_title rec ++ [Py.nl] ++
  Py.lit "url: " ++ rec_url rec ++ [Py.nl] ++
  Py.lit "published: " ++ rec_published rec ++ [Py.nl] ++
  Py.lit "saved_at: " ++ rec_saved_at rec.

Definition body_block (full_text : Py.str) : Py.str :=
  [Py.nl] ++ [Py.nl] ++ full_text ++ [Py.nl].

(** ** Stand-ins and sample data for the closed statements *)

(** A Unicode database that is never consulted on ASCII text. *)
Definition no_isalnum (c : Py.char) : bool := false.
Definition no_lower (s : Py.str) : Py.str := s.

Definition bytes_of (s : Py.str) : Py.bytes :=
  match Py.encode_utf8 s with
  | Ok b => b
  | Err _ => []
  end.

Definition sample_id : Py.str := Py.lit "2dce0a4c50441bfc".

(** The ledger with one entry that has an id and nothing else. *)
Definition one_id_ledger : Py.bytes :=
  bytes_of (Py.lit "[{" ++ [34] ++ Py.lit "id" ++ [34] ++ Py.lit ": " ++
            [34] ++ sample_id ++ [34] ++ Py.lit "}]").

Fixpoint bytes_eqb (a b : Py.bytes) : bool :=
  match a, b with
  | [], [] => true
  | x :: a', y :: b' => Byte.eqb x y && bytes_eqb a' b'
  | _, _ => false
  end.

(** A decoder that knows four documents: the empty list, the empty object,
    the list of one empty object, and the ledger above. *)
Definition sample_loads (data : Py.bytes) : result pyval :=
  if bytes_eqb data (bytes_of (Py.lit "[]")) then Ok (PList [])
  else if bytes_eqb data (bytes_of (Py.lit "{}")) then Ok (PDict [])
  else if bytes_eqb data (bytes_of (Py.lit "[{}]")) then Ok (PList [PDict []])
  else if bytes_eqb data one_id_ledger
       then Ok (PList [PDict [(Py.lit "id", PStr sample_id)]])
  else Err JSONDecodeError.

(** The encoder of the [json] module; the sample ledgers hold no float. *)
Definition sample_dumps (v : pyval) : Py.str :=
  Json.dumps (fun _ => Py.lit "0.0") v.

Definition sample_item : feed_item :=
  mkFeedItem (Py.lit "Council approves zoning change")
             (Some (Py.lit "https://example.com/a"))
             (Py.lit "Tue, 05 Nov 2024 17:00:00 +0000")
             (Py.lit "The Lens").

Definition sample_text : Py.str :=
  Py.lit "The city council approved the zoning ordinance after a long " ++
  Py.lit "public hearing on drainage and flooding downtown.".

Definition sample_page : page :=
  mkPage (Some sample_text) (Some (Py.lit "Zoning vote")) None [] None.

Definition sample_world : world :=
  mkWorld (Ok sample_page) (Py.lit "2024-11-06T10:00:00+00:00")
          (Py.lit "2024-11-06") true true.

Definition sample_record : article_record :=
  mkRecord sample_id (Py.lit "The Lens") (Py.lit "https://example.com/a")
           (Py.lit "Zoning vote") (Py.lit "2024-11-05")
           (Py.lit "2024-11-06T10:00:00+00:00") (Py.lit "one---two").

Definition folder_with (data : Py.bytes) : box_folder :=
  [mkItem articles_json KFile data].

(** An item with another URL and no date. *)
Definition other_item : feed_item :=
  mkFeedItem (Py.lit "Budget hearing") (Some (Py.lit "https://example.com/b"))
             [] (Py.lit "The Lens").

Definition no_outcome : outcome := mkOutcome [] [] [] [].

Definition outcome_of (r : result outcome) : outcome :=
  match r with
  | Ok res => res
  | Err _ => no_outcome
  end.

(** Five blocks of exactly 20 characters. *)
Definition twenty_char_blocks : list Py.str :=
  repeat (Py.lit "exactly 20 chars....") 5.

Definition long_block : Py.str := sample_text.

(** ** Further notions for the properties of the whole run *)

Definition is_ok {A : Type} (r : result A) : bool :=
  match r with
  | Ok _ => true
  | Err _ => false
  end.

(** Whether the [try] block goes through for an item: the page renders,
    passes the filter, the document can be encoded, written and uploaded. *)
Definition accepts (item : feed_item) (url key : Py.str) (w : world) : bool :=
  match extract_text (w_render w) with
  | Err _ => false
  | Ok (title_ext, text) =>
      let title := chosen_title item title_ext in
      looks_relevant title text &&
      is_ok (record_md (make_record item url key title (Py.strip text) w)
                       (Py.strip text)) &&
      w_write_ok w && w_upload_ok w
  end.

(** The number of entries that the three counters of [main] account for. *)
Definition counted (st : run_state) : Z :=
  processed_count st + skipped_seen st + skipped_no_url st.

(** The URL of an item can be hashed. *)
Definition hashable_url (iw : feed_item * world) : bool :=
  match has_url (fst iw) with
  | Some url => forallb Py.is_scalar url
  | None => true
  end.

(** Nothing outside the [try] block can raise on an item: its URL can be
    hashed, and its source and the part of its title that a message shows
    can be printed. *)
Definition safe_item (iw : feed_item * world) : bool :=
  match has_url (fst iw) with
  | Some url =>
      forallb Py.is_scalar url &&
      forallb Py.is_scalar (Py.slice_to 60 (it_title (fst iw))) &&
      forallb Py.is_scalar (it_source (fst iw))
  | None => forallb Py.is_scalar (Py.slice_to 50 (it_title (fst iw)))
  end.


(** The seen set of a state holds what the loaded ledger gave ([seen0]) and
    the ids of the records added since, which are not empty. *)
Definition seen_tracks (seen0 : pyset) (st : run_state) : Prop :=
  (forall r, In r (new_articles st) -> rec_id r <> []) /\
  (forall v, In v (seen st) <->
             In v seen0 \/
             In v (map (fun r => PStr (rec_id r)) (new_articles st))).

(** ** [fetch_rss_entries] *)

(** What [feedparser] gives for an entry and for a feed: a key that is
    absent is [None]. *)
Record feed_entry : Type := mkEntry {
  e_title : option Py.str;
  e_link : option Py.str;
  e_published : option Py.str }.

Record parsed_feed : Type := mkFeed {
  feed_title : option Py.str;
  entries : list feed_entry }.

Definition FEEDS : list Py.str :=
  map Py.lit
  [ "https://veritenews.org/feed/";
    "https://thelensnola.org/feed/";
    "https://neworleanscitybusiness.com/feed/" ]%string.

(** [d.feed.get("title", urlparse(url).netloc)] *)
Definition feed_source (netloc : Py.str -> Py.str) (d : parsed_feed)
    (url : Py.str) : Py.str :=
  match feed_title d with
  | Some t => t
  | None => netloc url
  end.

(** The dict yielded for one entry. *)
Definition entry_item (source : Py.str) (e : feed_entry) : feed_item :=
  mkFeedItem (Py.strip (or_empty (e_title e))) (e_link e)
             (or_empty (e_published e)) source.

(** One turn of the loop over [FEEDS]: an exception while the feed is
    fetched or parsed is caught, and the loop goes on. *)
Definition feed_items (feedparser_parse : Py.str -> result parsed_feed)
    (netloc : Py.str -> Py.str) (url : Py.str) : list feed_item :=
  match feedparser_parse url with
  | Err _ => []
  | Ok d => map (entry_item (feed_source netloc d url)) (entries d)
  end.

(** Everything the generator yields, in order.  [feedparser.parse] and
    [urlparse(url).netloc] are arguments. *)
Definition fetch_rss_entries (feedparser_parse : Py.str -> result parsed_feed)
    (netloc : Py.str -> Py.str) : list feed_item :=
  flat_map (feed_items feedparser_parse netloc) FEEDS.

(** The number of entries of a feed that parses, none for one that fails. *)
Definition entry_count (feedparser_parse : Py.str -> result parsed_feed)
    (url : Py.str) : nat :=
  match feedparser_parse url with
  | Ok d => length (entries d)
  | Err _ => O
  end.

(** ** The tokens: [update_env_tokens] *)

Definition access_prefix : Py.str := Py.lit "BOX_ACCESS_TOKEN=".
Definition refresh_prefix : Py.str := Py.lit "BOX_REFRESH_TOKEN=".

(** The lines that [update_env_tokens] keeps. *)
Definition not_token_line (l : Py.str) : bool :=
  negb (Py.startswith access_prefix l) &&
  negb (Py.startswith refresh_prefix l).

(** [update_env_tokens]: the new text of [.env], from the text on disk
    ([None] when there is no file; [read_text] reads with universal
    newlines, and the text is written as it is). *)
Definition update_env_tokens (env : option Py.str)
    (access_token refresh_token : Py.str) : Py.str :=
  match env with
  | Some on_disk =>
      let content := Vectorize.universal_newlines on_disk in
      let lines := Vectorize.split [Py.nl] content in
      let lines := filter not_token_line lines in
      let lines := lines ++ [access_prefix ++ access_token] in
      let lines := lines ++ [refresh_prefix ++ refresh_token] in
      Py.join [Py.nl] lines
  | None =>
      ([Py.nl] ++ access_prefix ++ access_token) ++
      ([Py.nl] ++ refresh_prefix ++ refresh_token)
  end.

(** The lines of a text of [.env], as [update_env_tokens] sees them. *)
Definition env_lines (on_disk : Py.str) : list Py.str :=
  Vectorize.split [Py.nl] (Vectorize.universal_newlines on_disk).

Definition one_line (s : Py.str) : bool :=
  negb (has_char 10 s) && negb (has_char 13 s).

(** ** Sample data for the instances of the further properties *)

Definition sample_url : Py.str := Py.lit "https://example.com/a".

(** The record that a run makes of [sample_item]. *)
Definition stored_record : article_record :=
  make_record sample_item sample_url sample_id (Py.lit "Zoning vote")
              sample_text sample_world.

Definition stored_ledger : list pyval := [record_dict stored_record].

(** A decoder that knows two documents: the empty list and the text that
    [json.dumps] makes of [stored_ledger]. *)
Definition ledger_loads (data : Py.bytes) : result pyval :=
  if bytes_eqb data (bytes_of (Py.lit "[]")) then Ok (PList [])
  else if bytes_eqb data (bytes_of (sample_dumps (PList stored_ledger)))
       then Ok (PList stored_ledger)
  else Err JSONDecodeError.

Definition state_of (r : result run_state) : run_state :=
  match r with
  | Ok st => st
  | Err _ => start [] [] []
  end.

(** An entry without link. *)
Definition linkless_item : feed_item :=
  mkFeedItem (Py.lit "No link") None [] (Py.lit "The Lens").

Definition four_entries : list (feed_item * world) :=
  [ (other_item, sample_world); (linkless_item, sample_world);
    (sample_item, sample_world); (other_item, sample_world) ].

Definition old_env : Py.str :=
  Py.lit "BOX_CLIENT_ID=abc" ++ [Py.nl] ++
  Py.lit "BOX_ACCESS_TOKEN=old" ++ [13; Py.nl] ++
  Py.lit "BOX_FOLDER_ID=0".

(** A ledger entry that [json.loads] returns for an id written with the
    escape of a lone surrogate, U+D800. *)
Definition surrogate_entry : pyval := PDict [(Py.lit "id", PStr [0xD800])].

(** A text with an apostrophe where the JSON text has a quotation mark. *)
Definition quoted (s : Py.str) : Py.str :=
  map (fun c => if c =? 39 then 34 else c) s.

(** A value with every kind of member but a float, and a string with every
    kind of character. *)
Definition nested_value : pyval :=
  PList [ PDict [(Py.lit "id", PStr (Py.lit "a"))];
          PDict [(Py.lit "id", PStr (Py.lit "b"));
                 (Py.lit "n", PList [PInt 1; PInt (-5); PNone; PBool true;
                                     PList []; PDict []])] ].

Definition escaped_value : pyval :=
  PList [PStr [113; 34; 98; 92; 115; 10; 13; 9; 8; 12; 1; 31; 127; 32; 233;
               0xD800]].

(** A file that the reader takes for a document: it has two delimiters. *)
Definition is_document (file : Py.str * Py.str) : bool :=
  match Vectorize.read_document (snd file) with
  | Some _ => true
  | None => false
  end.

(** The triple that [make_vector_db] adds for a file. *)
Definition triple_of (file : Py.str * Py.str)
    (t : Py.str * Vectorize.frontmatter * Py.str) : Prop :=
  exists fm text id,
    Vectorize.read_document (snd file) = Some (fm, text) /\
    Vectorize.article_id (fst file) = Ok id /\
    t = (text, fm, id).

(** Every text that [record_md] puts into a document. *)
Definition document_parts (rec : article_record) (full_text : Py.str)
  : Py.str :=
  rec_source rec ++ rec_title rec ++ rec_url rec ++ rec_published rec ++
  rec_saved_at rec ++ full_text.

(** A frontmatter as a dict of stripped strings: each key once, no colon in
    a key, no whitespace around a key or a value. *)
Definition stripped_entry (kv : Py.str * Py.str) : Prop :=
  Py.strip (fst kv) = fst kv /\ Py.strip (snd kv) = snd kv /\
  has_char 58 (fst kv) = false.

(** * Properties *)

Lemma Ok_inj {A : Type} (a b : A) : Ok a = Ok b -> a = b.
Proof. intros H. now injection H. Qed.

(** ** Strings *)

Lemma str_eqb_refl (s : Py.str) : Py.str_eqb s s = true.
Proof.
  induction s as [|c s IH]; simpl; [reflexivity|].
  now rewrite Z.eqb_refl, IH.
Qed.

Lemma str_eqb_eq (a b : Py.str) : Py.str_eqb a b = true <-> a = b.
Proof.
  split.
  - revert b. induction a as [|x a IH]; intros [|y b] H; simpl in H;
      try discriminate; [reflexivity|].
    apply andb_true_iff in H. destruct H as [Hxy Hab].
    apply Z.eqb_eq in Hxy. apply IH in Hab. now subst.
  - intros ->. apply str_eqb_refl.
Qed.

Lemma startswith_spec (k s : Py.str) :
  Py.startswith k s = true <-> exists t, s = k ++ t.
Proof.
  revert s. induction k as [|x k IH]; intros s; simpl.
  - split; [intros _; now exists s | reflexivity].
  - destruct s as [|y s].
    + split; [discriminate | intros [t Ht]; discriminate].
    + rewrite andb_true_iff, Z.eqb_eq, IH. split.
      * intros [-> [t ->]]. now exists t.
      * intros [t Ht]. injection Ht as -> ->.
        split; [reflexivity | now exists t].
Qed.

Lemma contains_spec (k s : Py.str) : Py.contains k s = true <-> substring k s.
Proof.
  unfold substring. induction s as [|c s IH].
  - simpl. rewrite orb_false_r, startswith_spec. split.
    + intros [t Ht]. exists [], t. exact Ht.
    + intros [a [b H]]. destruct a; [now exists b|discriminate].
  - cbn [Py.contains]. rewrite orb_true_iff, startswith_spec, IH. split.
    + intros [[t Ht] | [a [b H]]].
      * exists [], t. exact Ht.
      * exists (c :: a), b. simpl. now rewrite H.
    + intros [[|x a] [b H]].
      * left. now exists b.
      * right. injection H as -> ->. now exists a, b.
Qed.

(** ** SHA-256 and [sha16] *)

Lemma encode_utf8_scalar (u : Py.str) :
  forallb Py.is_scalar u = true -> exists data, Py.encode_utf8 u = Ok data.
Proof.
  induction u as [|c u IH]; simpl; intros H.
  - now exists [].
  - apply andb_true_iff in H. destruct H as [Hc Hu].
    destruct (IH Hu) as [bs Hbs]. rewrite Hbs.
    unfold Py.utf8_char. rewrite Hc. simpl.
    destruct (c <? 128); [eexists; reflexivity|].
    destruct (c <? 2048); [eexists; reflexivity|].
    destruct (c <? 65536); eexists; reflexivity.
Qed.

Lemma encode_utf8_not_scalar (u : Py.str) :
  forallb Py.is_scalar u = false -> Py.encode_utf8 u = Err UnicodeEncodeError.
Proof.
  induction u as [|c u IH]; [discriminate|].
  cbn [forallb Py.encode_utf8]. intros H. unfold Py.utf8_char at 1.
  destruct (Py.is_scalar c) eqn:Hc; cbn [negb andb] in *; [|reflexivity].
  rewrite (IH H).
  destruct (c <? 128); [reflexivity|].
  destruct (c <? 2048); [reflexivity|].
  destruct (c <? 65536); reflexivity.
Qed.

Lemma sha16_not_scalar (u : Py.str) :
  forallb Py.is_scalar u = false -> sha16 u = Err UnicodeEncodeError.
Proof.
  intros H. unfold sha16. now rewrite (encode_utf8_not_scalar u H).
Qed.

Lemma encode_utf8_ok_scalar (u : Py.str) (data : Py.bytes) :
  Py.encode_utf8 u = Ok data -> forallb Py.is_scalar u = true.
Proof.
  intros H. destruct (forallb Py.is_scalar u) eqn:E; [reflexivity|].
  rewrite (encode_utf8_not_scalar u E) in H. discriminate.
Qed.

Lemma hex_length (bs : Py.bytes) :
  length (Sha256.hex bs) = (2 * length bs)%nat.
Proof.
  unfold Sha256.hex. induction bs as [|b bs IH]; simpl; [reflexivity|].
  rewrite IH. lia.
Qed.

Lemma digest_length (data : Py.bytes) : length (Sha256.digest data) = 32%nat.
Proof.
  unfold Sha256.digest. cbv zeta.
  repeat rewrite length_app. unfold Sha256.word_bytes.
  repeat rewrite length_map. reflexivity.
Qed.

Lemma hex_of_byte_lower (b : byte) :
  forallb is_lower_hex (Sha256.hex_of_byte b) = true.
Proof. destruct b; reflexivity. Qed.

Lemma hex_lower (bs : Py.bytes) : forallb is_lower_hex (Sha256.hex bs) = true.
Proof.
  unfold Sha256.hex. induction bs as [|b bs IH]; [reflexivity|].
  cbn [flat_map]. rewrite forallb_app, hex_of_byte_lower, IH. reflexivity.
Qed.

Lemma forallb_firstn {A : Type} (f : A -> bool) (n : nat) (l : list A) :
  forallb f l = true -> forallb f (firstn n l) = true.
Proof.
  revert l. induction n as [|n IH]; intros [|x l]; simpl; auto.
  intros H. apply andb_true_iff in H. destruct H as [Hx Hl].
  now rewrite Hx, IH.
Qed.

Lemma sha16_ok (u : Py.str) (h : Py.str) :
  sha16 u = Ok h -> length h = 16%nat /\ forallb is_lower_hex h = true.
Proof.
  unfold sha16. destruct (Py.encode_utf8 u) as [data|e]; cbn [bind];
    [|discriminate].
  intros H. apply Ok_inj in H. subst h.
  unfold Py.slice_to, Sha256.hexdigest. split.
  - rewrite length_firstn, hex_length, digest_length. reflexivity.
  - apply forallb_firstn, hex_lower.
Qed.

Lemma sha16_total (u : Py.str) :
  forallb Py.is_scalar u = true -> exists key, sha16 u = Ok key.
Proof.
  intros Hu. destruct (encode_utf8_scalar u Hu) as [data Hdata].
  unfold sha16. rewrite Hdata. eexists. reflexivity.
Qed.

(** C7: on every string that UTF-8 can encode, which is a sequence of
    Unicode scalar values, [sha16] returns; its result has exactly 16
    characters, all of them lowercase hexadecimal digits, it is the first 16
    digits of the SHA-256 hex digest of the UTF-8 bytes, and an equal input
    gives the same result.  The digest is that of the standard: on the
    test messages of one and two blocks, and on text outside ASCII, it is the
    published one. *)
Theorem sha16_sixteen_lowercase_hex (u : Py.str)
    (Hu : forallb Py.is_scalar u = true) :
  (exists data h,
     Py.encode_utf8 u = Ok data /\
     sha16 u = Ok h /\
     h = firstn 16 (Sha256.hexdigest data) /\
     length h = 16%nat /\
     forallb is_lower_hex h = true /\
     (forall u', u' = u -> sha16 u' = Ok h)) /\
  Sha256.hexdigest [] =
    Py.lit "e3b0c44298fc1c149afbf4c8996fb92427ae41e4649b934ca495991b7852b855" /\
  Sha256.hexdigest [x61; x62; x63] =
    Py.lit "ba7816bf8f01cfea414140de5dae2223b00361a396177a9cb410ff61f20015ad" /\
  Sha256.hexdigest (repeat x61 119) =
    Py.lit "31eba51c313a5c08226adf18d4a359cfdfd8d2e816b13f4af952f7ea6584dcfb" /\
  sha16 (Py.lit "abcdbcdecdefdefgefghfghighijhijkijkljklmklmnlmnomnopnopq") =
    Ok (Py.lit "248d6a61d20638b8") /\
  sha16 [0xE9; 0x20AC; 0x1F600] = Ok (Py.lit "df9226927fd572c1").
Proof.
  split.
  - destruct (encode_utf8_scalar u Hu) as [data Hdata].
    assert (Hs : sha16 u = Ok (firstn 16 (Sha256.hexdigest data))).
    { unfold sha16. rewrite Hdata. reflexivity. }
    exists data, (firstn 16 (Sha256.hexdigest data)).
    destruct (sha16_ok u _ Hs) as [Hlen Hhex].
    repeat split; auto. intros u' ->. exact Hs.
  - split; [vm_compute; reflexivity|]. split; [vm_compute; reflexivity|].
    split; [vm_compute; reflexivity|]. split; vm_compute; reflexivity.
Qed.

(** ** The Box folder *)

Lemma is_file_named_name (n : Py.str) (it : box_item) :
  is_file_named n it = true -> item_name it = n.
Proof.
  unfold is_file_named. intros H. apply andb_true_iff in H.
  now apply str_eqb_eq.
Qed.

Lemma find_file_update_same (n : Py.str) (data : Py.bytes) (items : box_folder)
    (it : box_item) :
  find_file n items = Some it ->
  find_file n (update_contents n data items) = Some (mkItem n KFile data).
Proof.
  unfold find_file. induction items as [|x items IH]; simpl; [discriminate|].
  destruct (is_file_named n x) eqn:Hx.
  - intros _. simpl. rewrite (is_file_named_name _ _ Hx).
    unfold is_file_named. simpl. now rewrite str_eqb_refl.
  - intros H. simpl. rewrite Hx. now apply IH.
Qed.

Lemma find_file_upload_same (n : Py.str) (data : Py.bytes)
    (items : box_folder) :
  find_file n items = None ->
  find_file n (upload_stream n data items) = Some (mkItem n KFile data).
Proof.
  unfold find_file, upload_stream.
  induction items as [|x items IH]; simpl.
  - intros _. unfold is_file_named. simpl. now rewrite str_eqb_refl.
  - destruct (is_file_named n x); [discriminate | exact IH].
Qed.

Lemma is_file_named_other (n m : Py.str) (k : item_kind) (d : Py.bytes) :
  Py.str_eqb m n = false -> is_file_named m (mkItem n k d) = false.
Proof.
  unfold is_file_named. simpl. intros H.
  destruct (Py.str_eqb n m) eqn:E; [|reflexivity].
  apply str_eqb_eq in E. subst. now rewrite str_eqb_refl in H.
Qed.

Lemma find_file_update_other (n m : Py.str) (data : Py.bytes)
    (items : box_folder) :
  Py.str_eqb m n = false ->
  find_file m (update_contents n data items) = find_file m items.
Proof.
  intros Hmn. unfold find_file.
  induction items as [|x items IH]; simpl; [reflexivity|].
  destruct (is_file_named n x) eqn:Hx; simpl.
  - rewrite (is_file_named_name _ _ Hx), (is_file_named_other _ _ _ _ Hmn).
    destruct (is_file_named m x) eqn:Hm; [|reflexivity].
    apply is_file_named_name in Hx. apply is_file_named_name in Hm.
    rewrite Hx in Hm. subst. now rewrite str_eqb_refl in Hmn.
  - now rewrite IH.
Qed.

Lemma find_file_upload_other (n m : Py.str) (data : Py.bytes)
    (items : box_folder) :
  Py.str_eqb m n = false ->
  find_file m (upload_stream n data items) = find_file m items.
Proof.
  intros Hmn. unfold find_file, upload_stream.
  induction items as [|x items IH]; simpl.
  - now rewrite (is_file_named_other _ _ _ _ Hmn).
  - now rewrite IH.
Qed.

Lemma save_articles_document (folder : box_folder) (articles : list pyval)
    (data : Py.bytes) :
  ledger_bytes articles = Ok data ->
  exists folder',
    save_articles_to_box true folder articles = Ok folder' /\
    ledger_document folder' = Some data /\
    (forall m, Py.str_eqb m articles_json = false ->
               find_file m folder' = find_file m folder).
Proof.
  intros Hdata. unfold save_articles_to_box, ledger_document. cbn [negb].
  rewrite Hdata. cbn [bind].
  destruct (find_file articles_json folder) as [it|] eqn:Hf.
  - eexists. split; [reflexivity|]. split.
    + now rewrite (find_file_update_same _ _ _ _ Hf).
    + intros m Hm. now apply find_file_update_other.
  - eexists. split; [reflexivity|]. split.
    + now rewrite (find_file_upload_same _ _ _ Hf).
    + intros m Hm. now apply find_file_upload_other.
Qed.

Lemma encode_utf8_error (u : Py.str) (e : exn) :
  Py.encode_utf8 u = Err e -> e = UnicodeEncodeError.
Proof.
  induction u as [|c u IH]; cbn [Py.encode_utf8]; [discriminate|].
  unfold Py.utf8_char. destruct (negb (Py.is_scalar c)); cbn [bind].
  - intros H. now injection H.
  - destruct (Py.encode_utf8 u) as [bs|e'].
    + destruct (c <? 128); [discriminate|].
      destruct (c <? 2048); [discriminate|].
      destruct (c <? 65536); discriminate.
    + intros H. apply IH.
      destruct (c <? 128); [exact H|].
      destruct (c <? 2048); [exact H|].
      destruct (c <? 65536); exact H.
Qed.

Lemma save_articles_raises (folder : box_folder) (articles : list pyval)
    (e : exn) :
  ledger_bytes articles = Err e ->
  save_articles_to_box true folder articles = Err UnicodeEncodeError.
Proof.
  intros H. unfold save_articles_to_box. cbn [negb].
  rewrite H. cbn [bind]. f_equal.
  exact (encode_utf8_error _ _ H).
Qed.

(** C1: with at least one new record, and when the text of the existing
    entries followed by the new ones can be encoded in UTF-8, the merge
    returns and stores exactly these, in that order, as the whole content of
    [articles.json], and touches no other file of the folder; when the text
    cannot be encoded, which is when it holds a lone surrogate, the merge
    raises [UnicodeEncodeError] and nothing is written.  With no new record
    it returns the ledger and the folder as they were, whether or not the Box
    API can be reached. *)
Theorem merge_and_persist_appends (folder : box_folder) (existing : list pyval)
    (r : article_record) (more : list article_record) (api_ok : bool) :
  match ledger_bytes (existing ++ map record_dict (r :: more)) with
  | Ok data =>
      exists folder',
        merge_and_persist true folder existing (r :: more) =
          Ok (existing ++ map record_dict (r :: more), folder') /\
        ledger_document folder' = Some data /\
        (forall m, Py.str_eqb m articles_json = false ->
                   find_file m folder' = find_file m folder)
  | Err _ =>
      merge_and_persist true folder existing (r :: more) =
        Err UnicodeEncodeError
  end /\
  merge_and_persist api_ok folder existing [] = Ok (existing, folder).
Proof.
  split; [|reflexivity].
  unfold merge_and_persist. cbn [is_empty].
  destruct (ledger_bytes (existing ++ map record_dict (r :: more)))
    as [data|e] eqn:Hdata.
  - destruct (save_articles_document folder _ data Hdata)
      as [folder' [Hs [Hd Ho]]].
    exists folder'. rewrite Hs. cbn [bind]. auto.
  - now rewrite (save_articles_raises folder _ e Hdata).
Qed.

(** C9: when [articles.json] is there and its bytes decode to a JSON value
    that is not a list, the load returns the empty list, and leaves the
    folder alone. *)
Theorem load_non_list_is_empty (folder : box_folder) (f : box_item) (v : pyval)
    (Hfile : find_file articles_json folder = Some f)
    (Hjson : json_loads (item_content f) = Ok v)
    (Hnot : forall l, v <> PList l) :
  load_articles_from_box true folder = Ok ([], folder).
Proof.
  unfold load_articles_from_box. cbn [negb]. rewrite Hfile, Hjson. cbn [bind].
  destruct v; try reflexivity. now contradiction (Hnot l).
Qed.

(** ** The seen set *)

Lemma get_seen_urls_app (l1 l2 : list pyval) :
  get_seen_urls (l1 ++ l2) =
  let* s1 := get_seen_urls l1 in
  let* s2 := get_seen_urls l2 in
  Ok (s1 ++ s2).
Proof.
  induction l1 as [|a l1 IH]; cbn [app get_seen_urls bind].
  - destruct (get_seen_urls l2); reflexivity.
  - destruct (py_get a (Py.lit "id")) as [c|e]; cbn [bind]; [|reflexivity].
    destruct (if truthy c then _ else _) as [here|e]; cbn [bind];
      [|reflexivity].
    rewrite IH. destruct (get_seen_urls l1) as [s1|e]; cbn [bind];
      [|reflexivity].
    destruct (get_seen_urls l2) as [s2|e]; cbn [bind]; [|reflexivity].
    now rewrite app_assoc.
Qed.

Lemma get_seen_urls_falsy (r v : pyval) :
  py_get r (Py.lit "id") = Ok v -> truthy v = false ->
  get_seen_urls [r] = Ok [].
Proof.
  intros Hget Hf. cbn [get_seen_urls]. rewrite Hget. cbn [bind].
  rewrite Hf. reflexivity.
Qed.

Lemma ids_app (l1 l2 : list pyval) : ids (l1 ++ l2) = ids l1 ++ ids l2.
Proof. unfold ids. apply flat_map_app. Qed.

Lemma ids_records (rs : list article_record) :
  ids (map record_dict rs) = map (fun r => PStr (rec_id r)) rs.
Proof.
  induction rs as [|r rs IH]; [reflexivity|].
  change (ids (map record_dict (r :: rs)))
    with (PStr (rec_id r) :: ids (map record_dict rs)).
  now rewrite IH.
Qed.

Lemma in_ids (articles : list pyval) (v : pyval) :
  In v (ids articles) <-> exists a, In a articles /\ id_field a = Some v.
Proof.
  unfold ids. rewrite in_flat_map. split.
  - intros [a [Ha Hv]]. exists a. split; [exact Ha|].
    destruct (id_field a) as [x|]; simpl in Hv; [|contradiction].
    destruct Hv as [->|[]]. reflexivity.
  - intros [a [Ha Hv]]. exists a. split; [exact Ha|].
    rewrite Hv. now left.
Qed.

Lemma set_contains_str_in (k : Py.str) (s : pyset) :
  In (PStr k) s -> set_contains_str k s = true.
Proof.
  intros H. unfold set_contains_str. apply existsb_exists.
  exists (PStr k). split; [exact H | apply str_eqb_refl].
Qed.

Lemma get_seen_urls_covers (articles : list pyval) (s : pyset) :
  get_seen_urls articles = Ok s ->
  forall a v, In a articles -> id_field a = Some v -> truthy v = true ->
              In v s.
Proof.
  revert s. induction articles as [|x articles IH]; intros s Hs a v Ha Hv Ht.
  - contradiction.
  - cbn [get_seen_urls] in Hs.
    destruct (py_get x (Py.lit "id")) as [c|e] eqn:Hc; cbn [bind] in Hs;
      [|discriminate].
    destruct (if truthy c then _ else _) as [here|e] eqn:Hh; cbn [bind] in Hs;
      [|discriminate].
    destruct (get_seen_urls articles) as [more|e]; cbn [bind] in Hs;
      [|discriminate].
    apply Ok_inj in Hs. subst s. apply in_or_app.
    destruct Ha as [->|Ha]; [left | right; now apply (IH more eq_refl a v)].
    destruct a as [| | | | | |d]; try discriminate Hv.
    unfold py_get in Hc. cbn [id_field] in Hv. rewrite Hv in Hc.
    apply Ok_inj in Hc. subst c. rewrite Ht in Hh.
    cbn [bind] in Hh.
    destruct (hashable v); [|discriminate].
    apply Ok_inj in Hh. subst here. now left.
Qed.

(** What the [try] block can do to the seen set and to the added records. *)
Lemma try_item_cases (st : run_state) (item : feed_item) (url key : Py.str)
    (w : world) :
  let st' := try_item st item url key w in
  (seen st' = seen st /\ new_articles st' = new_articles st) \/
  (exists rec, rec_id rec = key /\
               seen st' = PStr key :: seen st /\
               new_articles st' = new_articles st ++ [rec]).
Proof.
  unfold try_item.
  destruct (extract_text (w_render w)) as [[title_ext text]|e]; [|now left].
  destruct (negb (looks_relevant _ text)); [now left|].
  destruct (record_md _ _) as [data|e]; [|now left].
  destruct (negb (w_write_ok w)); [now left|].
  destruct (box_upload_file _ _ _ _ _) as [folder|e]; [|now left].
  right. eexists. split; [|split].
  3: reflexivity.
  all: reflexivity.
Qed.

Lemma loop_invariant_admit (articles : list pyval) (st st' : run_state)
    (key : Py.str) (rec : article_record) :
  loop_invariant articles st ->
  key <> [] -> set_contains_str key (seen st) = false ->
  rec_id rec = key ->
  seen st' = PStr key :: seen st ->
  new_articles st' = new_articles st ++ [rec] ->
  loop_invariant articles st'.
Proof.
  intros [Hcov [Hnew Hnd]] Hne Hfresh Hid Hseen Hnews.
  unfold loop_invariant. rewrite Hseen, Hnews. repeat split.
  - intros a v Ha Hv Ht. right. now apply (Hcov a v).
  - apply in_app_or in H. destruct H as [H|[<-|[]]].
    + now apply Hnew.
    + now rewrite Hid.
  - apply in_app_or in H. cbn [set_contains_str existsb].
    destruct H as [H|[<-|[]]].
    + apply orb_true_iff. right. now apply Hnew.
    + now rewrite Hid, str_eqb_refl.
  - rewrite map_app, app_assoc, ids_app. apply NoDup_app.
    + exact Hnd.
    + simpl. rewrite Hid. constructor; [intros [] | constructor].
    + intros v Hv [<-|[]]. rewrite Hid in Hv.
      rewrite ids_app, ids_records in Hv. apply in_app_or in Hv.
      assert (Hin : set_contains_str key (seen st) = true);
        [|rewrite Hin in Hfresh; discriminate].
      destruct Hv as [Hv|Hv].
      * apply in_ids in Hv. destruct Hv as [a [Ha Hf]].
        apply set_contains_str_in. apply (Hcov a _ Ha Hf).
        destruct key; [contradiction | reflexivity].
      * apply in_map_iff in Hv. destruct Hv as [r [Hr Hin]].
        injection Hr as Hr. rewrite <- Hr. now apply Hnew.
Qed.

Lemma loop_invariant_same (articles : list pyval) (st st' : run_state) :
  loop_invariant articles st ->
  seen st' = seen st -> new_articles st' = new_articles st ->
  loop_invariant articles st'.
Proof.
  unfold loop_invariant. intros H Hs Hn. now rewrite Hs, Hn.
Qed.

Lemma sha16_nonempty (u key : Py.str) : sha16 u = Ok key -> key <> [].
Proof.
  intros H. apply sha16_ok in H. destruct H as [H _].
  destruct key; [discriminate | discriminate].
Qed.

Lemma print_scalar (s : Py.str) :
  forallb Py.is_scalar s = true -> print s = Ok tt.
Proof.
  intros H. unfold print. destruct (encode_utf8_scalar s H) as [data Hd].
  now rewrite Hd.
Qed.

Lemma print_error (s : Py.str) (e : exn) :
  print s = Err e -> e = UnicodeEncodeError.
Proof.
  unfold print. destruct (Py.encode_utf8 s) as [data|e'] eqn:H; cbn [bind];
    [discriminate|].
  intros H'. injection H' as <-. exact (encode_utf8_error s e' H).
Qed.

(** In a hypothesis that says a computation returned, pass the messages
    that were printed on the way. *)
Ltac pass_prints H :=
  repeat match type of H with
         | context [print ?s] =>
             destruct (print s) as [[]|?]; cbn [bind] in H;
             [|discriminate H]
         end.

(** What an iteration that ends normally has done. *)
Lemma process_item_ok (st st' : run_state) (item : feed_item) (w : world) :
  process_item st (item, w) = Ok st' ->
  match has_url item with
  | None =>
      st' = mkRun (seen st) (new_articles st) (out_dir st) (box st)
                  (processed_count st) (skipped_seen st)
                  (skipped_no_url st + 1)
  | Some url =>
      exists key, sha16 url = Ok key /\
        if set_contains_str key (seen st) then st' = skip_seen st
        else st' = try_item (enter st) item url key w
  end.
Proof.
  unfold process_item. destruct (has_url item) as [url|].
  - destruct (sha16 url) as [key|e]; cbn [bind]; [|discriminate].
    intros H. exists key. split; [reflexivity|].
    destruct (set_contains_str key (seen st)).
    + now apply Ok_inj in H.
    + destruct (print (Py.slice_to 60 (it_title item))) as [[]|e];
        cbn [bind] in H; [|discriminate].
      destruct (print (it_source item)) as [[]|e]; cbn [bind] in H;
        [|discriminate].
      now apply Ok_inj in H.
  - destruct (print (Py.slice_to 50 (it_title item))) as [[]|e]; cbn [bind];
      [|discriminate].
    intros H. now apply Ok_inj in H.
Qed.

Lemma process_item_invariant (articles : list pyval) (st st' : run_state)
    (iw : feed_item * world) :
  loop_invariant articles st -> process_item st iw = Ok st' ->
  loop_invariant articles st'.
Proof.
  intros Hinv. destruct iw as [item w]. intros H.
  apply process_item_ok in H. destruct (has_url item) as [url|].
  - destruct H as [key [Hkey H]].
    destruct (set_contains_str key (seen st)) eqn:Hin; subst st'.
    + now apply (loop_invariant_same articles st).
    + destruct (try_item_cases (enter st) item url key w)
        as [[Hs Hn]|[rec [Hid [Hs Hn]]]].
      * now apply (loop_invariant_same articles st).
      * apply (loop_invariant_admit articles st _ key rec); auto.
        now apply (sha16_nonempty url).
  - subst st'. now apply (loop_invariant_same articles st).
Qed.

Lemma run_loop_invariant (articles : list pyval)
    (feed : list (feed_item * world)) (st st' : run_state) :
  loop_invariant articles st -> run_loop st feed = Ok st' ->
  loop_invariant articles st'.
Proof.
  revert st. induction feed as [|iw feed IH]; intros st Hinv; cbn [run_loop].
  - intros H. apply Ok_inj in H. now subst.
  - destruct (process_item st iw) as [st1|e] eqn:Hp; cbn [bind];
      [|discriminate].
    apply IH. now apply (process_item_invariant articles st st1 iw).
Qed.

Lemma dict_lookup_set {V : Type} (k : Py.str) (v : V) (d : list (Py.str * V)) :
  dict_lookup k (dict_set k v d) = Some v.
Proof.
  induction d as [|[k' v'] d IH]; simpl.
  - now rewrite str_eqb_refl.
  - destruct (Py.str_eqb k' k) eqn:E; simpl; rewrite E;
      [reflexivity | exact IH].
Qed.

(** The [try] block when nothing fails and the page is relevant. *)
Lemma try_item_admitted (st : run_state) (item : feed_item)
    (url key title_ext text : Py.str) (data : Py.bytes) (w : world) :
  let title := chosen_title item title_ext in
  let rec := make_record item url key title (Py.strip text) w in
  let name := md_filename (it_published item) (w_today w) key title in
  extract_text (w_render w) = Ok (title_ext, text) ->
  looks_relevant title text = true ->
  record_md rec (Py.strip text) = Ok data ->
  w_write_ok w = true -> w_upload_ok w = true ->
  exists folder,
    try_item st item url key w =
      mkRun (PStr key :: seen st) (new_articles st ++ [rec])
            (write_bytes name data (out_dir st)) folder
            (processed_count st) (skipped_seen st) (skipped_no_url st) /\
    option_map item_content (find_file name folder) = Some data.
Proof.
  intros title rec name Hx Hrel Hmd Hw Hu. unfold try_item.
  rewrite Hx. fold title. rewrite Hrel. cbn [negb]. fold rec.
  rewrite Hmd, Hw, Hu. cbn [negb]. unfold box_upload_file. cbn [negb].
  change (rec_published rec) with (it_published item). fold name.
  unfold read_bytes, write_bytes. rewrite dict_lookup_set. cbn [bind].
  destruct (find_file name (box st)) as [f|] eqn:Hf; eexists; split;
    try reflexivity.
  - now rewrite (find_file_update_same _ _ _ _ Hf).
  - now rewrite (find_file_upload_same _ _ _ Hf).
Qed.

Lemma get_seen_urls_only_ids (articles : list pyval) (s : pyset) :
  get_seen_urls articles = Ok s ->
  forall v, In v s -> exists a, In a articles /\ id_field a = Some v.
Proof.
  revert s. induction articles as [|x articles IH]; intros s Hs v Hv.
  - apply Ok_inj in Hs. subst s. contradiction.
  - cbn [get_seen_urls] in Hs.
    destruct x as [| | | | | |d]; try discriminate Hs.
    unfold py_get in Hs. cbn [bind] in Hs.
    destruct (get_seen_urls articles) as [more|e].
    + assert (Hrest : In v more -> exists a, In a (PDict d :: articles) /\
                                             id_field a = Some v).
      { intros Hm. destruct (IH more eq_refl v Hm) as [a [Ha Hf]].
        exists a. split; [now right | exact Hf]. }
      cbn [id_field].
      destruct (dict_lookup (Py.lit "id") d) as [c|] eqn:Hd.
      * destruct (truthy c); cbn [bind] in Hs.
        -- destruct (hashable c); cbn [bind] in Hs; [|discriminate].
           apply Ok_inj in Hs. subst s. destruct Hv as [<-|Hv]; [|auto].
           exists (PDict d). split; [now left | exact Hd].
        -- apply Ok_inj in Hs. subst s. auto.
      * cbn [truthy bind] in Hs. apply Ok_inj in Hs. subst s. auto.
    + destruct (dict_lookup (Py.lit "id") d) as [c|]; cbn [truthy bind] in Hs.
      * destruct (truthy c); cbn [bind] in Hs; [|discriminate].
        destruct (hashable c); discriminate.
      * discriminate.
Qed.

Lemma set_contains_str_false (key : Py.str) (s : pyset) :
  ~ In (PStr key) s -> set_contains_str key s = false.
Proof.
  intros Hn. unfold set_contains_str.
  destruct (existsb _ s) eqn:E; [|reflexivity].
  apply existsb_exists in E. destruct E as [v [Hv Hk]].
  destruct v; try discriminate. apply str_eqb_eq in Hk. now subst.
Qed.

(** A document that can be encoded has fields that can be printed. *)
Lemma record_md_scalar (rec : article_record) (full_text : Py.str)
    (data : Py.bytes) :
  record_md rec full_text = Ok data ->
  forallb Py.is_scalar (rec_source rec) = true /\
  forallb Py.is_scalar (rec_title rec) = true /\
  forallb Py.is_scalar (rec_published rec) = true.
Proof.
  unfold record_md. intros H. apply encode_utf8_ok_scalar in H.
  unfold record_md_text in H. rewrite !forallb_app in H.
  repeat match type of H with
         | (_ && _)%bool = true =>
             let H1 := fresh "P" in
             apply andb_true_iff in H; destruct H as [H1 H]
         end.
  split; [assumption|]. split; assumption.
Qed.

Lemma get_seen_urls_drop (l1 l2 : list pyval) (r v : pyval) :
  py_get r (Py.lit "id") = Ok v -> truthy v = false ->
  get_seen_urls (l1 ++ r :: l2) = get_seen_urls (l1 ++ l2).
Proof.
  intros Hget Hf. change (r :: l2) with ([r] ++ l2).
  rewrite !get_seen_urls_app, (get_seen_urls_falsy r v Hget Hf).
  destruct (get_seen_urls l1) as [s1|e]; cbn [bind]; [|reflexivity].
  destruct (get_seen_urls l2); reflexivity.
Qed.

(** C10: a ledger entry whose [id] is absent, empty or otherwise false adds
    nothing to the seen set.  So when no other entry carries the id that a
    feed item's URL hashes to, the item is not skipped: when the start of its
    title can be printed it enters the [try] block, and when its page is
    relevant and the document is written and uploaded, a record with that id
    is appended. *)
Theorem falsy_id_is_not_seen (l1 l2 : list pyval) (r v : pyval) (s : pyset)
    (item : feed_item) (w : world) (url key title_ext text : Py.str)
    (data : Py.bytes) (out : directory) (folder : box_folder)
    (Hget : py_get r (Py.lit "id") = Ok v)
    (Hfalsy : truthy v = false)
    (Hothers : forall a, In a (l1 ++ l2) -> id_field a <> Some (PStr key))
    (Hseen : get_seen_urls (l1 ++ r :: l2) = Ok s)
    (Hurl : has_url item = Some url)
    (Hkey : sha16 url = Ok key)
    (Htitle : forallb Py.is_scalar (Py.slice_to 60 (it_title item)) = true)
    (Hpage : extract_text (w_render w) = Ok (title_ext, text))
    (Hrel : looks_relevant (chosen_title item title_ext) text = true)
    (Hmd : record_md (make_record item url key (chosen_title item title_ext)
                                  (Py.strip text) w) (Py.strip text) = Ok data)
    (Hwrite : w_write_ok w = true)
    (Hupload : w_upload_ok w = true) :
  get_seen_urls (l1 ++ l2) = Ok s /\
  set_contains_str key s = false /\
  exists st',
    process_item (start s out folder) (item, w) = Ok st' /\
    st' = try_item (enter (start s out folder)) item url key w /\
    new_articles st' =
      [make_record item url key (chosen_title item title_ext)
                   (Py.strip text) w].
Proof.
  assert (Hs : get_seen_urls (l1 ++ l2) = Ok s).
  { now rewrite <- (get_seen_urls_drop l1 l2 r v Hget Hfalsy). }
  assert (Hno : set_contains_str key s = false).
  { apply set_contains_str_false. intros Hin.
    destruct (get_seen_urls_only_ids _ _ Hs _ Hin) as [a [Ha Hf]].
    exact (Hothers a Ha Hf). }
  split; [exact Hs|]. split; [exact Hno|].
  eexists. split; [|split; [reflexivity|]].
  - unfold process_item. rewrite Hurl, Hkey. cbn [bind].
    cbn [start seen]. rewrite Hno, (print_scalar _ Htitle). cbn [bind].
    destruct (record_md_scalar _ _ _ Hmd) as [Hsource _].
    cbn [make_record rec_source] in Hsource.
    rewrite (print_scalar _ Hsource). reflexivity.
  - destruct (try_item_admitted (enter (start s out folder)) item url key
                title_ext text data w Hpage Hrel Hmd Hwrite Hupload)
      as [folder' [Ht _]].
    rewrite Ht. reflexivity.
Qed.

(** C2: a run that starts from a ledger with pairwise distinct ids ends
    with a ledger, the loaded entries followed by the added records, whose
    ids are again pairwise distinct, and that is the ledger it stores when it
    added a record; an item whose id is in the seen set is skipped without
    its page being looked at, and no two added records share an id, however
    often a URL occurs in the feed. *)
Theorem run_keeps_ids_distinct (load_ok save_ok : bool) (folder : box_folder)
    (out : directory) (feed : list (feed_item * world))
    (articles : list pyval) (folder1 : box_folder) (res : outcome)
    (Hload : load_articles_from_box load_ok folder = Ok (articles, folder1))
    (Hdistinct : NoDup (ids articles))
    (Hrun : main load_ok save_ok folder out feed = Ok res) :
  final_articles res = articles ++ map record_dict (added res) /\
  NoDup (ids (final_articles res)) /\
  NoDup (map rec_id (added res)) /\
  (added res <> [] ->
   exists data,
     ledger_bytes (final_articles res) = Ok data /\
     ledger_document (final_box res) = Some data) /\
  (forall st item w url key,
     has_url item = Some url -> sha16 url = Ok key ->
     set_contains_str key (seen st) = true ->
     process_item st (item, w) = Ok (skip_seen st)).
Proof.
  unfold main in Hrun. rewrite Hload in Hrun. cbn [bind] in Hrun.
  destruct (get_seen_urls articles) as [seen0|e] eqn:Hseen; cbn [bind] in Hrun;
    [|discriminate].
  destruct (run_loop _ feed) as [st|e] eqn:Hloop; cbn [bind] in Hrun;
    [|discriminate].
  assert (Hinv : loop_invariant articles st).
  { refine (run_loop_invariant articles feed _ st _ Hloop).
    unfold loop_invariant. cbn [seen new_articles map]. split; [|split].
    - apply (get_seen_urls_covers articles seen0 Hseen).
    - intros r [].
    - now rewrite app_nil_r. }
  destruct Hinv as [_ [_ Hnd]].
  assert (Hadded : NoDup (map rec_id (new_articles st))).
  { rewrite ids_app, ids_records in Hnd. apply NoDup_app_remove_l in Hnd.
    rewrite <- (map_map rec_id PStr) in Hnd.
    now apply NoDup_map_inv in Hnd. }
  assert (Hskip : forall st0 item w url key,
     has_url item = Some url -> sha16 url = Ok key ->
     set_contains_str key (seen st0) = true ->
     process_item st0 (item, w) = Ok (skip_seen st0)).
  { intros st0 item w url key Hu Hk Hin. unfold process_item.
    rewrite Hu, Hk. cbn [bind]. rewrite Hin. reflexivity. }
  unfold merge_and_persist in Hrun.
  destruct (new_articles st) as [|r more] eqn:Hnew; cbn [is_empty bind] in Hrun.
  - apply Ok_inj in Hrun. subst res. cbn.
    rewrite app_nil_r in *. repeat split; auto. now intros [].
  - destruct save_ok; [|discriminate Hrun].
    destruct (ledger_bytes (articles ++ map record_dict (r :: more)))
      as [data|e] eqn:Hdata.
    + destruct (save_articles_document (box st) _ data Hdata)
        as [folder' [Hs [Hd _]]].
      rewrite Hs in Hrun. cbn [bind] in Hrun. apply Ok_inj in Hrun. subst res.
      cbn [final_articles final_box added]. repeat split; auto.
      intros _. exists data. now split.
    + rewrite (save_articles_raises (box st) _ e Hdata) in Hrun.
      discriminate Hrun.
Qed.

(** ** Extraction *)

Lemma weak_short (d : option Py.str) :
  Py.len (or_empty d) < 100 -> weak d = true.
Proof.
  destruct d as [s|]; simpl; [|reflexivity].
  intros H. apply orb_true_iff. right. now apply Z.ltb_lt.
Qed.

Lemma weak_long (s : Py.str) : 100 <= Py.len s -> weak (Some s) = false.
Proof.
  intros H. unfold weak. apply orb_false_iff. split.
  - destruct s; [unfold Py.len in H; simpl in H; lia | reflexivity].
  - apply Z.ltb_ge. exact H.
Qed.

(** C5, as amended: when the primary extraction gives fewer than 100
    characters and the page has an article element whose blocks of more
    than 20 characters (21 or more), joined by blank lines, make at least
    100 characters, the body returned is that text, whatever the paragraphs
    of the whole page are. *)
Theorem structural_stage_wins (primary meta_title title_tag : option Py.str)
    (paragraphs all_paragraphs : list Py.str)
    (Hprimary : Py.len (or_empty primary) < 100)
    (Hstructural : 100 <= Py.len (long_blocks paragraphs)) :
  snd (extract_page
         (mkPage primary meta_title (Some paragraphs) all_paragraphs title_tag))
    = long_blocks paragraphs /\
  long_blocks paragraphs =
    Py.join [Py.nl; Py.nl] (filter (fun p => 21 <=? Py.len p) paragraphs).
Proof.
  split.
  - unfold extract_page. cbn [page_extract page_article page_meta_title
                               page_paragraphs page_title_tag].
    rewrite (weak_short primary Hprimary).
    rewrite (weak_long _ Hstructural). reflexivity.
  - unfold long_blocks. f_equal. apply filter_ext. intros p.
    destruct (20 <? Py.len p) eqn:E1, (21 <=? Py.len p) eqn:E2; try reflexivity.
    + apply Z.ltb_lt in E1. apply Z.leb_gt in E2. lia.
    + apply Z.ltb_ge in E1. apply Z.leb_le in E2. lia.
Qed.

(** ** Relevance *)

Lemma filter_nonempty {A : Type} (f : A -> bool) (l : list A) :
  negb (is_empty (filter f l)) = true <-> exists x, In x l /\ f x = true.
Proof.
  split.
  - destruct (filter f l) as [|x r] eqn:E; [discriminate|].
    intros _. exists x. apply filter_In. rewrite E. now left.
  - intros [x Hx]. apply filter_In in Hx.
    destruct (filter f l); [contradiction | reflexivity].
Qed.

(** C6, as amended: the filter answers true exactly when some keyword
    occurs in the lower-cased text made of the title, a newline and the
    body; it answers true for the title City Council with an empty body and
    false for the title cats with the body we like cats. *)
Theorem looks_relevant_iff_keyword (title text : Py.str) :
  (looks_relevant title text = true <->
   exists k, In k KEYWORDS /\
             substring k (lower (title ++ [Py.nl] ++ text))) /\
  looks_relevant (Py.lit "City Council") [] = true /\
  looks_relevant (Py.lit "cats") (Py.lit "we like cats") = false.
Proof.
  split; [|split; vm_compute; reflexivity].
  unfold looks_relevant, matched_keywords. rewrite filter_nonempty.
  split; intros [k [Hk Hc]]; exists k; (split; [exact Hk|]);
    now apply contains_spec.
Qed.

(** ** File names *)

Lemma rstrip_suffix (s : Py.str) :
  exists ws, s = Py.rstrip s ++ ws /\ forallb Py.isspace ws = true.
Proof.
  induction s as [|c s [ws [Hs Hws]]].
  - now exists [].
  - cbn [Py.rstrip]. destruct (Py.rstrip s) as [|x r] eqn:E.
    + destruct (Py.isspace c) eqn:Hc.
      * exists (c :: s). split; [reflexivity|].
        simpl in Hs |- *. rewrite Hc. now rewrite Hs.
      * exists ws. split; [|exact Hws]. simpl in Hs |- *. congruence.
    + exists ws. split; [|exact Hws]. simpl in Hs |- *. congruence.
Qed.

Lemma rstrip_last (s a : Py.str) (c : Py.char) :
  Py.rstrip s = a ++ [c] -> Py.isspace c = false.
Proof.
  revert a. induction s as [|x s IH]; intros a H.
  - destruct a; discriminate.
  - cbn [Py.rstrip] in H. destruct (Py.rstrip s) as [|y r] eqn:E.
    + destruct (Py.isspace x) eqn:Hx.
      * destruct a; discriminate.
      * destruct a as [|a0 [|a1 a]]; try discriminate.
        injection H as <-. exact Hx.
    + destruct a as [|a0 a].
      * discriminate.
      * injection H as _ H. now apply (IH a).
Qed.

(** C8: the sanitized title is made of alphanumerics, spaces, hyphens and
    underscores only: it is the first 50 characters of what is left of the
    title when every other character is dropped and the trailing whitespace
    is cut off; so it has at most 50 characters.  Budget: 2024/25 Review!
    gives Budget 202425 Review. *)
Theorem clean_title_sanitizes (title : Py.str) :
  let kept := filter keeps title in
  forallb keeps (clean_title title) = true /\
  clean_title title = firstn 50 (Py.rstrip kept) /\
  (exists ws, kept = Py.rstrip kept ++ ws /\ forallb Py.isspace ws = true) /\
  (forall a c, Py.rstrip kept = a ++ [c] -> Py.isspace c = false) /\
  (length (clean_title title) <= 50)%nat /\
  clean_title (Py.lit "Budget: 2024/25 Review!") =
    Py.lit "Budget 202425 Review".
Proof.
  intros kept. unfold clean_title, Py.slice_to. fold kept.
  destruct (rstrip_suffix kept) as [ws [Hs Hws]].
  repeat split.
  - apply forallb_firstn.
    assert (Hk : forallb keeps kept = true) by apply forallb_filter.
    rewrite Hs, forallb_app in Hk. now apply andb_true_iff in Hk.
  - now exists ws.
  - apply rstrip_last.
  - apply firstn_le_length.
Qed.

(** What the file name is made of: the first ten characters of the
    published date as the feed gives it, or today's date when the feed gives
    none; the id; the sanitized title; the extension. *)
Lemma md_filename_shape (published today key title : Py.str) :
  md_filename published today key title =
    (match published with
     | [] => today
     | _ :: _ => firstn 10 published
     end) ++ Py.lit "_" ++ key ++ Py.lit "_" ++ clean_title title ++
    Py.lit ".md".
Proof. unfold md_filename, published_date. now destruct published. Qed.

(** ** Documents *)

Lemma record_md_text_blocks (rec : article_record) (full_text : Py.str) :
  record_md_text rec full_text =
  Py.lit "---" ++ (frontmatter_lines rec ++ [Py.nl]) ++
  Py.lit "---" ++ body_block full_text.
Proof.
  unfold record_md_text, frontmatter_lines, body_block.
  repeat rewrite <- app_assoc. reflexivity.
Qed.

Lemma has_char_app (c : Py.char) (a b : Py.str) :
  has_char c (a ++ b) = has_char c a || has_char c b.
Proof. apply existsb_app. Qed.

Lemma has_char_false (c : Py.char) (s : Py.str) :
  has_char c s = false <-> ~ In c s.
Proof.
  unfold has_char. split.
  - intros H Hin. assert (E : existsb (Z.eqb c) s = true).
    { apply existsb_exists. exists c. split; [exact Hin | apply Z.eqb_refl]. }
    rewrite E in H. discriminate.
  - intros H. destruct (existsb (Z.eqb c) s) eqn:E; [|reflexivity].
    apply existsb_exists in E. destruct E as [x [Hx Hc]].
    apply Z.eqb_eq in Hc. now subst.
Qed.

Lemma universal_newlines_id (s : Py.str) :
  has_char 13 s = false -> Vectorize.universal_newlines s = s.
Proof.
  induction s as [|c s IH]; [reflexivity|].
  cbn [has_char existsb]. intros H. apply orb_false_iff in H.
  destruct H as [Hc Hs]. cbn [Vectorize.universal_newlines].
  rewrite Z.eqb_sym, Hc. now rewrite (IH Hs).
Qed.

Lemma startswith_self (k b : Py.str) : Py.startswith k (k ++ b) = true.
Proof. apply startswith_spec. now exists b. Qed.

Lemma startswith_past (k a b : Py.str) (x : Py.char) :
  has_char x k = false ->
  Py.startswith k (a ++ x :: b) = Py.startswith k a.
Proof.
  revert a. induction k as [|k0 k IH]; intros a Hx; [reflexivity|].
  cbn [has_char existsb] in Hx. apply orb_false_iff in Hx.
  destruct Hx as [Hk0 Hk].
  destruct a as [|c a]; cbn [app Py.startswith].
  - rewrite Z.eqb_sym, Hk0. reflexivity.
  - now rewrite (IH a Hk).
Qed.

Lemma contains_nil (k : Py.str) : k <> [] -> Py.contains k [] = false.
Proof. destruct k; [contradiction | reflexivity]. Qed.

(** A character that is not in [k] cuts the search for [k] in two. *)
Lemma contains_past (k a b : Py.str) (x : Py.char) :
  k <> [] -> has_char x k = false ->
  Py.contains k (a ++ x :: b) = Py.contains k a || Py.contains k b.
Proof.
  intros Hk Hx. induction a as [|c a IH].
  - cbn [app Py.contains].
    pose proof (startswith_past k [] b x Hx) as E. cbn [app] in E. rewrite E.
    destruct k; [contradiction | reflexivity].
  - cbn [app Py.contains].
    change (c :: a ++ x :: b) with ((c :: a) ++ x :: b).
    rewrite (startswith_past k (c :: a) b x Hx), IH.
    now rewrite !orb_assoc.
Qed.

Lemma contains_startswith (k s : Py.str) :
  Py.contains k s = false -> Py.startswith k s = false.
Proof.
  destruct s; cbn [Py.contains]; intros H; apply orb_false_iff in H;
    exact (proj1 H).
Qed.

Lemma contains_tail (k s : Py.str) (c : Py.char) :
  Py.contains k (c :: s) = false -> Py.contains k s = false.
Proof.
  cbn [Py.contains]. intros H. apply orb_false_iff in H. exact (proj2 H).
Qed.

Lemma split_go_skip (k t b : Py.str) :
  Vectorize.split_go k (length t) (t ++ b) = Vectorize.split_go k 0 b.
Proof. induction t as [|c t IH]; [reflexivity | exact IH]. Qed.

Lemma split_here (k b : Py.str) :
  k <> [] -> Vectorize.split k (k ++ b) = [] :: Vectorize.split k b.
Proof.
  destruct k as [|c t]; [contradiction | intros _].
  unfold Vectorize.split. cbn [app Vectorize.split_go].
  change (c :: t ++ b) with ((c :: t) ++ b). rewrite startswith_self.
  replace (length (c :: t) - 1)%nat with (length t) by (cbn [length]; lia).
  now rewrite split_go_skip.
Qed.

Lemma split_none (k s : Py.str) :
  k <> [] -> Py.contains k s = false -> Vectorize.split k s = [s].
Proof.
  intros Hk. unfold Vectorize.split. induction s as [|c s IH]; intros H.
  - reflexivity.
  - cbn [Vectorize.split_go]. rewrite (contains_startswith _ _ H).
    now rewrite (IH (contains_tail _ _ _ H)).
Qed.

(** The text before the first occurrence of the separator is the first
    piece, when it ends with a character that the separator does not have. *)
Lemma split_first (k a b : Py.str) (x : Py.char) :
  k <> [] -> has_char x k = false -> Py.contains k a = false ->
  Vectorize.split k (a ++ x :: k ++ b) = (a ++ [x]) :: Vectorize.split k b.
Proof.
  intros Hk Hx. induction a as [|c a IH]; intros Ha.
  - unfold Vectorize.split. cbn [app Vectorize.split_go].
    pose proof (startswith_past k [] (k ++ b) x Hx) as E. cbn [app] in E.
    rewrite E.
    replace (Py.startswith k []) with false
      by (destruct k; [contradiction | reflexivity]).
    fold (Vectorize.split k (k ++ b)). now rewrite (split_here k b Hk).
  - unfold Vectorize.split in *. cbn [app Vectorize.split_go].
    change (c :: a ++ x :: k ++ b) with ((c :: a) ++ x :: k ++ b).
    rewrite (startswith_past k (c :: a) (k ++ b) x Hx).
    rewrite (contains_startswith _ _ Ha).
    now rewrite (IH (contains_tail _ _ _ Ha)).
Qed.

(** Lines: the separator is one character. *)
Lemma split_line_cons (x : Py.char) (a b : Py.str) :
  has_char x a = false ->
  Vectorize.split [x] (a ++ x :: b) = a :: Vectorize.split [x] b.
Proof.
  unfold Vectorize.split. induction a as [|c a IH]; intros Ha.
  - cbn [app Vectorize.split_go Py.startswith length Nat.sub].
    now rewrite Z.eqb_refl.
  - cbn [has_char existsb] in Ha. apply orb_false_iff in Ha.
    destruct Ha as [Hc Ha].
    cbn [app Vectorize.split_go Py.startswith]. rewrite Hc. cbn [andb].
    now rewrite (IH Ha).
Qed.

Lemma split_line (x : Py.char) (a b : Py.str) :
  has_char x a = false ->
  Vectorize.split [x] (a ++ [x] ++ b) = a :: Vectorize.split [x] b.
Proof. exact (split_line_cons x a b). Qed.

Lemma split_last_line (x : Py.char) (a : Py.str) :
  has_char x a = false -> Vectorize.split [x] a = [a].
Proof.
  unfold Vectorize.split. induction a as [|c a IH]; intros Ha; [reflexivity|].
  cbn [has_char existsb] in Ha. apply orb_false_iff in Ha.
  destruct Ha as [Hc Ha].
  cbn [Vectorize.split_go Py.startswith]. rewrite Hc. cbn [andb].
  now rewrite (IH Ha).
Qed.

Lemma split_once_colon (k v : Py.str) :
  has_char 58 k = false ->
  Vectorize.split_once 58 (k ++ 58 :: v) = Some (k, v).
Proof.
  induction k as [|c k IH]; intros Hk; [reflexivity|].
  cbn [has_char existsb] in Hk. apply orb_false_iff in Hk.
  destruct Hk as [Hc Hk]. cbn [app Vectorize.split_once].
  rewrite Z.eqb_sym, Hc. now rewrite (IH Hk).
Qed.

(** *** [strip] *)

Lemma rstrip_app (a b : Py.str) :
  Py.rstrip (a ++ b) =
  match Py.rstrip b with
  | [] => Py.rstrip a
  | _ :: _ => a ++ Py.rstrip b
  end.
Proof.
  induction a as [|c a IH].
  - cbn [app Py.rstrip]. now destruct (Py.rstrip b).
  - cbn [app Py.rstrip]. rewrite IH. destruct (Py.rstrip b) as [|y r].
    + reflexivity.
    + now destruct a.
Qed.

Lemma lstrip_length (s : Py.str) : (length (Py.lstrip s) <= length s)%nat.
Proof.
  induction s as [|c s IH]; cbn [Py.lstrip]; [lia|].
  destruct (Py.isspace c); cbn [length]; lia.
Qed.

Lemma lstrip_fix (s : Py.str) :
  length (Py.lstrip s) = length s -> Py.lstrip s = s.
Proof.
  destruct s as [|c s]; [reflexivity|]. cbn [Py.lstrip].
  destruct (Py.isspace c); [|reflexivity].
  intros H. pose proof (lstrip_length s). cbn [length] in H. lia.
Qed.

Lemma strip_fix (s : Py.str) :
  Py.strip s = s -> Py.rstrip s = s /\ Py.lstrip s = s.
Proof.
  unfold Py.strip. intros H.
  destruct (rstrip_suffix s) as [ws [Hs _]].
  pose proof (lstrip_length (Py.rstrip s)) as Hl.
  assert (Hlen : length s = (length (Py.rstrip s) + length ws)%nat).
  { rewrite Hs at 1. apply length_app. }
  rewrite H in Hl.
  assert (Hws : ws = []).
  { destruct ws; [reflexivity | cbn [length] in Hlen; lia]. }
  subst ws. rewrite app_nil_r in Hs. split; [now symmetry|].
  rewrite <- Hs in H. exact H.
Qed.

Lemma rstrip_cons (c : Py.char) (s : Py.str) :
  Py.rstrip (c :: s) =
  match Py.rstrip s with
  | [] => if Py.isspace c then [] else [c]
  | y :: r => c :: y :: r
  end.
Proof. reflexivity. Qed.

Lemma rstrip_idem (s : Py.str) : Py.rstrip (Py.rstrip s) = Py.rstrip s.
Proof.
  induction s as [|c s IH]; [reflexivity|]. rewrite (rstrip_cons c s).
  destruct (Py.rstrip s) as [|y r] eqn:E.
  - destruct (Py.isspace c) eqn:Hc; [reflexivity|].
    cbn [Py.rstrip]. now rewrite Hc.
  - rewrite (rstrip_cons c (y :: r)). now rewrite IH.
Qed.

(** A value written after [key: ] comes back without the blank. *)
Lemma strip_after_blank (s : Py.str) :
  Py.strip s = s -> Py.strip (Py.rstrip (32 :: s)) = s.
Proof.
  intros H. destruct (strip_fix s H) as [Hr Hl].
  unfold Py.strip. rewrite rstrip_idem, rstrip_cons, Hr.
  destruct s as [|c s]; [reflexivity|].
  cbn [Py.lstrip]. change (Py.isspace 32) with true. cbv iota. exact Hl.
Qed.

Lemma strip_body_block (body : Py.str) :
  Py.strip body = body -> Py.strip (body_block body) = body.
Proof.
  intros H. destruct (strip_fix body H) as [Hr Hl].
  unfold Py.strip, body_block.
  change ([Py.nl] ++ [Py.nl] ++ body ++ [Py.nl])
    with ([Py.nl; Py.nl] ++ body ++ [Py.nl]).
  rewrite rstrip_app, rstrip_app.
  change (Py.rstrip [Py.nl]) with (@nil Py.char).
  rewrite Hr. destruct body as [|c body]; [reflexivity|].
  cbn [app Py.lstrip]. change (Py.isspace Py.nl) with true. cbv iota.
  exact Hl.
Qed.

Lemma has_char_rstrip (c : Py.char) (s : Py.str) :
  has_char c s = false -> has_char c (Py.rstrip s) = false.
Proof.
  destruct (rstrip_suffix s) as [ws [Hs _]]. intros H.
  rewrite Hs, has_char_app in H. apply orb_false_iff in H. exact (proj1 H).
Qed.

Lemma rstrip_before (a b : Py.str) :
  Py.rstrip b <> [] -> Py.rstrip (a ++ b) = a ++ Py.rstrip b.
Proof.
  intros H. rewrite rstrip_app. destruct (Py.rstrip b); [contradiction|].
  reflexivity.
Qed.

Lemma rstrip_label (label v : Py.str) :
  label <> [] -> Py.rstrip label = label ->
  Py.rstrip (label ++ v) = label ++ Py.rstrip v.
Proof.
  intros Hne Hl. rewrite rstrip_app. destruct (Py.rstrip v).
  - now rewrite Hl, app_nil_r.
  - reflexivity.
Qed.

Lemma strip_blank (s : Py.str) : Py.strip s = s -> Py.strip (32 :: s) = s.
Proof.
  intros H. rewrite <- (strip_after_blank s H) at 2.
  unfold Py.strip. now rewrite rstrip_idem.
Qed.

Lemma parse_line_field (fm : Vectorize.frontmatter) (key v : Py.str) :
  has_char 58 key = false ->
  Vectorize.parse_line fm (key ++ 58 :: v) =
  dict_set (Py.strip key) (Py.strip v) fm.
Proof.
  intros H. unfold Vectorize.parse_line. now rewrite split_once_colon.
Qed.

Lemma plain_field_facts (s : Py.str) :
  plain_field s = true ->
  has_char 10 s = false /\ has_char 13 s = false /\
  Py.contains (Py.lit "---") s = false /\ Py.strip s = s.
Proof.
  unfold plain_field. intros H.
  repeat (apply andb_true_iff in H; destruct H as [H ?]).
  repeat match goal with
         | E : negb _ = true |- _ => apply negb_true_iff in E
         end.
  repeat split; try assumption. now apply str_eqb_eq.
Qed.

Lemma plain_body_facts (s : Py.str) :
  plain_body s = true ->
  has_char 13 s = false /\
  Py.contains (Py.lit "---") s = false /\ Py.strip s = s.
Proof.
  unfold plain_body. intros H.
  repeat (apply andb_true_iff in H; destruct H as [H ?]).
  repeat match goal with
         | E : negb _ = true |- _ => apply negb_true_iff in E
         end.
  repeat split; try assumption. now apply str_eqb_eq.
Qed.

Section RoundTrip.

Variables (key S U T P X preview body : Py.str).
Hypothesis HS : plain_field S = true.
Hypothesis HT : plain_field T = true.
Hypothesis HU : plain_field U = true.
Hypothesis HP : plain_field P = true.
Hypothesis HX : plain_field X = true.
Hypothesis Hbody : plain_body body = true.

Lemma frontmatter_lines_no_delimiter :
  Py.contains (Py.lit "---")
              (frontmatter_lines (mkRecord key S U T P X preview)) = false.
Proof.
  destruct (plain_field_facts S HS) as [_ [_ [HS3 _]]].
  destruct (plain_field_facts T HT) as [_ [_ [HT3 _]]].
  destruct (plain_field_facts U HU) as [_ [_ [HU3 _]]].
  destruct (plain_field_facts P HP) as [_ [_ [HP3 _]]].
  destruct (plain_field_facts X HX) as [_ [_ [HX3 _]]].
  change (frontmatter_lines (mkRecord key S U T P X preview)) with
    ([] ++ 10 :: Py.lit "source:" ++ 32 :: S ++
           10 :: Py.lit "title:" ++ 32 :: T ++
           10 :: Py.lit "url:" ++ 32 :: U ++
           10 :: Py.lit "published:" ++ 32 :: P ++
           10 :: Py.lit "saved_at:" ++ 32 :: X).
  rewrite !contains_past by (discriminate || reflexivity).
  rewrite HS3, HT3, HU3, HP3, HX3. reflexivity.
Qed.

Lemma body_block_no_delimiter :
  Py.contains (Py.lit "---") (body_block body) = false.
Proof.
  destruct (plain_body_facts body Hbody) as [_ [Hb _]].
  change (body_block body) with ([] ++ 10 :: [] ++ 10 :: body ++ 10 :: []).
  rewrite !contains_past by (discriminate || reflexivity).
  rewrite Hb. reflexivity.
Qed.

Lemma document_no_carriage_return :
  has_char 13 (record_md_text (mkRecord key S U T P X preview) body) = false.
Proof.
  destruct (plain_field_facts S HS) as [_ [HS2 _]].
  destruct (plain_field_facts T HT) as [_ [HT2 _]].
  destruct (plain_field_facts U HU) as [_ [HU2 _]].
  destruct (plain_field_facts P HP) as [_ [HP2 _]].
  destruct (plain_field_facts X HX) as [_ [HX2 _]].
  destruct (plain_body_facts body Hbody) as [Hb _].
  unfold record_md_text. cbn [rec_source rec_title rec_url rec_published
                              rec_saved_at].
  rewrite !has_char_app, HS2, HT2, HU2, HP2, HX2, Hb. reflexivity.
Qed.

Lemma stripped_lines :
  Py.strip (frontmatter_lines (mkRecord key S U T P X preview) ++ [Py.nl]) =
  Py.lit "source: " ++ S ++ [Py.nl] ++
  Py.lit "title: " ++ T ++ [Py.nl] ++
  Py.lit "url: " ++ U ++ [Py.nl] ++
  Py.lit "published: " ++ P ++ [Py.nl] ++
  Py.lit "saved_at:" ++ Py.rstrip (32 :: X).
Proof.
  unfold Py.strip. rewrite rstrip_app.
  change (Py.rstrip [Py.nl]) with (@nil Py.char). cbv iota.
  assert (E : frontmatter_lines (mkRecord key S U T P X preview) =
              ([Py.nl] ++ Py.lit "source: " ++ S ++ [Py.nl] ++
               Py.lit "title: " ++ T ++ [Py.nl] ++
               Py.lit "url: " ++ U ++ [Py.nl] ++
               Py.lit "published: " ++ P ++ [Py.nl]) ++
              Py.lit "saved_at:" ++ 32 :: X).
  { unfold frontmatter_lines. cbn [rec_source rec_title rec_url rec_published
                                   rec_saved_at].
    repeat rewrite <- app_assoc. reflexivity. }
  rewrite E.
  assert (L : Py.rstrip (Py.lit "saved_at:" ++ 32 :: X) =
              Py.lit "saved_at:" ++ Py.rstrip (32 :: X)).
  { apply rstrip_label; [discriminate | reflexivity]. }
  rewrite rstrip_before; rewrite L; [|discriminate].
  repeat rewrite <- app_assoc. reflexivity.
Qed.

Lemma frontmatter_parsed :
  Vectorize.parse_frontmatter
    (frontmatter_lines (mkRecord key S U T P X preview) ++ [Py.nl]) =
  Vectorize.frontmatter_of (mkRecord key S U T P X preview).
Proof.
  destruct (plain_field_facts S HS) as [HS1 [_ [_ HS4]]].
  destruct (plain_field_facts T HT) as [HT1 [_ [_ HT4]]].
  destruct (plain_field_facts U HU) as [HU1 [_ [_ HU4]]].
  destruct (plain_field_facts P HP) as [HP1 [_ [_ HP4]]].
  destruct (plain_field_facts X HX) as [HX1 [_ [_ HX4]]].
  unfold Vectorize.parse_frontmatter. rewrite stripped_lines.
  unfold Py.nl.
  rewrite (app_assoc (Py.lit "source: ") S), split_line
    by (rewrite has_char_app, HS1; reflexivity).
  rewrite (app_assoc (Py.lit "title: ") T), split_line
    by (rewrite has_char_app, HT1; reflexivity).
  rewrite (app_assoc (Py.lit "url: ") U), split_line
    by (rewrite has_char_app, HU1; reflexivity).
  rewrite (app_assoc (Py.lit "published: ") P), split_line
    by (rewrite has_char_app, HP1; reflexivity).
  rewrite split_last_line
    by (rewrite has_char_app, (has_char_rstrip 10 (32 :: X));
        [reflexivity | cbn [has_char existsb]; exact HX1]).
  cbn [fold_left].
  change (Py.lit "source: " ++ S) with (Py.lit "source" ++ 58 :: 32 :: S).
  change (Py.lit "title: " ++ T) with (Py.lit "title" ++ 58 :: 32 :: T).
  change (Py.lit "url: " ++ U) with (Py.lit "url" ++ 58 :: 32 :: U).
  change (Py.lit "published: " ++ P)
    with (Py.lit "published" ++ 58 :: 32 :: P).
  change (Py.lit "saved_at:" ++ Py.rstrip (32 :: X))
    with (Py.lit "saved_at" ++ 58 :: Py.rstrip (32 :: X)).
  rewrite !parse_line_field by reflexivity.
  rewrite (strip_blank S HS4), (strip_blank T HT4), (strip_blank U HU4),
    (strip_blank P HP4), (strip_after_blank X HX4).
  reflexivity.
Qed.

Lemma read_plain_document :
  Vectorize.read_document
    (record_md_text (mkRecord key S U T P X preview) body) =
  Some (Vectorize.frontmatter_of (mkRecord key S U T P X preview), body).
Proof.
  destruct (plain_body_facts body Hbody) as [_ [_ Hb]].
  unfold Vectorize.read_document.
  rewrite (universal_newlines_id _ document_no_carriage_return).
  unfold Vectorize.parse_document. rewrite record_md_text_blocks.
  rewrite split_here by discriminate.
  rewrite <- app_assoc.
  change ([Py.nl] ++ Py.lit "---" ++ body_block body)
    with (Py.nl :: Py.lit "---" ++ body_block body).
  rewrite split_first;
    [| discriminate | reflexivity | exact frontmatter_lines_no_delimiter].
  rewrite split_none; [| discriminate | exact body_block_no_delimiter].
  now rewrite frontmatter_parsed, (strip_body_block body Hb).
Qed.

End RoundTrip.

(** The round trip of a plain document: when each of the five frontmatter
    fields is one line without carriage return, without the delimiter inside
    and without whitespace at either end, and the body has no carriage
    return, no delimiter inside and no whitespace at either end, reading the
    rendered document gives back the five fields, in their order, and the
    body. *)
Theorem read_document_round_trip (rec : article_record) (body : Py.str)
    (Hrec : plain_record rec = true) (Hbody : plain_body body = true) :
  Vectorize.read_document (record_md_text rec body) =
  Some (Vectorize.frontmatter_of rec, body).
Proof.
  destruct rec as [key S U T P X preview].
  unfold plain_record in Hrec.
  cbn [rec_source rec_title rec_url rec_published rec_saved_at] in Hrec.
  do 4 (apply andb_true_iff in Hrec; destruct Hrec as [Hrec ?]).
  now apply read_plain_document.
Qed.

(** * Further properties of the crawler *)

(** ** The [try] block *)

Lemma try_item_accepts (st : run_state) (item : feed_item)
    (url key : Py.str) (w : world) :
  accepts item url key w = true ->
  exists rec data folder,
    rec_id rec = key /\ rec_url rec = url /\
    record_md rec (Py.strip (snd (match extract_text (w_render w) with
                                  | Ok p => p
                                  | Err _ => ([], [])
                                  end))) = Ok data /\
    try_item st item url key w =
      mkRun (PStr key :: seen st) (new_articles st ++ [rec])
            (write_bytes (md_filename (it_published item) (w_today w) key
                                      (rec_title rec))
                         data (out_dir st))
            folder
            (processed_count st) (skipped_seen st) (skipped_no_url st) /\
    option_map item_content
      (find_file (md_filename (it_published item) (w_today w) key
                              (rec_title rec)) folder) = Some data.
Proof.
  unfold accepts.
  destruct (extract_text (w_render w)) as [[title_ext text]|e] eqn:Hx;
    [|discriminate].
  intros H. apply andb_true_iff in H. destruct H as [H Hu].
  apply andb_true_iff in H. destruct H as [H Hw].
  apply andb_true_iff in H. destruct H as [Hrel Hmd].
  destruct (record_md _ _) as [data|e] eqn:Hd; [|discriminate].
  destruct (try_item_admitted st item url key title_ext text data w
              Hx Hrel Hd Hw Hu) as [folder [Ht Hf]].
  eexists. exists data, folder.
  split; [|split; [|split; [|split]]].
  4: exact Ht.
  all: try reflexivity.
  - exact Hd.
  - exact Hf.
Qed.

Lemma try_item_rejects (st : run_state) (item : feed_item)
    (url key : Py.str) (w : world) :
  accepts item url key w = false ->
  let st' := try_item st item url key w in
  seen st' = seen st /\ new_articles st' = new_articles st /\
  box st' = box st /\
  processed_count st' = processed_count st /\
  skipped_seen st' = skipped_seen st /\
  skipped_no_url st' = skipped_no_url st.
Proof.
  unfold accepts, try_item.
  destruct (extract_text (w_render w)) as [[title_ext text]|e];
    [|now repeat split].
  destruct (looks_relevant _ text); cbn [andb negb]; [|now repeat split].
  destruct (record_md _ _) as [data|e]; cbn [is_ok andb]; [|now repeat split].
  destruct (w_write_ok w); cbn [andb negb]; [|now repeat split].
  destruct (w_upload_ok w); [discriminate|].
  intros _. unfold box_upload_file. cbn [negb]. now repeat split.
Qed.

Lemma try_item_counters (st : run_state) (item : feed_item)
    (url key : Py.str) (w : world) :
  let st' := try_item st item url key w in
  processed_count st' = processed_count st /\
  skipped_seen st' = skipped_seen st /\
  skipped_no_url st' = skipped_no_url st.
Proof.
  unfold try_item.
  destruct (extract_text (w_render w)) as [[title_ext text]|e];
    [|now repeat split].
  destruct (negb (looks_relevant _ text)); [now repeat split|].
  destruct (record_md _ _) as [data|e]; [|now repeat split].
  destruct (negb (w_write_ok w)); [now repeat split|].
  destruct (box_upload_file _ _ _ _ _); now repeat split.
Qed.

Lemma forallb_weaken {A : Type} (P Q : A -> bool) (l : list A) :
  (forall x, P x = true -> Q x = true) ->
  forallb P l = true -> forallb Q l = true.
Proof.
  intros HPQ H. rewrite forallb_forall in *. intros x Hx.
  apply HPQ, H, Hx.
Qed.

(** Line 341: a page title that cannot be printed ends the [try] block, and
    the model does the same without the message, at the encoding of the
    document. *)
Lemma unprintable_title_is_skipped (st : run_state) (item : feed_item)
    (url key title_ext text : Py.str) (w : world) :
  extract_text (w_render w) = Ok (title_ext, text) ->
  forallb Py.is_scalar (Py.slice_to 50 title_ext) = false ->
  try_item st item url key w = st.
Proof.
  intros Hx Ht. unfold try_item. rewrite Hx.
  assert (Hc : chosen_title item title_ext = title_ext)
    by (destruct title_ext; [discriminate Ht | reflexivity]).
  rewrite Hc. destruct (negb (looks_relevant title_ext text)); [reflexivity|].
  destruct (record_md _ _) as [data|e] eqn:Hmd; [|reflexivity].
  destruct (record_md_scalar _ _ _ Hmd) as [_ [Htitle _]].
  cbn [make_record rec_title] in Htitle.
  unfold Py.slice_to in Ht. rewrite (forallb_firstn _ 50 _ Htitle) in Ht.
  discriminate Ht.
Qed.

(** Line 455: the name of a document whose record was encoded can be
    printed, today's date being made of digits and hyphens. *)
Lemma md_filename_printable (rec : article_record) (full_text : Py.str)
    (data : Py.bytes) (today url key : Py.str) :
  record_md rec full_text = Ok data ->
  forallb Py.is_scalar today = true ->
  sha16 url = Ok key ->
  forallb Py.is_scalar
    (md_filename (rec_published rec) today key (rec_title rec)) = true.
Proof.
  intros Hmd Htoday Hkey.
  destruct (record_md_scalar _ _ _ Hmd) as [_ [Htitle Hpub]].
  destruct (sha16_ok url key Hkey) as [_ Hhex].
  unfold md_filename. rewrite !forallb_app.
  assert (Hd : forallb Py.is_scalar
                 (published_date (rec_published rec) today) = true).
  { unfold published_date. destruct (is_empty (rec_published rec));
      [exact Htoday | now apply forallb_firstn]. }
  assert (Hk : forallb Py.is_scalar key = true).
  { apply (forallb_weaken is_lower_hex); [|exact Hhex].
    intros c Hc. unfold is_lower_hex in Hc. unfold Py.is_scalar. lia. }
  assert (Hc : forallb Py.is_scalar (clean_title (rec_title rec)) = true).
  { unfold clean_title, Py.slice_to. apply forallb_firstn.
    destruct (rstrip_suffix (filter keeps (rec_title rec))) as [ws [Hs _]].
    assert (Hf : forallb Py.is_scalar (filter keeps (rec_title rec)) = true).
    { rewrite forallb_forall in *. intros c Hin. apply filter_In in Hin.
      now apply Htitle. }
    rewrite Hs, forallb_app in Hf. apply andb_true_iff in Hf.
    exact (proj1 Hf). }
  rewrite Hd, Hk, Hc. reflexivity.
Qed.

(** The two ways the [try] block can end, by whether the item is
    accepted. *)
Lemma try_item_by_acceptance (st : run_state) (item : feed_item)
    (url key : Py.str) (w : world) :
  let st' := try_item st item url key w in
  (accepts item url key w = false /\
   seen st' = seen st /\ new_articles st' = new_articles st /\
   box st' = box st /\ counted st' = counted st) \/
  (accepts item url key w = true /\
   exists rec data name,
     new_articles st' = new_articles st ++ [rec] /\
     seen st' = PStr key :: seen st /\
     rec_id rec = key /\ rec_url rec = url /\
     dict_lookup name (out_dir st') = Some data /\
     option_map item_content (find_file name (box st')) = Some data /\
     counted st' = counted st).
Proof.
  intros st'. subst st'.
  destruct (accepts item url key w) eqn:Ha.
  - right. split; [reflexivity|].
    destruct (try_item_accepts st item url key w Ha)
      as [rec [data [folder [Hid [Hurl [_ [Ht Hf]]]]]]].
    rewrite Ht. cbn [new_articles seen out_dir box].
    exists rec, data,
      (md_filename (it_published item) (w_today w) key (rec_title rec)).
    repeat split; try assumption.
    unfold write_bytes. apply dict_lookup_set.
  - left. split; [reflexivity|].
    destruct (try_item_rejects st item url key w Ha)
      as [Hs [Hn [Hb [Hp [Hk Hu]]]]].
    unfold counted. rewrite Hs, Hn, Hb, Hp, Hk, Hu. now repeat split.
Qed.

(** X1: whatever happens in the [try] block, it changes none of the three
    counters, and a record is appended exactly when its document has been
    written and uploaded.  Either the seen set, the added records and the Box
    folder are as before; or the page was extracted and passed the filter,
    the record of lines 436 to 444 is appended to the added records, its key
    joins the seen set, and the bytes that [record_md] makes of this record
    are the content of the file of lines 446 to 450 both in the local
    directory and in the Box folder, where no file of another name is
    touched. *)
Theorem try_item_all_or_nothing (st : run_state) (item : feed_item)
    (url key : Py.str) (w : world) :
  let st' := try_item st item url key w in
  (processed_count st' = processed_count st /\
   skipped_seen st' = skipped_seen st /\
   skipped_no_url st' = skipped_no_url st) /\
  ((seen st' = seen st /\ new_articles st' = new_articles st /\
    box st' = box st) \/
   (exists title_ext text data,
      let title := chosen_title item title_ext in
      let rec := make_record item url key title (Py.strip text) w in
      let name := md_filename (it_published item) (w_today w) key title in
      extract_text (w_render w) = Ok (title_ext, text) /\
      looks_relevant title text = true /\
      record_md rec (Py.strip text) = Ok data /\
      rec_id rec = key /\ rec_url rec = url /\
      new_articles st' = new_articles st ++ [rec] /\
      (forall v, In v (seen st') <-> v = PStr key \/ In v (seen st)) /\
      out_dir st' = write_bytes name data (out_dir st) /\
      dict_lookup name (out_dir st') = Some data /\
      option_map item_content (find_file name (box st')) = Some data /\
      (forall m, Py.str_eqb m name = false ->
                 find_file m (box st') = find_file m (box st)))).
Proof.
  intros st'. split; [exact (try_item_counters st item url key w)|].
  subst st'. unfold try_item.
  destruct (extract_text (w_render w)) as [[title_ext text]|e] eqn:Hx;
    [|now left].
  destruct (looks_relevant (chosen_title item title_ext) text) eqn:Hrel;
    cbn [negb]; [|now left].
  destruct (record_md _ _) as [data|e] eqn:Hmd; [|now left].
  destruct (w_write_ok w); cbn [negb]; [|now left].
  unfold box_upload_file. destruct (w_upload_ok w); cbn [negb]; [|now left].
  unfold read_bytes, write_bytes. rewrite dict_lookup_set. cbn [bind].
  right. exists title_ext, text, data. cbv zeta.
  change (rec_published (make_record item url key
                           (chosen_title item title_ext) (Py.strip text) w))
    with (it_published item).
  split; [reflexivity|]. split; [exact Hrel|]. split; [exact Hmd|].
  split; [reflexivity|]. split; [reflexivity|].
  destruct (find_file _ (box st)) as [f|] eqn:Hf;
    cbn [seen new_articles out_dir box set_add].
  - split; [reflexivity|]. split; [intros v; cbn [In]; split; intros [H|H];
      [left; now symmetry | now right | left; now symmetry | now right]|].
    split; [reflexivity|]. split; [apply dict_lookup_set|].
    split; [now rewrite (find_file_update_same _ _ _ _ Hf)|].
    intros m Hm. now apply find_file_update_other.
  - split; [reflexivity|]. split; [intros v; cbn [In]; split; intros [H|H];
      [left; now symmetry | now right | left; now symmetry | now right]|].
    split; [reflexivity|]. split; [apply dict_lookup_set|].
    split; [now rewrite (find_file_upload_same _ _ _ Hf)|].
    intros m Hm. now apply find_file_upload_other.
Qed.

(** ** The counters *)

Lemma try_item_counted (st : run_state) (item : feed_item)
    (url key : Py.str) (w : world) :
  counted (try_item st item url key w) = counted st /\
  (length (new_articles st)
   <= length (new_articles (try_item st item url key w))
   <= S (length (new_articles st)))%nat.
Proof.
  destruct (try_item_by_acceptance st item url key w)
    as [[_ [_ [Hn [_ Hc]]]]
       |[_ [rec [data [name [Hn [_ [_ [_ [_ [_ Hc]]]]]]]]]]].
  - rewrite Hn. split; [exact Hc | lia].
  - rewrite Hn, length_app. cbn [length]. split; [exact Hc | lia].
Qed.

Lemma process_item_counted (st st' : run_state) (iw : feed_item * world) :
  process_item st iw = Ok st' ->
  counted st' = counted st + 1 /\
  Z.of_nat (length (new_articles st')) - Z.of_nat (length (new_articles st))
    <= processed_count st' - processed_count st /\
  (length (new_articles st) <= length (new_articles st'))%nat.
Proof.
  destruct iw as [item w]. intros H. apply process_item_ok in H.
  destruct (has_url item) as [url|].
  - destruct H as [key [_ H]].
    destruct (set_contains_str key (seen st)); subst st'.
    + unfold counted. cbn. split; [|split]; lia.
    + destruct (try_item_counted (enter st) item url key w) as [Hc [Hl Hu]].
      destruct (try_item_counters (enter st) item url key w) as [Hp _].
      cbn [enter new_articles processed_count] in Hl, Hu, Hp.
      unfold counted in *.
      cbn [enter processed_count skipped_seen skipped_no_url] in Hc.
      split; [|split]; lia.
  - subst st'. unfold counted. cbn. split; [|split]; lia.
Qed.

(** X2: when the loop of [main] ends, the three counters together have
    grown by the number of feed entries, one for each entry, and no more
    records were added than entries were processed. *)
Theorem run_loop_counts_every_entry (st st' : run_state)
    (feed : list (feed_item * world))
    (Hrun : run_loop st feed = Ok st') :
  counted st' = counted st + Py.len feed /\
  Z.of_nat (length (new_articles st')) - Z.of_nat (length (new_articles st))
    <= processed_count st' - processed_count st /\
  (length (new_articles st) <= length (new_articles st'))%nat.
Proof.
  revert st Hrun. induction feed as [|iw feed IH]; intros st Hrun.
  - apply Ok_inj in Hrun. subst st'. unfold Py.len. cbn. split; [|split]; lia.
  - cbn [run_loop] in Hrun.
    destruct (process_item st iw) as [st1|e] eqn:Hp; cbn [bind] in Hrun;
      [|discriminate].
    destruct (process_item_counted st st1 iw Hp) as [H1 [H2 H3]].
    destruct (IH st1 Hrun) as [G1 [G2 G3]].
    unfold Py.len in *. cbn [length]. rewrite Nat2Z.inj_succ.
    split; [|split]; lia.
Qed.

(** ** The ledger document during the loop *)

Lemma last_snoc {A : Type} (l : list A) (x d : A) : last (l ++ [x]) d = x.
Proof.
  induction l as [|a l IH]; [reflexivity|].
  cbn [app]. destruct (l ++ [x]) eqn:E.
  - destruct l; discriminate.
  - cbn [last]. exact IH.
Qed.

Lemma md_filename_not_ledger (published today key title : Py.str) :
  Py.str_eqb articles_json (md_filename published today key title) = false.
Proof.
  destruct (Py.str_eqb _ _) eqn:E; [|reflexivity].
  apply str_eqb_eq in E. apply (f_equal (fun s => last s 0)) in E.
  unfold md_filename in E.
  change (Py.lit ".md") with ([46; 109] ++ [100]) in E.
  rewrite !app_assoc, last_snoc in E. vm_compute in E. discriminate E.
Qed.

Lemma try_item_keeps_ledger (st : run_state) (item : feed_item)
    (url key : Py.str) (w : world) :
  find_file articles_json (box (try_item st item url key w)) =
  find_file articles_json (box st).
Proof.
  unfold try_item.
  destruct (extract_text (w_render w)) as [[title_ext text]|e]; [|reflexivity].
  destruct (negb (looks_relevant _ text)); [reflexivity|].
  destruct (record_md _ _) as [data|e]; [|reflexivity].
  destruct (negb (w_write_ok w)); [reflexivity|].
  unfold box_upload_file.
  destruct (negb (w_upload_ok w)); [reflexivity|].
  destruct (read_bytes _ _) as [f|e]; cbn [bind]; [|reflexivity].
  destruct (find_file _ (box st)); cbn [box].
  - apply find_file_update_other, md_filename_not_ledger.
  - apply find_file_upload_other, md_filename_not_ledger.
Qed.

Lemma process_item_keeps_ledger (st st' : run_state)
    (iw : feed_item * world) :
  process_item st iw = Ok st' ->
  find_file articles_json (box st') = find_file articles_json (box st).
Proof.
  destruct iw as [item w]. intros H. apply process_item_ok in H.
  destruct (has_url item) as [url|].
  - destruct H as [key [_ H]].
    destruct (set_contains_str key (seen st)); subst st'; [reflexivity|].
    now rewrite try_item_keeps_ledger.
  - now subst st'.
Qed.

Lemma run_loop_keeps_ledger (st st' : run_state)
    (feed : list (feed_item * world)) :
  run_loop st feed = Ok st' ->
  find_file articles_json (box st') = find_file articles_json (box st).
Proof.
  revert st. induction feed as [|iw feed IH]; intros st H; cbn [run_loop] in H.
  - apply Ok_inj in H. now subst.
  - destruct (process_item st iw) as [st1|e] eqn:Hp; cbn [bind] in H;
      [|discriminate].
    rewrite (IH st1 H). now apply (process_item_keeps_ledger st st1 iw).
Qed.

Lemma load_keeps_existing (load_ok : bool) (folder folder1 : box_folder)
    (articles : list pyval) (f : box_item) :
  load_articles_from_box load_ok folder = Ok (articles, folder1) ->
  find_file articles_json folder = Some f -> folder1 = folder.
Proof.
  unfold load_articles_from_box. destruct (negb load_ok); [discriminate|].
  intros H Hf. rewrite Hf in H.
  destruct (json_loads (item_content f)); cbn [bind] in H; [|discriminate].
  apply Ok_inj in H. now injection H.
Qed.

(** X3: the ledger document is written once, at the end, and only when a
    record was added.  While the loop runs, whatever is uploaded leaves
    [articles.json] as the load left it; so a run that adds no record ends
    with the ledger it loaded and with [articles.json] untouched, and the
    load itself changes nothing when the file was there. *)
Theorem ledger_written_only_with_new_records (load_ok save_ok : bool)
    (folder folder1 : box_folder) (out : directory)
    (feed : list (feed_item * world)) (articles : list pyval) (res : outcome)
    (Hload : load_articles_from_box load_ok folder = Ok (articles, folder1))
    (Hrun : main load_ok save_ok folder out feed = Ok res) :
  (added res = [] ->
   final_articles res = articles /\
   find_file articles_json (final_box res) = find_file articles_json folder1) /\
  (forall f, find_file articles_json folder = Some f -> folder1 = folder) /\
  (forall seen0 st, run_loop (start seen0 out folder1) feed = Ok st ->
     find_file articles_json (box st) = find_file articles_json folder1).
Proof.
  split; [|split].
  - unfold main in Hrun. rewrite Hload in Hrun. cbn [bind] in Hrun.
    destruct (get_seen_urls articles) as [seen0|e]; cbn [bind] in Hrun;
      [|discriminate].
    destruct (run_loop _ feed) as [st|e] eqn:Hloop; cbn [bind] in Hrun;
      [|discriminate].
    unfold merge_and_persist in Hrun.
    destruct (new_articles st) as [|r more] eqn:Hnew;
      cbn [is_empty bind] in Hrun.
    + apply Ok_inj in Hrun. subst res.
      cbn [final_articles final_box added]. intros _.
      split; [reflexivity|].
      now rewrite (run_loop_keeps_ledger _ _ _ Hloop).
    + destruct (save_articles_to_box _ _ _); cbn [bind] in Hrun;
        [|discriminate].
      apply Ok_inj in Hrun. subst res. cbn [added]. discriminate.
  - intros f. now apply (load_keeps_existing load_ok folder folder1 articles).
  - intros seen0 st Hloop. now rewrite (run_loop_keeps_ledger _ _ _ Hloop).
Qed.

(** ** When the loop raises *)

Lemma process_item_safe (st : run_state) (iw : feed_item * world) :
  safe_item iw = true -> exists st', process_item st iw = Ok st'.
Proof.
  destruct iw as [item w]. unfold safe_item, process_item. cbn [fst].
  destruct (has_url item) as [url|].
  - intros H. apply andb_true_iff in H. destruct H as [H Hs].
    apply andb_true_iff in H. destruct H as [Hu Ht].
    destruct (sha16_total url Hu) as [key Hk]. rewrite Hk. cbn [bind].
    destruct (set_contains_str key (seen st)); [eexists; reflexivity|].
    rewrite (print_scalar _ Ht), (print_scalar _ Hs). cbn [bind].
    eexists. reflexivity.
  - intros Ht. rewrite (print_scalar _ Ht). cbn [bind]. eexists. reflexivity.
Qed.

Lemma process_item_error (st : run_state) (iw : feed_item * world)
    (e : exn) :
  process_item st iw = Err e -> e = UnicodeEncodeError.
Proof.
  destruct iw as [item w]. unfold process_item.
  destruct (has_url item) as [url|].
  - destruct (sha16 url) as [key|e'] eqn:Hk; cbn [bind].
    + destruct (set_contains_str key (seen st)); [discriminate|].
      destruct (print (Py.slice_to 60 (it_title item))) as [[]|e'] eqn:P1;
        cbn [bind].
      * destruct (print (it_source item)) as [[]|e'] eqn:P2; cbn [bind];
          [discriminate|].
        intros H. injection H as <-. exact (print_error _ _ P2).
      * intros H. injection H as <-. exact (print_error _ _ P1).
    + intros H. injection H as <-. unfold sha16 in Hk.
      destruct (Py.encode_utf8 url) as [data|e''] eqn:He; cbn [bind] in Hk;
        [discriminate|].
      injection Hk as <-. exact (encode_utf8_error _ _ He).
  - destruct (print (Py.slice_to 50 (it_title item))) as [[]|e'] eqn:P;
      cbn [bind]; [discriminate|].
    intros H. injection H as <-. exact (print_error _ _ P).
Qed.

Lemma run_loop_total (st : run_state) (feed : list (feed_item * world)) :
  forallb safe_item feed = true -> exists st', run_loop st feed = Ok st'.
Proof.
  revert st. induction feed as [|iw feed IH]; intros st H.
  - now exists st.
  - cbn [forallb] in H. apply andb_true_iff in H. destruct H as [Hi Hf].
    cbn [run_loop]. destruct (process_item_safe st iw Hi) as [st1 Hp].
    rewrite Hp. cbn [bind]. now apply IH.
Qed.

Lemma run_loop_error (st : run_state) (feed : list (feed_item * world))
    (e : exn) :
  run_loop st feed = Err e -> e = UnicodeEncodeError.
Proof.
  revert st. induction feed as [|iw feed IH]; intros st; cbn [run_loop];
    [discriminate|].
  destruct (process_item st iw) as [st1|e'] eqn:Hp; cbn [bind].
  - apply IH.
  - intros H. injection H as <-. exact (process_item_error st iw e' Hp).
Qed.

(** X4: nothing that fails inside the [try] block stops the loop.  It ends
    normally on every feed whose URLs can be encoded in UTF-8 and whose
    sources and titles, as far as the messages show them, can be printed,
    whatever the pages, the writes and the uploads do.  The only exception
    that leaves the loop is [UnicodeEncodeError], from the hashing of the URL
    or from a message outside the [try], and then an item of the feed has
    such a URL, title or source; a URL with a lone surrogate always ends the
    loop with it. *)
Theorem run_loop_raises_only_unicode_encode_error (st : run_state)
    (feed : list (feed_item * world)) :
  (forallb safe_item feed = true -> exists st', run_loop st feed = Ok st') /\
  (forall e, run_loop st feed = Err e ->
     e = UnicodeEncodeError /\ forallb safe_item feed = false) /\
  (forallb hashable_url feed = false ->
   run_loop st feed = Err UnicodeEncodeError).
Proof.
  split; [apply run_loop_total|]. split.
  - intros e H. split; [exact (run_loop_error st feed e H)|].
    destruct (forallb safe_item feed) eqn:Hs; [|reflexivity].
    destruct (run_loop_total st feed Hs) as [st' H']. congruence.
  - revert st. induction feed as [|[item w] feed IH]; intros st H;
      [discriminate|].
    cbn [forallb] in H. cbn [run_loop].
    destruct (process_item st (item, w)) as [st1|e] eqn:Hp; cbn [bind].
    + apply IH. apply process_item_ok in Hp.
      unfold hashable_url in H at 1. cbn [fst] in H.
      destruct (has_url item) as [url|]; [|exact H].
      destruct Hp as [key [Hk _]].
      destruct (forallb Py.is_scalar url) eqn:Hs; [exact H|].
      rewrite (sha16_not_scalar url Hs) in Hk. discriminate.
    + f_equal. exact (process_item_error st (item, w) e Hp).
Qed.

(** ** The seen set, in full *)

Lemma truthy_nonempty_str (s : Py.str) : s <> [] -> truthy (PStr s) = true.
Proof. destruct s; [contradiction | reflexivity]. Qed.

Lemma set_contains_str_spec (k : Py.str) (s : pyset) :
  set_contains_str k s = true <-> In (PStr k) s.
Proof.
  split; [|apply set_contains_str_in].
  unfold set_contains_str. intros H. apply existsb_exists in H.
  destruct H as [v [Hv Hk]]. destruct v; try discriminate.
  apply str_eqb_eq in Hk. now subst.
Qed.



(** ** A second run *)

Lemma get_seen_urls_records (rs : list article_record) :
  (forall r, In r rs -> rec_id r <> []) ->
  get_seen_urls (map record_dict rs) =
  Ok (map (fun r => PStr (rec_id r)) rs).
Proof.
  induction rs as [|r rs IH]; intros H; [reflexivity|].
  cbn [map get_seen_urls].
  change (py_get (record_dict r) (Py.lit "id")) with (Ok (PStr (rec_id r))).
  cbn [bind]. rewrite (truthy_nonempty_str _ (H r (or_introl eq_refl))).
  cbn [bind hashable]. rewrite IH by (intros x Hx; apply H; now right).
  reflexivity.
Qed.

Lemma seen_tracks_step (seen0 : pyset) (st st' : run_state)
    (iw : feed_item * world) :
  seen_tracks seen0 st -> process_item st iw = Ok st' ->
  seen_tracks seen0 st'.
Proof.
  intros [Hne Hin]. destruct iw as [item w]. unfold process_item.
  destruct (has_url item) as [url|].
  - destruct (sha16 url) as [key|e] eqn:Hk; cbn [bind]; [|discriminate].
    destruct (set_contains_str key (seen st)); intros H; pass_prints H;
      apply Ok_inj in H; subst st'; [now split|].
    match goal with |- seen_tracks _ (try_item ?s item url key w) =>
      destruct (try_item_by_acceptance s item url key w)
        as [[_ [Hs [Hn _]]]|[_ [rec [data [name [Hn [Hs [Hid _]]]]]]]]
    end; cbn [seen new_articles] in Hs, Hn; unfold seen_tracks;
      rewrite Hs, Hn.
    + now split.
    + split.
      * intros r Hr. apply in_app_or in Hr. destruct Hr as [Hr|[<-|[]]].
        -- now apply Hne.
        -- rewrite Hid. now apply (sha16_nonempty url).
      * intros v. rewrite map_app, in_app_iff. cbn [map In]. rewrite Hid.
        specialize (Hin v). split.
        -- intros [<-|Hv]; [right; right; now left|].
           apply Hin in Hv. destruct Hv; [now left | right; now left].
        -- intros [Hv|[Hv|[<-|[]]]]; [right | right | now left];
             apply Hin; [now left | now right].
  - intros H. pass_prints H. apply Ok_inj in H. subst st'. now split.
Qed.

Lemma seen_tracks_run (seen0 : pyset) (feed : list (feed_item * world))
    (st st' : run_state) :
  seen_tracks seen0 st -> run_loop st feed = Ok st' -> seen_tracks seen0 st'.
Proof.
  revert st. induction feed as [|iw feed IH]; intros st Hi H;
    cbn [run_loop] in H.
  - apply Ok_inj in H. now subst.
  - destruct (process_item st iw) as [st1|e] eqn:Hp; cbn [bind] in H;
      [|discriminate].
    apply (IH st1); [|exact H]. now apply (seen_tracks_step seen0 st st1 iw).
Qed.

(** What one iteration does to the seen set. *)
Lemma process_item_marks (st st' : run_state) (item : feed_item) (w : world) :
  process_item st (item, w) = Ok st' ->
  (forall v, In v (seen st) -> In v (seen st')) /\
  (forall url key, has_url item = Some url -> sha16 url = Ok key ->
     set_contains_str key (seen st') = true \/ accepts item url key w = false).
Proof.
  unfold process_item. destruct (has_url item) as [url|].
  - destruct (sha16 url) as [key|e] eqn:Hk; cbn [bind]; [|discriminate].
    destruct (set_contains_str key (seen st)) eqn:Hin; intros H;
      pass_prints H; apply Ok_inj in H; subst st'.
    + split; [auto|]. intros u k Hu Hk'. injection Hu as <-.
      rewrite Hk in Hk'. apply Ok_inj in Hk'. subst k. now left.
    + destruct (accepts item url key w) eqn:Ha.
      * match goal with |- context [try_item ?s item url key w] =>
          destruct (try_item_accepts s item url key w Ha)
            as [rec [data [folder [_ [_ [_ [Ht _]]]]]]]
        end.
        rewrite Ht. cbn [seen]. split; [intros v Hv; now right|].
        intros u k Hu Hk'. injection Hu as <-.
        rewrite Hk in Hk'. apply Ok_inj in Hk'. subst k. left.
        cbn [set_contains_str existsb]. now rewrite str_eqb_refl.
      * match goal with |- context [try_item ?s item url key w] =>
          destruct (try_item_rejects s item url key w Ha) as [Hs _]
        end.
        rewrite Hs. cbn [seen]. split; [auto|].
        intros u k Hu Hk'. injection Hu as <-.
        rewrite Hk in Hk'. apply Ok_inj in Hk'. subst k. now right.
  - intros H. pass_prints H. apply Ok_inj in H. subst st'.
    split; [auto|]. discriminate.
Qed.

Lemma run_loop_marks (feed : list (feed_item * world)) (st st' : run_state) :
  run_loop st feed = Ok st' ->
  (forall v, In v (seen st) -> In v (seen st')) /\
  (forall item w url key, In (item, w) feed ->
     has_url item = Some url -> sha16 url = Ok key ->
     set_contains_str key (seen st') = true \/ accepts item url key w = false).
Proof.
  revert st. induction feed as [|[item0 w0] feed IH]; intros st H;
    cbn [run_loop] in H.
  - apply Ok_inj in H. subst st'. split; [auto | intros ? ? ? ? []].
  - destruct (process_item st (item0, w0)) as [st1|e] eqn:Hp; cbn [bind] in H;
      [|discriminate].
    destruct (process_item_marks st st1 item0 w0 Hp) as [M1 M2].
    destruct (IH st1 H) as [R1 R2]. split; [auto|].
    intros item w url key [E|Hin] Hu Hk.
    + injection E as <- <-. destruct (M2 url key Hu Hk) as [Hs|Ha];
        [left | now right].
      apply set_contains_str_spec. apply R1.
      now apply set_contains_str_spec.
    + now apply (R2 item w url key).
Qed.

(** A loop over items that are all seen or bound to fail changes nothing
    but the counters and the local directory. *)
Lemma run_loop_quiet (feed : list (feed_item * world)) (st st' : run_state) :
  (forall item w url key, In (item, w) feed ->
     has_url item = Some url -> sha16 url = Ok key ->
     set_contains_str key (seen st) = true \/ accepts item url key w = false) ->
  run_loop st feed = Ok st' ->
  new_articles st' = new_articles st /\ seen st' = seen st /\
  box st' = box st.
Proof.
  revert st. induction feed as [|[item0 w0] feed IH]; intros st Hall H;
    cbn [run_loop] in H.
  - apply Ok_inj in H. now subst.
  - destruct (process_item st (item0, w0)) as [st1|e] eqn:Hp; cbn [bind] in H;
      [|discriminate].
    assert (Hstep : new_articles st1 = new_articles st /\
                    seen st1 = seen st /\ box st1 = box st).
    { unfold process_item in Hp. destruct (has_url item0) as [url|] eqn:Hu.
      - destruct (sha16 url) as [key|e] eqn:Hk; cbn [bind] in Hp;
          [|discriminate].
        destruct (set_contains_str key (seen st)) eqn:Hin;
          pass_prints Hp; apply Ok_inj in Hp; subst st1;
          [now repeat split|].
        destruct (Hall item0 w0 url key (or_introl eq_refl) Hu Hk)
          as [Hs|Ha]; [rewrite Hs in Hin; discriminate|].
        match goal with |- context [try_item ?s item0 url key w0] =>
          destruct (try_item_rejects s item0 url key w0 Ha)
            as [Hs [Hn [Hb _]]]
        end.
        now rewrite Hs, Hn, Hb.
      - pass_prints Hp. apply Ok_inj in Hp. subst st1. now repeat split. }
    destruct Hstep as [S1 [S2 S3]].
    destruct (IH st1) as [G1 [G2 G3]]; [|exact H|].
    + intros item w url key Hin Hu Hk. rewrite S2.
      apply (Hall item w url key); [now right | exact Hu | exact Hk].
    + now rewrite G1, G2, G3.
Qed.

(** X6: run the pipeline again on the folder that a run left, with the
    same feed entries and the same answers of the world: the second run
    loads the ledger of the first and adds no record to it.  The codec must
    give back the ledger that the first run serialized, from the bytes that
    were made of it, and read the bytes of the empty ledger as the empty
    list. *)
Theorem second_run_adds_nothing (load_ok save_ok load_ok' save_ok' : bool)
    (folder : box_folder) (out out' : directory)
    (feed : list (feed_item * world)) (res res' : outcome)
    (Hcodec : forall data, ledger_bytes (final_articles res) = Ok data ->
                json_loads data = Ok (PList (final_articles res)))
    (Hempty : json_loads [x5b; x5d] = Ok (PList []))
    (Hfirst : main load_ok save_ok folder out feed = Ok res)
    (Hsecond : main load_ok' save_ok' (final_box res) out' feed = Ok res') :
  added res' = [] /\
  final_articles res' = final_articles res /\
  final_box res' = final_box res.
Proof.
  (* the first run *)
  unfold main in Hfirst.
  destruct (load_articles_from_box load_ok folder) as [[articles folder1]|e]
    eqn:Hload; cbn [bind] in Hfirst; [|discriminate].
  destruct (get_seen_urls articles) as [seen0|e] eqn:Hseen;
    cbn [bind] in Hfirst; [|discriminate].
  destruct (run_loop _ feed) as [st|e] eqn:Hloop; cbn [bind] in Hfirst;
    [|discriminate].
  assert (Htr : seen_tracks seen0 st).
  { refine (seen_tracks_run seen0 feed _ st _ Hloop).
    split; [intros r []|]. intros v. cbn [seen new_articles map In].
    split; [intros H; now left | intros [H|[]]; exact H]. }
  destruct Htr as [Hne Hin].
  destruct (run_loop_marks feed _ st Hloop) as [_ Hmarks].
  pose proof (run_loop_keeps_ledger _ _ _ Hloop) as Hkeep.
  cbn [box] in Hkeep.
  (* what the second run loads *)
  assert (Hl2 : final_articles res =
                  articles ++ map record_dict (new_articles st) /\
                load_articles_from_box true (final_box res) =
                  Ok (final_articles res, final_box res)).
  { unfold merge_and_persist in Hfirst.
    destruct (new_articles st) as [|r more] eqn:Hnew;
      cbn [is_empty bind] in Hfirst.
    - apply Ok_inj in Hfirst. subst res.
      cbn [final_articles final_box map]. rewrite app_nil_r.
      split; [reflexivity|].
      unfold load_articles_from_box in Hload |- *.
      destruct (negb load_ok); [discriminate|]. cbn [negb].
      rewrite Hkeep.
      destruct (find_file articles_json folder) as [f|] eqn:Hf.
      + destruct (json_loads (item_content f)) as [data|e] eqn:Hd;
          cbn [bind] in Hload; [|discriminate].
        apply Ok_inj in Hload. injection Hload as Ha Hb. subst folder1.
        rewrite Hf, Hd. cbn [bind]. now rewrite Ha.
      + apply Ok_inj in Hload. injection Hload as Ha Hb. subst folder1.
        rewrite (find_file_upload_same _ _ _ Hf). cbn [item_content].
        rewrite Hempty. cbn [bind]. now rewrite <- Ha.
    - destruct (save_articles_to_box save_ok (box st) _) as [folder2|e]
        eqn:Hsave; cbn [bind] in Hfirst; [|discriminate].
      apply Ok_inj in Hfirst. subst res.
      cbn [final_articles final_box] in Hcodec |- *.
      split; [reflexivity|].
      destruct save_ok; [|discriminate].
      destruct (ledger_bytes (articles ++ map record_dict (r :: more)))
        as [data|e] eqn:Hdata;
        [|rewrite (save_articles_raises (box st) _ e Hdata) in Hsave;
          discriminate].
      destruct (save_articles_document (box st) _ data Hdata)
        as [folder' [Hs [Hd _]]].
      rewrite Hs in Hsave. apply Ok_inj in Hsave. subst folder'.
      unfold load_articles_from_box. cbn [negb].
      unfold ledger_document in Hd.
      destruct (find_file articles_json folder2) as [f|]; [|discriminate].
      cbn [option_map] in Hd. injection Hd as Hd.
      rewrite Hd, (Hcodec data eq_refl). reflexivity. }
  destruct Hl2 as [Hfinal Hl2].
  (* the second run *)
  unfold main in Hsecond.
  destruct load_ok'; [|discriminate]. rewrite Hl2 in Hsecond.
  cbn [bind] in Hsecond.
  assert (Hseen2 : get_seen_urls (final_articles res) =
                   Ok (seen0 ++ map (fun r => PStr (rec_id r))
                                    (new_articles st))).
  { rewrite Hfinal, get_seen_urls_app, Hseen. cbn [bind].
    now rewrite (get_seen_urls_records _ Hne). }
  rewrite Hseen2 in Hsecond. cbn [bind] in Hsecond.
  match type of Hsecond with
  | context [run_loop ?s feed] =>
      destruct (run_loop s feed) as [st2|e] eqn:Hloop2
  end; cbn [bind] in Hsecond; [|discriminate].
  edestruct (run_loop_quiet feed) as [Q1 [Q2 Q3]]; [|exact Hloop2|].
  { intros item w url key Hi Hu Hk. cbn [seen].
    destruct (Hmarks item w url key Hi Hu Hk) as [Hs|Ha]; [left | now right].
    apply set_contains_str_spec. apply set_contains_str_spec in Hs.
    apply Hin in Hs. apply in_or_app. exact Hs. }
  cbn [new_articles box] in Q1, Q3.
  unfold merge_and_persist in Hsecond. rewrite Q1 in Hsecond.
  cbn [is_empty bind] in Hsecond. apply Ok_inj in Hsecond. subst res'.
  cbn [added final_articles final_box]. rewrite ?Q1, ?Q3.
  split; [|split]; reflexivity.
Qed.

(** ** The Box folder, further *)

Lemma find_file_none_update (n : Py.str) (data : Py.bytes)
    (items : box_folder) :
  find_file n items = None -> update_contents n data items = items.
Proof.
  unfold find_file. induction items as [|x items IH]; [reflexivity|].
  cbn [find update_contents]. destruct (is_file_named n x); [discriminate|].
  intros H. now rewrite (IH H).
Qed.

Lemma update_contents_twice (n : Py.str) (data : Py.bytes)
    (items : box_folder) :
  update_contents n data (update_contents n data items) =
  update_contents n data items.
Proof.
  induction items as [|x items IH]; [reflexivity|].
  cbn [update_contents]. destruct (is_file_named n x) eqn:Hx.
  - cbn [update_contents].
    assert (E : is_file_named n (mkItem (item_name x) KFile data) = true).
    { unfold is_file_named in *. cbn [item_name item_kind_of].
      apply andb_true_iff in Hx. now rewrite (proj1 Hx). }
    now rewrite E.
  - cbn [update_contents]. now rewrite Hx, IH.
Qed.

Lemma update_after_upload (n : Py.str) (data : Py.bytes)
    (items : box_folder) :
  find_file n items = None ->
  update_contents n data (upload_stream n data items) =
  upload_stream n data items.
Proof.
  unfold find_file, upload_stream.
  induction items as [|x items IH]; cbn [find app update_contents].
  - intros _. unfold is_file_named. cbn [item_name item_kind_of].
    now rewrite str_eqb_refl.
  - destruct (is_file_named n x); [discriminate|].
    intros H. now rewrite (IH H).
Qed.

Lemma update_contents_length (n : Py.str) (data : Py.bytes)
    (items : box_folder) :
  length (update_contents n data items) = length items.
Proof.
  induction items as [|x items IH]; [reflexivity|].
  cbn [update_contents]. destruct (is_file_named n x); cbn [length];
    [reflexivity | now rewrite IH].
Qed.

(** X7: an upload replaces or creates.  When the local file can be read,
    [box_upload_file] returns, the folder then has a file of that name with
    exactly the local bytes, no file of another name is touched, the folder
    has the same number of items when the name was there and one more when
    it was not, and a repeated upload changes nothing. *)
Theorem box_upload_file_overwrites (folder : box_folder) (out : directory)
    (file_path box_filename : Py.str) (data : Py.bytes)
    (Hread : read_bytes file_path out = Ok data) :
  exists folder',
    box_upload_file true folder out file_path box_filename = Ok folder' /\
    option_map item_content (find_file box_filename folder') = Some data /\
    (forall m, Py.str_eqb m box_filename = false ->
               find_file m folder' = find_file m folder) /\
    length folder' =
      (match find_file box_filename folder with
       | Some _ => length folder
       | None => S (length folder)
       end) /\
    box_upload_file true folder' out file_path box_filename = Ok folder'.
Proof.
  unfold box_upload_file. cbn [negb]. rewrite Hread. cbn [bind].
  destruct (find_file box_filename folder) as [f|] eqn:Hf.
  - exists (update_contents box_filename data folder).
    pose proof (find_file_update_same _ data _ _ Hf) as Hs.
    split; [reflexivity|]. split; [now rewrite Hs|].
    split; [intros m Hm; now apply find_file_update_other|].
    split; [apply update_contents_length|].
    now rewrite Hs, update_contents_twice.
  - exists (upload_stream box_filename data folder).
    pose proof (find_file_upload_same _ data _ Hf) as Hs.
    split; [reflexivity|]. split; [now rewrite Hs|].
    split; [intros m Hm; now apply find_file_upload_other|].
    split.
    + unfold upload_stream. rewrite length_app. cbn [length]. lia.
    + now rewrite Hs, update_after_upload.
Qed.

(** X8: saving and loading agree.  With a codec that gives back the
    ledger it serialized, through the bytes that [encode] makes of its text,
    the ledger that [save_articles_to_box] stores is the
    ledger that [load_articles_from_box] returns from the resulting folder,
    the load changes nothing there, and saving the same ledger again changes
    nothing either; when the API cannot be reached both raise. *)
Theorem save_then_load (folder : box_folder) (articles : list pyval)
    (Hcodec : (let* data := ledger_bytes articles in json_loads data) =
              Ok (PList articles)) :
  (exists folder',
     save_articles_to_box true folder articles = Ok folder' /\
     load_articles_from_box true folder' = Ok (articles, folder') /\
     save_articles_to_box true folder' articles = Ok folder') /\
  save_articles_to_box false folder articles = Err BoxAPIException /\
  load_articles_from_box false folder = Err BoxAPIException.
Proof.
  split; [|split; reflexivity].
  unfold save_articles_to_box, load_articles_from_box. cbn [negb].
  destruct (ledger_bytes articles) as [data|e]; cbn [bind] in Hcodec |- *;
    [|discriminate].
  destruct (find_file articles_json folder) as [f|] eqn:Hf.
  - exists (update_contents articles_json data folder).
    rewrite (find_file_update_same _ _ _ _ Hf). cbn [item_content].
    rewrite Hcodec. cbn [bind].
    split; [reflexivity|]. split; [reflexivity|].
    now rewrite update_contents_twice.
  - exists (upload_stream articles_json data folder).
    rewrite (find_file_upload_same _ _ _ Hf). cbn [item_content].
    rewrite Hcodec. cbn [bind].
    split; [reflexivity|]. split; [reflexivity|].
    now rewrite update_after_upload.
Qed.

(** X9: the first load, on a folder without [articles.json], creates the
    file with the two bytes of an empty JSON list, at the end of the folder
    and without touching another file, and returns the empty ledger; once
    the file is there a load returns the empty ledger again and creates
    nothing.  When the API cannot be reached nothing is created. *)
Theorem load_creates_empty_ledger (folder : box_folder)
    (Habsent : find_file articles_json folder = None)
    (Hempty : json_loads [x5b; x5d] = Ok (PList [])) :
  let folder' := folder ++ [mkItem articles_json KFile [x5b; x5d]] in
  load_articles_from_box true folder = Ok ([], folder') /\
  ledger_document folder' = Some [x5b; x5d] /\
  (forall m, Py.str_eqb m articles_json = false ->
             find_file m folder' = find_file m folder) /\
  load_articles_from_box true folder' = Ok ([], folder') /\
  load_articles_from_box false folder = Err BoxAPIException.
Proof.
  intros folder'.
  assert (Hs : find_file articles_json folder' =
               Some (mkItem articles_json KFile [x5b; x5d])).
  { apply (find_file_upload_same articles_json [x5b; x5d] folder Habsent). }
  split; [|split; [|split; [|split]]].
  - unfold load_articles_from_box. cbn [negb]. now rewrite Habsent.
  - unfold ledger_document. now rewrite Hs.
  - intros m Hm.
    now apply (find_file_upload_other articles_json m [x5b; x5d] folder).
  - unfold load_articles_from_box. cbn [negb]. rewrite Hs.
    cbn [item_content]. now rewrite Hempty.
  - reflexivity.
Qed.

(** ** The records of a run *)

Lemma content_preview_length (full_text : Py.str) :
  (length (content_preview full_text) <= 203)%nat.
Proof.
  unfold content_preview, Py.len, Py.slice_to.
  destruct (200 <? Z.of_nat (length full_text)) eqn:E.
  - rewrite length_app. pose proof (firstn_le_length 200 full_text).
    change (length (Py.lit "...")) with 3%nat. lia.
  - apply Z.ltb_ge in E. lia.
Qed.

Lemma try_item_new_record (st : run_state) (item : feed_item)
    (url key : Py.str) (w : world) :
  new_articles (try_item st item url key w) = new_articles st \/
  exists title full_text,
    new_articles (try_item st item url key w) =
    new_articles st ++ [make_record item url key title full_text w].
Proof.
  unfold try_item.
  destruct (extract_text (w_render w)) as [[title_ext text]|e]; [|now left].
  destruct (negb (looks_relevant _ text)); [now left|].
  destruct (record_md _ _) as [data|e]; [|now left].
  destruct (negb (w_write_ok w)); [now left|].
  destruct (box_upload_file _ _ _ _ _) as [folder|e]; [|now left].
  right. eexists. eexists. reflexivity.
Qed.

(** X10: every record that the loop adds comes from an entry of the feed:
    its url is the URL of that entry, its id is [sha16] of its url, its
    source and published date are those of the entry, and its preview has
    at most 203 characters.  The records that were there stay, in order, in
    front of the new ones. *)
Theorem run_loop_records_come_from_feed (st st' : run_state)
    (feed : list (feed_item * world))
    (Hrun : run_loop st feed = Ok st') :
  exists new_records,
    new_articles st' = new_articles st ++ new_records /\
    (length new_records <= length feed)%nat /\
    forall r, In r new_records ->
      sha16 (rec_url r) = Ok (rec_id r) /\
      (length (rec_content_preview r) <= 203)%nat /\
      exists item w,
        In (item, w) feed /\ has_url item = Some (rec_url r) /\
        rec_source r = it_source item /\
        rec_published r = it_published item /\
        rec_saved_at r = w_now w.
Proof.
  revert st Hrun. induction feed as [|[item w] feed IH]; intros st Hrun;
    cbn [run_loop] in Hrun.
  - apply Ok_inj in Hrun. subst st'. exists []. rewrite app_nil_r.
    split; [reflexivity|]. split; [cbn; lia | intros r []].
  - destruct (process_item st (item, w)) as [st1|e] eqn:Hp;
      cbn [bind] in Hrun; [|discriminate].
    destruct (IH st1 Hrun) as [more [Hm [Hlen Hall]]].
    assert (Hstep : new_articles st1 = new_articles st \/
              exists url key title full_text,
                has_url item = Some url /\ sha16 url = Ok key /\
                new_articles st1 =
                new_articles st ++
                [make_record item url key title full_text w]).
    { unfold process_item in Hp. destruct (has_url item) as [url|].
      - destruct (sha16 url) as [key|e] eqn:Hk; cbn [bind] in Hp;
          [|discriminate].
        destruct (set_contains_str key (seen st)); pass_prints Hp;
          apply Ok_inj in Hp; subst st1; [now left|].
        match goal with |- context [try_item ?s item url key w] =>
          destruct (try_item_new_record s item url key w)
            as [Hn|[title [full_text Hn]]]
        end; [left; exact Hn|].
        right. exists url, key, title, full_text. auto.
      - pass_prints Hp. apply Ok_inj in Hp. subst st1. now left. }
    destruct Hstep as [Hs|[url [key [title [full_text [Hu [Hk Hs]]]]]]].
    + exists more. rewrite Hm, Hs. split; [reflexivity|].
      split; [cbn [length]; lia|].
      intros r Hr. destruct (Hall r Hr) as [H1 [H2 [i [w' [Hi Hrest]]]]].
      split; [exact H1|]. split; [exact H2|].
      exists i, w'. split; [now right | exact Hrest].
    + exists (make_record item url key title full_text w :: more).
      rewrite Hm, Hs, <- app_assoc. split; [reflexivity|].
      split; [cbn [length]; lia|].
      intros r [<-|Hr].
      * cbn [make_record rec_url rec_id rec_content_preview rec_source
             rec_published rec_saved_at].
        split; [exact Hk|]. split; [apply content_preview_length|].
        exists item, w. split; [now left|]. now repeat split.
      * destruct (Hall r Hr) as [H1 [H2 [i [w' [Hi Hrest]]]]].
        split; [exact H1|]. split; [exact H2|].
        exists i, w'. split; [now right | exact Hrest].
Qed.

(** ** Extraction, further *)

Lemma join_long (sep : Py.str) (parts : list Py.str) (n : Z) :
  Forall (fun p => n < Py.len p) parts ->
  Py.join sep parts = [] /\ parts = [] \/ n < Py.len (Py.join sep parts).
Proof.
  intros H. destruct H as [|p rest Hp Hrest]; [now left|]. right.
  destruct rest as [|q rest]; [exact Hp|].
  change (Py.join sep (p :: q :: rest))
    with (p ++ sep ++ Py.join sep (q :: rest)).
  unfold Py.len in *. rewrite length_app. lia.
Qed.

Lemma long_blocks_empty_or_long (paragraphs : list Py.str) :
  long_blocks paragraphs = [] \/ 20 < Py.len (long_blocks paragraphs).
Proof.
  unfold long_blocks.
  destruct (join_long [Py.nl; Py.nl]
              (filter (fun p => 20 <? Py.len p) paragraphs) 20)
    as [[H _]|H].
  - apply Forall_forall. intros p Hp. apply filter_In in Hp.
    now apply Z.ltb_lt.
  - now left.
  - now right.
Qed.

(** X11: a primary extraction of 100 characters or more is returned as it
    is, with the title of the page metadata, whatever the page contains
    otherwise; the title tag of the page is not consulted, even when the
    metadata have no title. *)
Theorem strong_primary_is_returned (primary : Py.str)
    (meta_title title_tag : option Py.str)
    (article : option (list Py.str)) (paragraphs : list Py.str)
    (Hprimary : 100 <= Py.len primary) :
  extract_page (mkPage (Some primary) meta_title article paragraphs title_tag)
  = (or_empty meta_title, primary).
Proof.
  unfold extract_page. cbn [page_extract page_meta_title].
  now rewrite (weak_long primary Hprimary).
Qed.

(** X12: a primary extraction under 100 characters is never returned.  The
    body is then the text of the article element when that has 100
    characters or more, and otherwise the text of all the paragraphs of the
    page, also when that is shorter than what the earlier stages had.  So
    the body is empty or has more than 20 characters.  The title is that of
    the metadata when there is one, else that of the title tag, else
    empty. *)
Theorem weak_primary_is_replaced (pg : page)
    (Hprimary : Py.len (or_empty (page_extract pg)) < 100) :
  let structural :=
    match page_article pg with
    | Some blocks => Some (long_blocks blocks)
    | None => None
    end in
  snd (extract_page pg) =
    (match structural with
     | Some s => if 100 <=? Py.len s then s
                 else long_blocks (page_paragraphs pg)
     | None => long_blocks (page_paragraphs pg)
     end) /\
  (snd (extract_page pg) = [] \/ 20 < Py.len (snd (extract_page pg))) /\
  fst (extract_page pg) =
    (match page_meta_title pg with
     | Some (c :: t) => c :: t
     | _ => or_empty (page_title_tag pg)
     end).
Proof.
  intros structural. subst structural. unfold extract_page.
  rewrite (weak_short _ Hprimary).
  assert (Hbody :
    or_empty
      (if weak (match page_article pg with
                | Some paragraphs => Some (long_blocks paragraphs)
                | None => page_extract pg
                end)
       then Some (long_blocks (page_paragraphs pg))
       else match page_article pg with
            | Some paragraphs => Some (long_blocks paragraphs)
            | None => page_extract pg
            end) =
    match page_article pg with
    | Some blocks =>
        if 100 <=? Py.len (long_blocks blocks) then long_blocks blocks
        else long_blocks (page_paragraphs pg)
    | None => long_blocks (page_paragraphs pg)
    end).
  { destruct (page_article pg) as [blocks|].
    - destruct (100 <=? Py.len (long_blocks blocks)) eqn:E.
      + apply Z.leb_le in E. now rewrite (weak_long _ E).
      + apply Z.leb_gt in E.
        now rewrite (weak_short (Some (long_blocks blocks)) E).
    - now rewrite (weak_short _ Hprimary). }
  cbn [fst snd]. rewrite Hbody.
  split; [now destruct (page_article pg)|]. split.
  - destruct (page_article pg) as [blocks|].
    + destruct (100 <=? Py.len (long_blocks blocks));
        apply long_blocks_empty_or_long.
    + apply long_blocks_empty_or_long.
  - destruct (page_meta_title pg) as [[|c t]|]; reflexivity.
Qed.

(** ** Relevance, further *)

Lemma keywords_one_line :
  forallb (fun k => negb (has_char 10 k) && negb (is_empty k)) KEYWORDS = true.
Proof. vm_compute. reflexivity. Qed.

Lemma lower_ascii (s : Py.str) :
  forallb Py.is_ascii s = true -> lower s = map Py.ascii_lower s.
Proof. intros H. unfold lower. now rewrite H. Qed.

(** X13: on ASCII text the filter ignores the case of letters and looks at
    the title and at the body one by one: it answers true exactly when a
    keyword occurs in the title in lower case or in the body in lower case.
    A keyword that would begin in the title and end in the body does not
    count. *)
Theorem looks_relevant_ascii (title text : Py.str)
    (Htitle : forallb Py.is_ascii title = true)
    (Htext : forallb Py.is_ascii text = true) :
  looks_relevant title text = true <->
  exists k, In k KEYWORDS /\
            (substring k (map Py.ascii_lower title) \/
             substring k (map Py.ascii_lower text)).
Proof.
  unfold looks_relevant, matched_keywords. rewrite filter_nonempty.
  assert (Hl : lower (title ++ [Py.nl] ++ text) =
               map Py.ascii_lower title ++ 10 :: map Py.ascii_lower text).
  { rewrite lower_ascii.
    - now rewrite map_app.
    - rewrite forallb_app, Htitle. cbn [app forallb]. now rewrite Htext. }
  rewrite Hl.
  pose proof keywords_one_line as Hk. rewrite forallb_forall in Hk.
  split; intros [k [Hin Hc]]; exists k; (split; [exact Hin|]);
    specialize (Hk k Hin); apply andb_true_iff in Hk; destruct Hk as [Hn He];
    apply negb_true_iff in Hn;
    assert (Hne : k <> []) by (destruct k; [discriminate | discriminate]).
  - rewrite (contains_past k _ _ 10 Hne Hn) in Hc.
    apply orb_true_iff in Hc. destruct Hc as [Hc|Hc]; [left | right];
      now apply contains_spec.
  - rewrite (contains_past k _ _ 10 Hne Hn). apply orb_true_iff.
    destruct Hc as [Hc|Hc]; [left | right]; now apply contains_spec.
Qed.

(** ** The feed poller *)

Lemma lstrip_suffix (s : Py.str) : exists ws, s = ws ++ Py.lstrip s.
Proof.
  induction s as [|c s [ws Hs]]; [now exists []|].
  cbn [Py.lstrip]. destruct (Py.isspace c).
  - exists (c :: ws). cbn [app]. now rewrite <- Hs.
  - now exists [].
Qed.

Lemma lstrip_idem (s : Py.str) : Py.lstrip (Py.lstrip s) = Py.lstrip s.
Proof.
  induction s as [|c s IH]; [reflexivity|]. cbn [Py.lstrip].
  destruct (Py.isspace c) eqn:Hc; [exact IH|].
  cbn [Py.lstrip]. now rewrite Hc.
Qed.

Lemma rstrip_length (s : Py.str) : (length (Py.rstrip s) <= length s)%nat.
Proof.
  destruct (rstrip_suffix s) as [ws [Hs _]].
  rewrite Hs at 2. rewrite length_app. lia.
Qed.

Lemma rstrip_fix_suffix (a b : Py.str) :
  Py.rstrip (a ++ b) = a ++ b -> Py.rstrip b = b.
Proof.
  rewrite rstrip_app. destruct (Py.rstrip b) as [|y r] eqn:E.
  - intros H. pose proof (rstrip_length a) as Hl. rewrite H in Hl.
    rewrite length_app in Hl. destruct b; [reflexivity|].
    cbn [length] in Hl. lia.
  - intros H. now apply app_inv_head in H.
Qed.

Lemma strip_idem (s : Py.str) : Py.strip (Py.strip s) = Py.strip s.
Proof.
  unfold Py.strip.
  destruct (lstrip_suffix (Py.rstrip s)) as [ws Hs].
  assert (H : Py.rstrip (Py.lstrip (Py.rstrip s)) = Py.lstrip (Py.rstrip s)).
  { apply (rstrip_fix_suffix ws). rewrite <- Hs. apply rstrip_idem. }
  rewrite H. apply lstrip_idem.
Qed.

Lemma flat_map_length_sum {A B : Type} (f : A -> list B) (l : list A) :
  length (flat_map f l) = list_sum (map (fun x => length (f x)) l).
Proof.
  induction l as [|x l IH]; [reflexivity|].
  cbn [flat_map map list_sum]. now rewrite length_app, IH.
Qed.

(** X14: the poller yields one item for every entry of every feed that
    could be fetched and parsed, and nothing else; a feed that fails adds
    nothing and does not stop the feeds after it.  The title of every item
    is stripped (a second [strip] would change nothing), an item has no
    usable URL exactly when its entry has no link or an empty one, and the
    source is the title of the feed or else the host of its URL. *)
Theorem fetch_rss_entries_yields
    (feedparser_parse : Py.str -> result parsed_feed)
    (netloc : Py.str -> Py.str) :
  let items := fetch_rss_entries feedparser_parse netloc in
  (forall item, In item items <->
     exists url d e,
       In url FEEDS /\ feedparser_parse url = Ok d /\ In e (entries d) /\
       item = entry_item (feed_source netloc d url) e) /\
  length items = list_sum (map (entry_count feedparser_parse) FEEDS) /\
  (forall item, In item items -> Py.strip (it_title item) = it_title item) /\
  (forall source e,
     has_url (entry_item source e) = None <->
     e_link e = None \/ e_link e = Some []).
Proof.
  intros items. subst items. unfold fetch_rss_entries.
  assert (Hin : forall item,
    In item (flat_map (feed_items feedparser_parse netloc) FEEDS) <->
    exists url d e,
      In url FEEDS /\ feedparser_parse url = Ok d /\ In e (entries d) /\
      item = entry_item (feed_source netloc d url) e).
  { intros item. rewrite in_flat_map. unfold feed_items. split.
    - intros [url [Hu Hi]].
      destruct (feedparser_parse url) as [d|err] eqn:Hp; [|contradiction].
      apply in_map_iff in Hi. destruct Hi as [e [He Hin]].
      exists url, d, e. now repeat split.
    - intros [url [d [e [Hu [Hp [He Hi]]]]]]. exists url.
      split; [exact Hu|]. rewrite Hp. apply in_map_iff. now exists e. }
  split; [exact Hin|]. split; [|split].
  - rewrite flat_map_length_sum. f_equal. apply map_ext. intros url.
    unfold feed_items, entry_count.
    destruct (feedparser_parse url); [apply length_map | reflexivity].
  - intros item Hi. apply Hin in Hi.
    destruct Hi as [url [d [e [_ [_ [_ ->]]]]]].
    cbn [entry_item it_title]. apply strip_idem.
  - intros source e. unfold has_url. cbn [entry_item it_url].
    destruct (e_link e) as [[|c u]|]; split; intros H;
      try reflexivity; try discriminate; auto.
    destruct H as [H|H]; discriminate.
Qed.

(** ** The reader of the documents, further *)

Lemma split_go_nonempty (k : Py.str) (n : nat) (s : Py.str) :
  Vectorize.split_go k n s <> [].
Proof.
  revert n. induction s as [|c s IH]; intros n; cbn [Vectorize.split_go].
  - discriminate.
  - destruct n as [|n]; [|apply IH].
    destruct (Py.startswith k (c :: s)); [discriminate|].
    destruct (Vectorize.split_go k 0 s); discriminate.
Qed.

(** The first piece, when the separator begins with a character that the
    text before it does not have. *)
Lemma split_first_head (c0 : Py.char) (t a b : Py.str) :
  has_char c0 a = false ->
  Vectorize.split (c0 :: t) (a ++ c0 :: t ++ b) =
  a :: Vectorize.split (c0 :: t) b.
Proof.
  induction a as [|c a IH]; intros Ha.
  - exact (split_here (c0 :: t) b ltac:(discriminate)).
  - cbn [has_char existsb] in Ha. apply orb_false_iff in Ha.
    destruct Ha as [Hc Ha]. unfold Vectorize.split in *.
    cbn [app Vectorize.split_go Py.startswith]. rewrite Hc. cbn [andb].
    now rewrite (IH Ha).
Qed.

Lemma split_char_pieces (x : Py.char) (a b : Py.str) :
  exists p ps,
    Vectorize.split [x] (a ++ x :: b) = (p :: ps) ++ Vectorize.split [x] b.
Proof.
  unfold Vectorize.split. induction a as [|c a [p [ps IH]]].
  - exists [], []. cbn [app Vectorize.split_go Py.startswith length Nat.sub].
    now rewrite Z.eqb_refl.
  - cbn [app Vectorize.split_go Py.startswith length Nat.sub].
    destruct (x =? c); cbn [andb].
    + exists [], (p :: ps). now rewrite IH.
    + exists (c :: p), ps. now rewrite IH.
Qed.

Lemma basename_after_slash (dir name : Py.str) :
  has_char 47 name = false ->
  Vectorize.basename (dir ++ 47 :: name) = name.
Proof.
  intros H. unfold Vectorize.basename.
  destruct (split_char_pieces 47 dir name) as [p [ps E]].
  rewrite (split_last_line 47 name H) in E.
  etransitivity; [|apply (last_snoc (p :: ps) name [])].
  exact (f_equal (fun l => last l []) E).
Qed.

Lemma has_char_forallb (P : Py.char -> bool) (c : Py.char) (s : Py.str) :
  forallb P s = true -> P c = false -> has_char c s = false.
Proof.
  intros Hs Hc. apply has_char_false. intros Hin.
  rewrite forallb_forall in Hs. rewrite (Hs c Hin) in Hc. discriminate.
Qed.

Lemma clean_title_keeps (title : Py.str) :
  forallb keeps (clean_title title) = true.
Proof.
  unfold clean_title, Py.slice_to. apply forallb_firstn.
  destruct (rstrip_suffix (filter keeps title)) as [ws [Hs _]].
  assert (Hk : forallb keeps (filter keeps title) = true)
    by apply forallb_filter.
  rewrite Hs, forallb_app in Hk. apply andb_true_iff in Hk. exact (proj1 Hk).
Qed.

(** X15: the reader finds the id of a document in the name the crawler
    gave it.  For a key of lowercase hexadecimal digits, as [sha16] returns,
    and a date component without underscore, slash or dot, [article_id] of
    the path of the file in its directory is the key, whatever the title. *)
Theorem article_id_of_md_filename (dir published today key title : Py.str)
    (Hkey : forallb is_lower_hex key = true)
    (Hdate : forallb (fun c => negb ((c =? 95) || (c =? 47) || (c =? 46)))
                     (published_date published today) = true) :
  Vectorize.article_id
    (dir ++ Py.lit "/" ++ md_filename published today key title) = Ok key.
Proof.
  set (D := published_date published today) in *.
  set (T := clean_title title).
  assert (HT : forallb keeps T = true) by apply clean_title_keeps.
  assert (D95 : has_char 95 D = false)
    by (apply (has_char_forallb _ 95 D Hdate); reflexivity).
  assert (D47 : has_char 47 D = false)
    by (apply (has_char_forallb _ 47 D Hdate); reflexivity).
  assert (D46 : has_char 46 D = false)
    by (apply (has_char_forallb _ 46 D Hdate); reflexivity).
  assert (K95 : has_char 95 key = false)
    by (apply (has_char_forallb _ 95 key Hkey); reflexivity).
  assert (K47 : has_char 47 key = false)
    by (apply (has_char_forallb _ 47 key Hkey); reflexivity).
  assert (K46 : has_char 46 key = false)
    by (apply (has_char_forallb _ 46 key Hkey); reflexivity).
  assert (T47 : has_char 47 T = false)
    by (apply (has_char_forallb _ 47 T HT); reflexivity).
  assert (T46 : has_char 46 T = false)
    by (apply (has_char_forallb _ 46 T HT); reflexivity).
  set (X := D ++ [95] ++ key ++ [95] ++ T).
  assert (Hname : md_filename published today key title =
                  X ++ Py.lit ".md" ++ []).
  { unfold md_filename, X. fold D. fold T. unfold underscore.
    change (Py.lit "_") with [95]. rewrite app_nil_r.
    now rewrite <- !app_assoc. }
  assert (X47 : has_char 47 X = false).
  { unfold X. rewrite !has_char_app, D47, K47, T47. reflexivity. }
  assert (X46 : has_char 46 X = false).
  { unfold X. rewrite !has_char_app, D46, K46, T46. reflexivity. }
  unfold Vectorize.article_id. change (Py.lit "/") with [47].
  change (dir ++ [47] ++ md_filename published today key title)
    with (dir ++ 47 :: md_filename published today key title).
  rewrite basename_after_slash.
  - rewrite Hname. unfold Vectorize.replace.
    change (Py.lit ".md") with (46 :: [109; 100]).
    change (X ++ (46 :: [109; 100]) ++ []) with (X ++ 46 :: [109; 100] ++ []).
    rewrite (split_first_head _ _ X _ X46).
    change (Vectorize.split (46 :: [109; 100]) []) with [@nil Py.char].
    cbn [Py.join]. rewrite !app_nil_r. unfold X.
    rewrite (split_line _ D _ D95), (split_line _ key _ K95).
    reflexivity.
  - rewrite Hname, app_nil_r, has_char_app, X47. reflexivity.
Qed.

(** X16: the metadata of a document do not depend on its body.  For a
    record with plain fields and a body without carriage return, the reader
    returns the five fields as written, whatever else the body holds; the
    text it returns is the body up to its first delimiter, stripped. *)
Theorem frontmatter_survives_any_body (rec : article_record) (body : Py.str)
    (Hrec : plain_record rec = true)
    (Hcr : has_char 13 body = false) :
  exists first rest,
    Vectorize.split (Py.lit "---") (body_block body) = first :: rest /\
    Vectorize.read_document (record_md_text rec body) =
      Some (Vectorize.frontmatter_of rec, Py.strip first).
Proof.
  destruct rec as [key S U T P X preview].
  unfold plain_record in Hrec.
  cbn [rec_source rec_title rec_url rec_published rec_saved_at] in Hrec.
  do 4 (apply andb_true_iff in Hrec; destruct Hrec as [Hrec ?]).
  destruct (Vectorize.split (Py.lit "---") (body_block body))
    as [|first rest] eqn:Hsplit.
  { now apply split_go_nonempty in Hsplit. }
  exists first, rest. split; [reflexivity|].
  assert (Hdoc : has_char 13 (record_md_text
                                (mkRecord key S U T P X preview) body) = false).
  { destruct (plain_field_facts S Hrec) as [_ [HS2 _]].
    destruct (plain_field_facts T H2) as [_ [HT2 _]].
    destruct (plain_field_facts U H1) as [_ [HU2 _]].
    destruct (plain_field_facts P H0) as [_ [HP2 _]].
    destruct (plain_field_facts X H) as [_ [HX2 _]].
    unfold record_md_text.
    cbn [rec_source rec_title rec_url rec_published rec_saved_at].
    rewrite !has_char_app, HS2, HT2, HU2, HP2, HX2, Hcr. reflexivity. }
  unfold Vectorize.read_document. rewrite (universal_newlines_id _ Hdoc).
  unfold Vectorize.parse_document. rewrite record_md_text_blocks.
  rewrite split_here by discriminate.
  rewrite <- app_assoc.
  change ([Py.nl] ++ Py.lit "---" ++ body_block body)
    with (Py.nl :: Py.lit "---" ++ body_block body).
  rewrite split_first;
    [| discriminate | reflexivity
     | now apply frontmatter_lines_no_delimiter].
  rewrite Hsplit. now rewrite frontmatter_parsed.
Qed.

Lemma article_id_error (md_file : Py.str) (e : exn) :
  Vectorize.article_id md_file = Err e -> e = IndexError.
Proof.
  unfold Vectorize.article_id.
  destruct (Vectorize.split _ _) as [|? [|? ?]]; try discriminate;
    intros H; now injection H.
Qed.

(** X17: [make_vector_db] only adds to the collection.  The files being
    readable as text, when it returns the collection is the one it was given
    followed by exactly one triple for each file that has two delimiters, in
    the order of the files: the text and the metadata that the reader finds
    in the file, under the id found in its name; a file with fewer than two
    delimiters adds nothing.  The only exception it raises is [IndexError],
    and it raises it exactly when the name of a file with two delimiters has
    no underscore. *)
Theorem make_vector_db_appends (coll : Vectorize.collection)
    (md_files : list (Py.str * Py.str)) :
  match Vectorize.make_vector_db coll md_files with
  | Ok coll' =>
      exists added,
        coll' = coll ++ added /\
        Forall2 triple_of (filter is_document md_files) added
  | Err e =>
      e = IndexError /\
      exists file,
        In file md_files /\ is_document file = true /\
        Vectorize.article_id (fst file) = Err IndexError
  end.
Proof.
  revert coll. induction md_files as [|[md_file written] files IH];
    intros coll.
  - cbn [Vectorize.make_vector_db filter]. exists []. rewrite app_nil_r.
    split; [reflexivity | constructor].
  - cbn [Vectorize.make_vector_db filter]. unfold is_document at 1.
    cbn [snd].
    destruct (Vectorize.read_document written) as [[fm text]|] eqn:Hr.
    + destruct (Vectorize.article_id md_file) as [id|e] eqn:Hid; cbn [bind].
      * specialize (IH (coll ++ [(text, fm, id)])).
        destruct (Vectorize.make_vector_db _ files) as [coll'|e].
        -- destruct IH as [added [Hc Hall]].
           exists ((text, fm, id) :: added). rewrite Hc, <- app_assoc.
           split; [reflexivity|]. constructor; [|exact Hall].
           exists fm, text, id. cbn [fst snd]. now repeat split.
        -- destruct IH as [He [file [Hin Hfile]]].
           split; [exact He|]. exists file. split; [now right | exact Hfile].
      * pose proof (article_id_error md_file e Hid) as ->.
        split; [reflexivity|]. exists (md_file, written).
        split; [now left|]. unfold is_document. cbn [fst snd].
        rewrite Hr. now split.
    + specialize (IH coll).
      destruct (Vectorize.make_vector_db coll files) as [coll'|e].
      * exact IH.
      * destruct IH as [He [file [Hin Hfile]]].
        split; [exact He|]. exists file. split; [now right | exact Hfile].
Qed.

(** ** The tokens in [.env] *)

Lemma split_char_cons (x c : Py.char) (s : Py.str) :
  Vectorize.split [x] (c :: s) =
  if x =? c then [] :: Vectorize.split [x] s
  else match Vectorize.split [x] s with
       | p :: ps => (c :: p) :: ps
       | [] => [[c]]
       end.
Proof.
  unfold Vectorize.split. cbn [Vectorize.split_go Py.startswith length Nat.sub].
  now rewrite andb_true_r.
Qed.

Lemma split_char_chars (x c : Py.char) (s : Py.str) :
  has_char c s = false ->
  Forall (fun p => has_char c p = false) (Vectorize.split [x] s).
Proof.
  induction s as [|a s IH]; intros H.
  - repeat constructor.
  - cbn [has_char existsb] in H. apply orb_false_iff in H.
    destruct H as [Ha Hs]. specialize (IH Hs). rewrite split_char_cons.
    destruct (x =? a).
    + constructor; [reflexivity | exact IH].
    + destruct (Vectorize.split [x] s) as [|p ps].
      * repeat constructor. cbn [has_char existsb]. now rewrite Ha.
      * inversion IH as [|? ? Hp Hps]; subst. constructor; [|exact Hps].
        cbn [has_char existsb]. rewrite Ha. exact Hp.
Qed.

Lemma split_char_no_sep (x : Py.char) (s : Py.str) :
  Forall (fun p => has_char x p = false) (Vectorize.split [x] s).
Proof.
  induction s as [|a s IH].
  - repeat constructor.
  - rewrite split_char_cons. destruct (x =? a) eqn:E.
    + constructor; [reflexivity | exact IH].
    + destruct (Vectorize.split [x] s) as [|p ps].
      * repeat constructor. cbn [has_char existsb]. now rewrite E.
      * inversion IH as [|? ? Hp Hps]; subst. constructor; [|exact Hps].
        cbn [has_char existsb]. rewrite E. exact Hp.
Qed.

Lemma universal_newlines_no_cr (s : Py.str) :
  has_char 13 (Vectorize.universal_newlines s) = false.
Proof.
  assert (H : forall n s, (length s <= n)%nat ->
                          has_char 13 (Vectorize.universal_newlines s) = false).
  { clear s. induction n as [|n IH]; intros s Hn.
    - destruct s; [reflexivity | cbn [length] in Hn; lia].
    - destruct s as [|c s]; [reflexivity|].
      cbn [length] in Hn. cbn [Vectorize.universal_newlines].
      destruct (c =? 13) eqn:Hc.
      + destruct s as [|d s]; [reflexivity|].
        cbn [length] in Hn.
        destruct (d =? 10); cbn [has_char existsb]; apply IH;
          cbn [length]; lia.
      + cbn [has_char existsb]. rewrite Z.eqb_sym, Hc. apply IH. lia. }
  now apply (H (length s)).
Qed.

Lemma split_join_lines (x : Py.char) (lines : list Py.str) :
  lines <> [] -> Forall (fun l => has_char x l = false) lines ->
  Vectorize.split [x] (Py.join [x] lines) = lines.
Proof.
  induction lines as [|l rest IH]; [contradiction|]. intros _ H.
  inversion H as [|? ? Hl Hrest]; subst.
  destruct rest as [|l2 rest].
  - cbn [Py.join]. now apply split_last_line.
  - change (Py.join [x] (l :: l2 :: rest))
      with (l ++ [x] ++ Py.join [x] (l2 :: rest)).
    rewrite (split_line _ l _ Hl). now rewrite IH.
Qed.

Lemma has_char_join (c : Py.char) (sep : Py.str) (lines : list Py.str) :
  has_char c sep = false -> Forall (fun l => has_char c l = false) lines ->
  has_char c (Py.join sep lines) = false.
Proof.
  intros Hsep H. induction H as [|l rest Hl Hrest IH]; [reflexivity|].
  destruct rest as [|l2 rest]; [exact Hl|].
  change (Py.join sep (l :: l2 :: rest))
    with (l ++ sep ++ Py.join sep (l2 :: rest)).
  now rewrite !has_char_app, Hl, Hsep, IH.
Qed.

Lemma filter_twice {A : Type} (f : A -> bool) (l : list A) :
  filter f (filter f l) = filter f l.
Proof.
  induction l as [|x l IH]; [reflexivity|]. cbn [filter].
  destruct (f x) eqn:E; [cbn [filter]; now rewrite E, IH | exact IH].
Qed.

Lemma token_lines_dropped (a r : Py.str) :
  not_token_line (access_prefix ++ a) = false /\
  not_token_line (refresh_prefix ++ r) = false.
Proof.
  unfold not_token_line. rewrite !startswith_self.
  split; [reflexivity | apply andb_false_r].
Qed.

(** The lines of [.env] after an update, when the tokens are one line. *)
Lemma update_env_tokens_lines (env : option Py.str) (a r : Py.str) :
  one_line a = true -> one_line r = true ->
  env_lines (update_env_tokens env a r) =
  filter not_token_line
    (match env with
     | Some on_disk => env_lines on_disk
     | None => [[]]
     end) ++ [access_prefix ++ a; refresh_prefix ++ r].
Proof.
  unfold one_line. intros Ha Hr.
  apply andb_true_iff in Ha. destruct Ha as [Ha10 Ha13].
  apply andb_true_iff in Hr. destruct Hr as [Hr10 Hr13].
  apply negb_true_iff in Ha10, Ha13, Hr10, Hr13.
  set (kept := filter not_token_line
                 (match env with
                  | Some on_disk => env_lines on_disk
                  | None => [[]]
                  end)).
  set (new := kept ++ [access_prefix ++ a; refresh_prefix ++ r]).
  assert (Hupd : update_env_tokens env a r = Py.join [Py.nl] new).
  { unfold update_env_tokens, new, kept. destruct env as [on_disk|].
    - unfold env_lines. now rewrite <- app_assoc.
    - cbn [filter not_token_line]. unfold Py.nl. cbn [app Py.join].
      now rewrite <- !app_assoc. }
  assert (Hkept : forall c, c = 10 \/ c = 13 ->
                            Forall (fun l => has_char c l = false) kept).
  { intros c Hc. apply Forall_forall. intros l Hl.
    unfold kept in Hl. apply filter_In in Hl. destruct Hl as [Hl _].
    destruct env as [on_disk|].
    - unfold env_lines in Hl.
      destruct Hc as [-> | ->].
      + pose proof (split_char_no_sep 10 (Vectorize.universal_newlines on_disk))
          as F.
        rewrite Forall_forall in F. now apply F.
      + pose proof (split_char_chars 10 13 _ (universal_newlines_no_cr on_disk))
          as F.
        rewrite Forall_forall in F. now apply F.
    - destruct Hl as [<-|[]]. reflexivity. }
  assert (Hnew : forall c, c = 10 \/ c = 13 -> has_char c a = false ->
                           has_char c r = false ->
                           Forall (fun l => has_char c l = false) new).
  { intros c Hc Hca Hcr. unfold new. apply Forall_app.
    split; [now apply Hkept|].
    repeat constructor; rewrite has_char_app;
      [rewrite Hca | rewrite Hcr]; destruct Hc as [-> | ->]; reflexivity. }
  unfold env_lines. rewrite Hupd.
  rewrite universal_newlines_id.
  - apply split_join_lines.
    + unfold new. destruct kept; discriminate.
    + apply Hnew; auto.
  - apply has_char_join; [reflexivity|]. apply Hnew; auto.
Qed.

Lemma kept_lines_have_no_token (p : Py.str) (lines : list Py.str) :
  p = access_prefix \/ p = refresh_prefix ->
  filter (Py.startswith p) (filter not_token_line lines) = [].
Proof.
  intros Hp. induction lines as [|l lines IH]; [reflexivity|].
  cbn [filter]. destruct (not_token_line l) eqn:E; [|exact IH].
  cbn [filter]. unfold not_token_line in E. apply andb_true_iff in E.
  destruct E as [E1 E2]. apply negb_true_iff in E1, E2.
  destruct Hp as [-> | ->]; [rewrite E1 | rewrite E2]; exact IH.
Qed.

(** X18: [update_env_tokens] rewrites the two token lines and nothing
    else.  When the new tokens are one line each, the lines of the new
    [.env] are the lines of the old one that are not token lines, in their
    order, followed by the access token line and the refresh token line; so
    there is exactly one line of each, the new one.  A later update
    replaces both: the result is what it would have been on the first
    file. *)
Theorem update_env_tokens_replaces (env : option Py.str)
    (a r a2 r2 : Py.str)
    (Ha : one_line a = true) (Hr : one_line r = true) :
  let new_env := update_env_tokens env a r in
  env_lines new_env =
    filter not_token_line
      (match env with
       | Some on_disk => env_lines on_disk
       | None => [[]]
       end) ++ [access_prefix ++ a; refresh_prefix ++ r] /\
  filter (Py.startswith access_prefix) (env_lines new_env) =
    [access_prefix ++ a] /\
  filter (Py.startswith refresh_prefix) (env_lines new_env) =
    [refresh_prefix ++ r] /\
  update_env_tokens (Some new_env) a2 r2 = update_env_tokens env a2 r2.
Proof.
  intros new_env. subst new_env.
  pose proof (update_env_tokens_lines env a r Ha Hr) as Hl.
  set (old := match env with
              | Some on_disk => env_lines on_disk
              | None => [[]]
              end) in *.
  pose proof (fun p Hp => kept_lines_have_no_token p old Hp) as Hnone.
  split; [exact Hl|]. split; [|split].
  - rewrite Hl, filter_app, (Hnone access_prefix) by now left.
    cbn [app filter]. rewrite startswith_self.
    change (Py.startswith access_prefix (refresh_prefix ++ r)) with false.
    reflexivity.
  - rewrite Hl, filter_app, (Hnone refresh_prefix) by now right.
    cbn [app filter]. rewrite startswith_self.
    change (Py.startswith refresh_prefix (access_prefix ++ a)) with false.
    reflexivity.
  - assert (E : update_env_tokens (Some (update_env_tokens env a r)) a2 r2 =
                Py.join [Py.nl]
                  ((filter not_token_line
                      (env_lines (update_env_tokens env a r)) ++
                    [access_prefix ++ a2]) ++ [refresh_prefix ++ r2]))
      by reflexivity.
    rewrite E, Hl, filter_app, filter_twice. cbn [filter].
    destruct (token_lines_dropped a r) as [T1 T2]. rewrite T1, T2.
    rewrite app_nil_r. unfold update_env_tokens, old.
    destruct env as [on_disk|]; [reflexivity|].
    cbn [filter not_token_line]. unfold Py.nl. cbn [app Py.join].
    now rewrite <- !app_assoc.
Qed.

(** ** The length of a file name *)

(** X20: the name of a document is bounded.  With a published date given
    and a key from [sha16], the name has more than 20 and at most 81
    characters: ten at most for the date part, 16 for the key, 50 at most
    for the title, two underscores and the extension. *)
Theorem md_filename_length (published today url key title : Py.str)
    (Hpublished : published <> [])
    (Hkey : sha16 url = Ok key) :
  (20 < length (md_filename published today key title) <= 81)%nat.
Proof.
  destruct (sha16_ok url key Hkey) as [Hlen _].
  rewrite md_filename_shape. destruct published as [|c p]; [contradiction|].
  rewrite !length_app, Hlen.
  change (length (Py.lit "_")) with 1%nat.
  change (length (Py.lit ".md")) with 3%nat.
  pose proof (firstn_le_length 10 (c :: p)).
  assert (length (clean_title title) <= 50)%nat
    by (unfold clean_title, Py.slice_to; apply firstn_le_length).
  lia.
Qed.

(** ** The bytes of a document *)

Lemma utf8_char_length (c : Py.char) (b : Py.bytes) :
  Py.utf8_char c = Ok b -> (1 <= length b <= 4)%nat.
Proof.
  unfold Py.utf8_char. destruct (negb (Py.is_scalar c)); [discriminate|].
  destruct (c <? 128); [intros H; apply Ok_inj in H; subst; cbn; lia|].
  destruct (c <? 2048); [intros H; apply Ok_inj in H; subst; cbn; lia|].
  destruct (c <? 65536); intros H; apply Ok_inj in H; subst; cbn; lia.
Qed.

Lemma encode_utf8_length (s : Py.str) (data : Py.bytes) :
  Py.encode_utf8 s = Ok data ->
  (length s <= length data <= 4 * length s)%nat.
Proof.
  revert data. induction s as [|c s IH]; intros data H.
  - apply Ok_inj in H. subst. cbn. lia.
  - cbn [Py.encode_utf8] in H.
    destruct (Py.utf8_char c) as [b|e] eqn:Hc; cbn [bind] in H;
      [|discriminate].
    destruct (Py.encode_utf8 s) as [bs|e]; cbn [bind] in H; [|discriminate].
    apply Ok_inj in H. subst data.
    pose proof (utf8_char_length c b Hc). specialize (IH bs eq_refl).
    rewrite length_app. cbn [length]. lia.
Qed.

Lemma encode_utf8_result (s : Py.str) :
  match Py.encode_utf8 s with
  | Ok _ => forallb Py.is_scalar s = true
  | Err e => e = UnicodeEncodeError /\ forallb Py.is_scalar s = false
  end.
Proof.
  destruct (forallb Py.is_scalar s) eqn:H.
  - destruct (encode_utf8_scalar s H) as [data Hd]. now rewrite Hd.
  - now rewrite (encode_utf8_not_scalar s H).
Qed.

(** X21: [record_md] returns the bytes of the document exactly when no
    field of the record and no character of the body is a lone surrogate,
    and raises [UnicodeEncodeError] otherwise.  The document has between
    one and four bytes for each character of its text, which is the six
    texts and 56 characters of layout. *)
Theorem record_md_bytes (rec : article_record) (full_text : Py.str) :
  length (record_md_text rec full_text) =
    (length (document_parts rec full_text) + 56)%nat /\
  match record_md rec full_text with
  | Ok data =>
      forallb Py.is_scalar (document_parts rec full_text) = true /\
      (length (record_md_text rec full_text) <= length data
       <= 4 * length (record_md_text rec full_text))%nat
  | Err e =>
      e = UnicodeEncodeError /\
      forallb Py.is_scalar (document_parts rec full_text) = false
  end.
Proof.
  assert (Hs : forallb Py.is_scalar (record_md_text rec full_text) =
               forallb Py.is_scalar (document_parts rec full_text)).
  { unfold record_md_text, document_parts. rewrite !forallb_app.
    cbn [forallb Py.lit map list_ascii_of_string].
    repeat match goal with
           | |- context [Py.is_scalar ?c] =>
               lazymatch c with
               | Z.of_N _ => change (Py.is_scalar c) with true
               | Py.nl => change (Py.is_scalar c) with true
               end
           end.
    cbn [andb]. rewrite !andb_true_r. reflexivity. }
  split.
  - unfold record_md_text, document_parts. rewrite !length_app.
    cbn [length Py.lit map list_ascii_of_string]. lia.
  - unfold record_md.
    pose proof (encode_utf8_result (record_md_text rec full_text)) as Hr.
    destruct (Py.encode_utf8 (record_md_text rec full_text)) as [data|e]
      eqn:He.
    + split; [now rewrite <- Hs|]. now apply encode_utf8_length.
    + destruct Hr as [-> Hr]. split; [reflexivity | now rewrite <- Hs].
Qed.

(** ** Path separators in a file name *)

(** X22: the key and the title never bring a slash into the name of a
    document: the name has one exactly when the date part, the first ten
    characters of the published date or today's date, has one. *)
Theorem md_filename_slash_only_from_date
    (published today url key title : Py.str)
    (Hkey : sha16 url = Ok key) :
  has_char 47 (md_filename published today key title) =
  has_char 47 (published_date published today).
Proof.
  destruct (sha16_ok url key Hkey) as [_ Hhex].
  assert (K : has_char 47 key = false)
    by (apply (has_char_forallb _ 47 key Hhex); reflexivity).
  assert (T : has_char 47 (clean_title title) = false)
    by (apply (has_char_forallb _ 47 _ (clean_title_keeps title));
        reflexivity).
  unfold md_filename. rewrite !has_char_app, K, T.
  change (has_char 47 underscore) with false.
  change (has_char 47 (Py.lit ".md")) with false.
  cbn [orb]. apply orb_false_r.
Qed.

(** ** The metadata that the reader returns *)

Lemma split_once_parts (c : Py.char) (s a b : Py.str) :
  Vectorize.split_once c s = Some (a, b) ->
  s = a ++ c :: b /\ has_char c a = false.
Proof.
  revert a. induction s as [|x s IH]; intros a H; [discriminate|].
  cbn [Vectorize.split_once] in H. destruct (x =? c) eqn:E.
  - injection H as <- <-. apply Z.eqb_eq in E. subst. now split.
  - destruct (Vectorize.split_once c s) as [[a' b']|]; [|discriminate].
    injection H as <- <-. destruct (IH a' eq_refl) as [-> Ha].
    split; [reflexivity|]. cbn [has_char existsb].
    rewrite Z.eqb_sym, E. exact Ha.
Qed.

Lemma has_char_strip (c : Py.char) (s : Py.str) :
  has_char c s = false -> has_char c (Py.strip s) = false.
Proof.
  intros H. unfold Py.strip.
  pose proof (has_char_rstrip c s H) as Hr.
  destruct (lstrip_suffix (Py.rstrip s)) as [ws Hs].
  rewrite Hs, has_char_app in Hr. apply orb_false_iff in Hr.
  exact (proj2 Hr).
Qed.

Lemma dict_set_keys {V : Type} (k : Py.str) (v : V)
    (d : list (Py.str * V)) :
  map fst (dict_set k v d) =
  if existsb (fun k' => Py.str_eqb k' k) (map fst d) then map fst d
  else map fst d ++ [k].
Proof.
  induction d as [|[k' v'] d IH]; [reflexivity|].
  cbn [dict_set map fst existsb].
  destruct (Py.str_eqb k' k); cbn [map fst orb]; [reflexivity|].
  rewrite IH. now destruct (existsb _ (map fst d)).
Qed.

Lemma dict_set_forall {V : Type} (P : Py.str * V -> Prop) (k : Py.str)
    (v : V) (d : list (Py.str * V)) :
  P (k, v) -> Forall P d -> Forall P (dict_set k v d).
Proof.
  intros Hk H. induction H as [|[k' v'] d Hx Hd IH]; cbn [dict_set].
  - now repeat constructor.
  - destruct (Py.str_eqb k' k) eqn:E.
    + apply str_eqb_eq in E. subst k'. now constructor.
    + now constructor.
Qed.

Lemma parse_line_wellformed (fm : Vectorize.frontmatter) (line : Py.str) :
  NoDup (map fst fm) -> Forall stripped_entry fm ->
  NoDup (map fst (Vectorize.parse_line fm line)) /\
  Forall stripped_entry (Vectorize.parse_line fm line).
Proof.
  intros Hn Hf. unfold Vectorize.parse_line.
  destruct (Vectorize.split_once 58 line) as [[key val]|] eqn:E;
    [|now split].
  destruct (split_once_parts 58 line key val E) as [_ Hk]. split.
  - rewrite dict_set_keys.
    destruct (existsb _ (map fst fm)) eqn:Hex; [exact Hn|].
    apply NoDup_app; [exact Hn | repeat constructor; intros [] |].
    intros k Hin [<-|[]].
    assert (existsb (fun k' => Py.str_eqb k' (Py.strip key)) (map fst fm)
            = true); [|congruence].
    apply existsb_exists. exists (Py.strip key).
    split; [exact Hin | apply str_eqb_refl].
  - apply dict_set_forall; [|exact Hf].
    unfold stripped_entry. cbn [fst snd].
    split; [apply strip_idem|]. split; [apply strip_idem|].
    now apply has_char_strip.
Qed.

(** X23: whatever text stands between the delimiters, the metadata that
    the reader builds from it are a dict of stripped strings: each key is
    there once, has no colon and no whitespace at either end, and no value
    has whitespace at either end; there are no more keys than lines. *)
Theorem parse_frontmatter_wellformed (block : Py.str) :
  let fm := Vectorize.parse_frontmatter block in
  NoDup (map fst fm) /\
  Forall stripped_entry fm /\
  (length fm <= length (Vectorize.split [Py.nl] (Py.strip block)))%nat.
Proof.
  intros fm. subst fm. unfold Vectorize.parse_frontmatter.
  assert (H : forall lines fm,
    NoDup (map fst fm) -> Forall stripped_entry fm ->
    NoDup (map fst (fold_left Vectorize.parse_line lines fm)) /\
    Forall stripped_entry (fold_left Vectorize.parse_line lines fm) /\
    (length (fold_left Vectorize.parse_line lines fm)
     <= length fm + length lines)%nat).
  { induction lines as [|line lines IH]; intros fm Hn Hf; cbn [fold_left].
    - split; [exact Hn|]. split; [exact Hf | cbn; lia].
    - destruct (parse_line_wellformed fm line Hn Hf) as [Hn' Hf'].
      destruct (IH _ Hn' Hf') as [G1 [G2 G3]].
      split; [exact G1|]. split; [exact G2|].
      assert (length (Vectorize.parse_line fm line) <= S (length fm))%nat.
      { rewrite <- (length_map fst (Vectorize.parse_line fm line)).
        rewrite <- (length_map fst fm).
        unfold Vectorize.parse_line.
        destruct (Vectorize.split_once 58 line) as [[key val]|]; [|lia].
        rewrite dict_set_keys.
        destruct (existsb _ (map fst fm)); [lia|].
        rewrite length_app. cbn [length]. lia. }
      cbn [length]. lia. }
  destruct (H (Vectorize.split [Py.nl] (Py.strip block)) [])
    as [G1 [G2 G3]]; [constructor | constructor |].
  split; [exact G1|]. split; [exact G2 | exact G3].
Qed.
End Crawler.

(** * Closed statements: test vectors, instances, counterexamples *)

Example sha256_empty :
  Sha256.hexdigest [] =
  Py.lit "e3b0c44298fc1c149afbf4c8996fb92427ae41e4649b934ca495991b7852b855".
Proof. vm_compute. reflexivity. Qed.

Example sha256_abc :
  Sha256.hexdigest [x61; x62; x63] =
  Py.lit "ba7816bf8f01cfea414140de5dae2223b00361a396177a9cb410ff61f20015ad".
Proof. vm_compute. reflexivity. Qed.

Example sha16_example_url :
  sha16 (Py.lit "https://example.com/a") = Ok (Py.lit "2dce0a4c50441bfc").
Proof. vm_compute. reflexivity. Qed.

Example sha16_non_ascii :
  sha16 [0xE9; 0x20AC; 0x1F600] = Ok (Py.lit "df9226927fd572c1").
Proof. vm_compute. reflexivity. Qed.

Example sha256_two_blocks :
  Sha256.hexdigest (repeat x61 119) =
  Py.lit "31eba51c313a5c08226adf18d4a359cfdfd8d2e816b13f4af952f7ea6584dcfb".
Proof. vm_compute. reflexivity. Qed.

Example python_split_overlap :
  Vectorize.split (Py.lit "---") (Py.lit "a----b") = [Py.lit "a"; Py.lit "-b"].
Proof. reflexivity. Qed.

Example article_id_of_sample_file :
  Vectorize.article_id
    (Py.lit "out/Tue, 05 No_2dce0a4c50441bfc_Zoning vote.md") = Ok sample_id.
Proof. reflexivity. Qed.

Example article_id_without_underscore :
  Vectorize.article_id (Py.lit "out/notes.md") = Err IndexError.
Proof. reflexivity. Qed.

Example sample_text_length : Py.len sample_text = 109.
Proof. reflexivity. Qed.

(** An instance of C7 at the URL of the end-to-end scenario. *)
Lemma sha16_sixteen_lowercase_hex_witness :
  let u := Py.lit "https://example.com/a" in
  forallb Py.is_scalar u = true /\
  exists data h,
    Py.encode_utf8 u = Ok data /\
    sha16 u = Ok h /\
    h = firstn 16 (Sha256.hexdigest data) /\
    length h = 16%nat /\
    forallb is_lower_hex h = true /\
    (forall u', u' = u -> sha16 u' = Ok h).
Proof.
  intros u. split; [reflexivity|].
  exact (proj1 (sha16_sixteen_lowercase_hex u eq_refl)).
Defined.

(** The counterexample of C7: a string with a lone surrogate is a [str],
    and [sha16] raises on it instead of returning an identifier. *)
Lemma lone_surrogate_has_no_id_counterexample :
  let u := Py.lit "https://example.com/" ++ [0xD800] in
  sha16 u = Err UnicodeEncodeError /\
  ~ (exists h, sha16 u = Ok h /\ length h = 16%nat /\
               forallb is_lower_hex h = true).
Proof.
  intros u.
  assert (H : sha16 u = Err UnicodeEncodeError) by (vm_compute; reflexivity).
  split; [exact H|]. intros [h [Hh _]]. rewrite H in Hh. discriminate.
Qed.

(** [json.dumps] with [indent=2] and [ensure_ascii=False], on a nested
    value and on a string with every kind of character. *)
Example json_dumps_nested :
  sample_dumps nested_value =
  quoted (Py.join [Py.nl]
    (map Py.lit
       [ "[";
         "  {";
         "    'id': 'a'";
         "  },";
         "  {";
         "    'id': 'b',";
         "    'n': [";
         "      1,";
         "      -5,";
         "      null,";
         "      true,";
         "      [],";
         "      {}";
         "    ]";
         "  }";
         "]" ]%string)).
Proof. vm_compute. reflexivity. Qed.

Example json_dumps_escapes :
  sample_dumps escaped_value =
  [91; 10; 32; 32; 34; 113; 92; 34; 98; 92; 92; 115; 92; 110; 92; 114;
   92; 116; 92; 98; 92; 102; 92; 117; 48; 48; 48; 49; 92; 117; 48; 48; 49;
   102; 127; 32; 233; 0xD800; 34; 10; 93].
Proof. vm_compute. reflexivity. Qed.

(** The counterexample of C1: the ledger holds an id with a lone surrogate,
    which [json.loads] accepts in its escaped form.  The text that
    [json.dumps] makes of the ledger and of a new record holds the surrogate
    as it is, [encode] raises, and nothing is stored. *)
Lemma unencodable_ledger_counterexample :
  let existing := [surrogate_entry] in
  let folder :=
    folder_with (bytes_of (quoted (Py.lit "[{'id': '\ud800'}]"))) in
  has_char 0xD800 (sample_dumps (PList (existing ++
                                        map record_dict [sample_record])))
  = true /\
  merge_and_persist sample_dumps true folder existing [sample_record] =
    Err UnicodeEncodeError /\
  ~ (exists folder',
       merge_and_persist sample_dumps true folder existing [sample_record] =
         Ok (existing ++ map record_dict [sample_record], folder')).
Proof.
  intros existing folder.
  assert (H : merge_and_persist sample_dumps true folder existing
                [sample_record] = Err UnicodeEncodeError)
    by (vm_compute; reflexivity).
  split; [vm_compute; reflexivity|]. split; [exact H|].
  intros [folder' H']. rewrite H in H'. discriminate.
Qed.

(** An instance of C1: the ledger of the end-to-end scenario has one entry
    and one record is new. *)
Lemma merge_and_persist_appends_witness :
  let existing := [PDict [(Py.lit "id", PStr sample_id)]] in
  let folder := folder_with one_id_ledger in
  let merged := existing ++ map record_dict [sample_record] in
  ledger_bytes sample_dumps merged = Ok (bytes_of (sample_dumps (PList merged)))
  /\
  exists folder',
    merge_and_persist sample_dumps true folder existing [sample_record] =
      Ok (merged, folder') /\
    ledger_document folder' = Some (bytes_of (sample_dumps (PList merged))) /\
    (forall m, Py.str_eqb m articles_json = false ->
               find_file m folder' = find_file m folder).
Proof.
  intros existing folder merged.
  assert (E : ledger_bytes sample_dumps merged =
              Ok (bytes_of (sample_dumps (PList merged))))
    by (vm_compute; reflexivity).
  split; [exact E|].
  exact (proj1 (merge_and_persist_appends sample_dumps folder existing
                  sample_record [] true)).
Defined.

(** An instance of C9: [articles.json] holds an empty JSON object. *)
Lemma load_non_list_is_empty_witness :
  let folder := folder_with (bytes_of (Py.lit "{}")) in
  let f := mkItem articles_json KFile (bytes_of (Py.lit "{}")) in
  find_file articles_json folder = Some f /\
  sample_loads (item_content f) = Ok (PDict []) /\
  (forall l, PDict [] <> PList l) /\
  load_articles_from_box sample_loads true folder = Ok ([], folder).
Proof.
  intros folder f.
  assert (H1 : find_file articles_json folder = Some f) by reflexivity.
  assert (H2 : sample_loads (item_content f) = Ok (PDict [])) by reflexivity.
  assert (H3 : forall l, PDict [] <> PList l) by (intros l; discriminate).
  split; [exact H1|]. split; [exact H2|]. split; [exact H3|].
  exact (load_non_list_is_empty sample_loads folder f (PDict []) H1 H2 H3).
Defined.

(** An instance of C10: the only entry of the ledger has no id. *)
Lemma falsy_id_is_not_seen_witness :
  let r := PDict [(Py.lit "url", PStr (Py.lit "https://example.com/a"))] in
  let url := Py.lit "https://example.com/a" in
  let title := Py.lit "Zoning vote" in
  let rec := make_record sample_item url sample_id title sample_text
                         sample_world in
  py_get r (Py.lit "id") = Ok PNone /\
  truthy PNone = false /\
  get_seen_urls ([] ++ r :: []) = Ok [] /\
  forallb Py.is_scalar (Py.slice_to 60 (it_title sample_item)) = true /\
  get_seen_urls ([] ++ []) = Ok [] /\
  set_contains_str sample_id [] = false /\
  exists st',
    process_item no_isalnum no_lower (start [] [] (folder_with []))
                 (sample_item, sample_world) = Ok st' /\
    st' = try_item no_isalnum no_lower (enter (start [] [] (folder_with [])))
                   sample_item url sample_id sample_world /\
    new_articles st' = [rec].
Proof.
  intros r url title rec.
  assert (H1 : py_get r (Py.lit "id") = Ok PNone) by reflexivity.
  assert (H2 : truthy PNone = false) by reflexivity.
  assert (H3 : forall a, In a (@nil pyval ++ []) ->
                         id_field a <> Some (PStr sample_id))
    by (intros a []).
  assert (H4 : get_seen_urls ([] ++ r :: []) = Ok []) by reflexivity.
  assert (H5 : has_url sample_item = Some url) by reflexivity.
  assert (H6 : sha16 url = Ok sample_id) by (vm_compute; reflexivity).
  assert (H7 : extract_text (w_render sample_world) = Ok (title, sample_text))
    by reflexivity.
  assert (H8 : looks_relevant no_lower (chosen_title sample_item title)
                              sample_text = true)
    by (vm_compute; reflexivity).
  assert (H9 : record_md rec (Py.strip sample_text) =
               Ok (bytes_of (record_md_text rec (Py.strip sample_text))))
    by (vm_compute; reflexivity).
  assert (H10 : forallb Py.is_scalar (Py.slice_to 60 (it_title sample_item))
                 = true) by (vm_compute; reflexivity).
  pose proof (falsy_id_is_not_seen no_isalnum no_lower [] [] r PNone []
                sample_item sample_world url sample_id title sample_text
                _ [] (folder_with []) H1 H2 H3 H4 H5 H6 H10 H7 H8 H9
                eq_refl eq_refl) as [G1 [G2 G3]].
  split; [exact H1|]. split; [exact H2|]. split; [exact H4|].
  split; [exact H10|].
  split; [exact G1|]. split; [exact G2 | exact G3].
Defined.

(** An instance of C2: the ledger holds one id, and the feed gives the same
    new URL twice. *)
Lemma run_keeps_ids_distinct_witness :
  let folder := folder_with one_id_ledger in
  let articles := [PDict [(Py.lit "id", PStr sample_id)]] in
  let feed :=
    [(other_item, sample_world); (sample_item, sample_world);
     (other_item, sample_world)] in
  let res :=
    outcome_of (main no_isalnum no_lower sample_loads sample_dumps true true
                     folder [] feed) in
  load_articles_from_box sample_loads true folder = Ok (articles, folder) /\
  NoDup (ids articles) /\
  main no_isalnum no_lower sample_loads sample_dumps true true folder [] feed
    = Ok res /\
  length (added res) = 1%nat /\
  final_articles res = articles ++ map record_dict (added res) /\
  NoDup (ids (final_articles res)) /\
  NoDup (map rec_id (added res)).
Proof.
  intros folder articles feed res.
  assert (H1 : load_articles_from_box sample_loads true folder =
               Ok (articles, folder)) by (vm_compute; reflexivity).
  assert (H2 : NoDup (ids articles)).
  { change (ids articles) with [PStr sample_id].
    constructor; [intros [] | constructor]. }
  assert (H3 : main no_isalnum no_lower sample_loads sample_dumps true true
                    folder [] feed = Ok res) by (vm_compute; reflexivity).
  assert (H4 : length (added res) = 1%nat) by (vm_compute; reflexivity).
  pose proof (run_keeps_ids_distinct no_isalnum no_lower sample_loads
                sample_dumps true true folder [] feed articles folder res
                H1 H2 H3) as [G1 [G2 [G3 _]]].
  split; [exact H1|]. split; [exact H2|]. split; [exact H3|].
  split; [exact H4|]. split; [exact G1|]. split; [exact G2 | exact G3].
Defined.

(** The failing input of C3: an RSS item, whose date is in the RFC 822
    form.  The document is stored, locally and in the folder, under a name
    whose first component is the first ten characters of that date. *)
Lemma rss_date_file_name :
  exists st',
    process_item no_isalnum no_lower (start [] [] (folder_with []))
                 (sample_item, sample_world) = Ok st' /\
    map fst (out_dir st') =
      [Py.lit "Tue, 05 No_2dce0a4c50441bfc_Zoning vote.md"] /\
    map item_name (box st') =
      [articles_json; Py.lit "Tue, 05 No_2dce0a4c50441bfc_Zoning vote.md"] /\
    published_date (it_published sample_item) (w_today sample_world) =
      Py.lit "Tue, 05 No" /\
    is_iso_date
      (published_date (it_published sample_item) (w_today sample_world))
      = false.
Proof.
  eexists. split; [vm_compute; reflexivity|].
  repeat split; vm_compute; reflexivity.
Qed.

(** The failing input of C4: the body has the delimiter inside.  The
    reader, which splits the whole text at every delimiter and takes the
    third part for the content, returns what precedes the delimiter of the
    body, and not the body. *)
Lemma delimiter_in_body_truncates :
  let body := Py.lit "one---two" in
  Vectorize.read_document (record_md_text sample_record body) =
    Some (Vectorize.frontmatter_of sample_record, Py.lit "one") /\
  Vectorize.read_document (record_md_text sample_record body) <>
    Some (Vectorize.frontmatter_of sample_record, body).
Proof.
  intros body.
  assert (E : Vectorize.read_document (record_md_text sample_record body) =
              Some (Vectorize.frontmatter_of sample_record, Py.lit "one"))
    by (vm_compute; reflexivity).
  split; [exact E|]. rewrite E. intros H.
  apply (f_equal (fun o => match o with
                           | Some (_, b) => length b
                           | None => O
                           end)) in H.
  vm_compute in H. discriminate H.
Qed.

(** An instance of the round trip of a plain document. *)
Lemma read_document_round_trip_witness :
  let body := Py.lit "The council met." ++ [Py.nl; Py.nl] ++
              Py.lit "It voted - twice -- on zoning." in
  plain_record sample_record = true /\
  plain_body body = true /\
  Vectorize.read_document (record_md_text sample_record body) =
    Some (Vectorize.frontmatter_of sample_record, body).
Proof.
  intros body.
  assert (H1 : plain_record sample_record = true) by reflexivity.
  assert (H2 : plain_body body = true) by reflexivity.
  split; [exact H1|]. split; [exact H2|].
  exact (read_document_round_trip sample_record body H1 H2).
Defined.

(** The input on which C5 fails as it is stated: the article element has
    five blocks of exactly 20 characters.  Joined, they make 108 characters,
    but the code drops each of them, and the body is empty. *)
Lemma twenty_character_blocks_counterexample :
  let pg := mkPage None None (Some twenty_char_blocks) [] None in
  Py.len (or_empty (page_extract pg)) < 100 /\
  100 <= Py.len (spec_structural_stage twenty_char_blocks) /\
  snd (extract_page pg) = [] /\
  snd (extract_page pg) <> spec_structural_stage twenty_char_blocks.
Proof.
  intros pg. split; [reflexivity|]. split; [vm_compute; discriminate|].
  split; [reflexivity|]. vm_compute. discriminate.
Qed.

(** An instance of C5, as amended. *)
Lemma structural_stage_wins_witness :
  let paragraphs :=
    [Py.lit "Short."; long_block; Py.lit "exactly 20 chars...."] in
  Py.len (or_empty (Some (Py.lit "Subscribe"))) < 100 /\
  100 <= Py.len (long_blocks paragraphs) /\
  snd (extract_page
         (mkPage (Some (Py.lit "Subscribe")) None (Some paragraphs)
                 [long_block; long_block] None))
    = long_blocks paragraphs /\
  long_blocks paragraphs =
    Py.join [Py.nl; Py.nl] (filter (fun p => 21 <=? Py.len p) paragraphs).
Proof.
  intros paragraphs.
  assert (H1 : Py.len (or_empty (Some (Py.lit "Subscribe"))) < 100)
    by reflexivity.
  assert (H2 : 100 <= Py.len (long_blocks paragraphs))
    by (vm_compute; discriminate).
  split; [exact H1|]. split; [exact H2|].
  exact (structural_stage_wins (Some (Py.lit "Subscribe")) None None
           paragraphs [long_block; long_block] H1 H2).
Defined.

(** The input on which C6 fails as it is stated: the keyword tax occurs in
    the title followed by the body, but not in the text that the filter
    searches, where a newline stands between the two. *)
Lemma keyword_across_title_and_body_counterexample :
  let title := Py.lit "ta" in
  let text := Py.lit "x" in
  looks_relevant no_lower title text = false /\
  (exists k, In k KEYWORDS /\ substring k (lower no_lower (title ++ text))) /\
  ~ (looks_relevant no_lower title text = true <->
     exists k, In k KEYWORDS /\ substring k (lower no_lower (title ++ text))).
Proof.
  intros title text.
  assert (E : looks_relevant no_lower title text = false)
    by (vm_compute; reflexivity).
  assert (K : exists k, In k KEYWORDS /\
                        substring k (lower no_lower (title ++ text))).
  { exists (Py.lit "tax"). split.
    - unfold KEYWORDS. apply in_map. simpl.
      repeat (first [left; reflexivity | right]).
    - exists [], []. reflexivity. }
  split; [exact E|]. split; [exact K|].
  intros [_ H]. rewrite (H K) in E. discriminate E.
Qed.

(** * Instances of the further properties *)

(** An instance of X2: four entries, one without link, one twice. *)
Lemma run_loop_counts_every_entry_witness :
  let st := start [] [] (folder_with []) in
  let st' := state_of (run_loop no_isalnum no_lower st four_entries) in
  run_loop no_isalnum no_lower st four_entries = Ok st' /\
  counted st' = counted st + Py.len four_entries /\
  Z.of_nat (length (new_articles st')) - Z.of_nat (length (new_articles st))
    <= processed_count st' - processed_count st /\
  (length (new_articles st) <= length (new_articles st'))%nat.
Proof.
  intros st st'.
  assert (H : run_loop no_isalnum no_lower st four_entries = Ok st')
    by (vm_compute; reflexivity).
  split; [exact H|].
  exact (run_loop_counts_every_entry no_isalnum no_lower st st'
           four_entries H).
Defined.

(** An instance of X3: the only entry of the feed is in the ledger. *)
Lemma ledger_written_only_with_new_records_witness :
  let folder := folder_with one_id_ledger in
  let articles := [PDict [(Py.lit "id", PStr sample_id)]] in
  let feed := [(sample_item, sample_world)] in
  let res := outcome_of (main no_isalnum no_lower sample_loads sample_dumps
                              true false folder [] feed) in
  load_articles_from_box sample_loads true folder = Ok (articles, folder) /\
  main no_isalnum no_lower sample_loads sample_dumps true false folder []
       feed = Ok res /\
  added res = [] /\
  final_articles res = articles /\
  find_file articles_json (final_box res) = find_file articles_json folder.
Proof.
  intros folder articles feed res.
  assert (H1 : load_articles_from_box sample_loads true folder =
               Ok (articles, folder)) by (vm_compute; reflexivity).
  assert (H2 : main no_isalnum no_lower sample_loads sample_dumps true false
                    folder [] feed = Ok res) by (vm_compute; reflexivity).
  assert (H3 : added res = []) by (vm_compute; reflexivity).
  destruct (ledger_written_only_with_new_records no_isalnum no_lower
              sample_loads sample_dumps true false folder folder [] feed
              articles res H1 H2) as [G _].
  destruct (G H3) as [G1 G2].
  split; [exact H1|]. split; [exact H2|]. split; [exact H3|].
  split; [exact G1 | exact G2].
Defined.

(** An instance of X6: the first run starts without ledger and adds the
    record of [sample_item]. *)
Lemma second_run_adds_nothing_witness :
  let feed := [(sample_item, sample_world); (linkless_item, sample_world)] in
  let res := outcome_of (main no_isalnum no_lower ledger_loads sample_dumps
                              true true [] [] feed) in
  let res' := outcome_of (main no_isalnum no_lower ledger_loads sample_dumps
                               true true (final_box res) [] feed) in
  (forall data, ledger_bytes sample_dumps (final_articles res) = Ok data ->
     ledger_loads data = Ok (PList (final_articles res))) /\
  ledger_loads [x5b; x5d] = Ok (PList []) /\
  main no_isalnum no_lower ledger_loads sample_dumps true true [] [] feed
    = Ok res /\
  main no_isalnum no_lower ledger_loads sample_dumps true true (final_box res)
       [] feed = Ok res' /\
  length (added res) = 1%nat /\
  added res' = [] /\
  final_articles res' = final_articles res /\
  final_box res' = final_box res.
Proof.
  intros feed res res'.
  assert (H1 : forall data,
             ledger_bytes sample_dumps (final_articles res) = Ok data ->
             ledger_loads data = Ok (PList (final_articles res))).
  { intros data Hd.
    assert (E : ledger_bytes sample_dumps (final_articles res) =
                Ok (bytes_of (sample_dumps (PList stored_ledger))))
      by (vm_compute; reflexivity).
    rewrite E in Hd. apply Ok_inj in Hd. subst data.
    vm_compute. reflexivity. }
  assert (H2 : ledger_loads [x5b; x5d] = Ok (PList [])) by reflexivity.
  assert (H3 : main no_isalnum no_lower ledger_loads sample_dumps true true
                    [] [] feed = Ok res) by (vm_compute; reflexivity).
  assert (H4 : main no_isalnum no_lower ledger_loads sample_dumps true true
                    (final_box res) [] feed = Ok res')
    by (vm_compute; reflexivity).
  assert (H5 : length (added res) = 1%nat) by (vm_compute; reflexivity).
  destruct (second_run_adds_nothing no_isalnum no_lower ledger_loads
              sample_dumps true true true true [] [] [] feed res res'
              H1 H2 H3 H4) as [G1 [G2 G3]].
  split; [exact H1|]. split; [exact H2|]. split; [exact H3|].
  split; [exact H4|]. split; [exact H5|]. split; [exact G1|].
  split; [exact G2 | exact G3].
Defined.

(** An instance of X7: the name is new in the folder. *)
Lemma box_upload_file_overwrites_witness :
  let folder := folder_with [] in
  let name := Py.lit "2024-11-05_2dce0a4c50441bfc_Zoning vote.md" in
  let data := bytes_of sample_text in
  let out := [(name, data)] in
  read_bytes name out = Ok data /\
  exists folder',
    box_upload_file true folder out name name = Ok folder' /\
    option_map item_content (find_file name folder') = Some data /\
    (forall m, Py.str_eqb m name = false ->
               find_file m folder' = find_file m folder) /\
    length folder' =
      (match find_file name folder with
       | Some _ => length folder
       | None => S (length folder)
       end) /\
    box_upload_file true folder' out name name = Ok folder'.
Proof.
  intros folder name data out.
  assert (H : read_bytes name out = Ok data) by reflexivity.
  split; [exact H|].
  exact (box_upload_file_overwrites folder out name name data H).
Defined.

(** An instance of X8. *)
Lemma save_then_load_witness :
  let folder := folder_with [] in
  (let* data := ledger_bytes sample_dumps stored_ledger in ledger_loads data)
  = Ok (PList stored_ledger) /\
  (exists folder',
     save_articles_to_box sample_dumps true folder stored_ledger = Ok folder' /\
     load_articles_from_box ledger_loads true folder' =
       Ok (stored_ledger, folder') /\
     save_articles_to_box sample_dumps true folder' stored_ledger =
       Ok folder') /\
  save_articles_to_box sample_dumps false folder stored_ledger =
    Err BoxAPIException /\
  load_articles_from_box ledger_loads false folder = Err BoxAPIException.
Proof.
  intros folder.
  assert (H : (let* data := ledger_bytes sample_dumps stored_ledger in
               ledger_loads data) = Ok (PList stored_ledger))
    by (vm_compute; reflexivity).
  split; [exact H|].
  exact (save_then_load ledger_loads sample_dumps folder stored_ledger H).
Defined.

(** An instance of X9: an empty folder. *)
Lemma load_creates_empty_ledger_witness :
  let folder := @nil box_item in
  let folder' := folder ++ [mkItem articles_json KFile [x5b; x5d]] in
  find_file articles_json folder = None /\
  sample_loads [x5b; x5d] = Ok (PList []) /\
  load_articles_from_box sample_loads true folder = Ok ([], folder') /\
  ledger_document folder' = Some [x5b; x5d] /\
  (forall m, Py.str_eqb m articles_json = false ->
             find_file m folder' = find_file m folder) /\
  load_articles_from_box sample_loads true folder' = Ok ([], folder') /\
  load_articles_from_box sample_loads false folder = Err BoxAPIException.
Proof.
  intros folder folder'.
  assert (H1 : find_file articles_json folder = None) by reflexivity.
  assert (H2 : sample_loads [x5b; x5d] = Ok (PList [])) by reflexivity.
  split; [exact H1|]. split; [exact H2|].
  exact (load_creates_empty_ledger sample_loads folder H1 H2).
Defined.

(** An instance of X10. *)
Lemma run_loop_records_come_from_feed_witness :
  let st := start [] [] (folder_with []) in
  let st' := state_of (run_loop no_isalnum no_lower st four_entries) in
  run_loop no_isalnum no_lower st four_entries = Ok st' /\
  length (new_articles st') = 2%nat /\
  exists new_records,
    new_articles st' = new_articles st ++ new_records /\
    (length new_records <= length four_entries)%nat /\
    forall r, In r new_records ->
      sha16 (rec_url r) = Ok (rec_id r) /\
      (length (rec_content_preview r) <= 203)%nat /\
      exists item w,
        In (item, w) four_entries /\ has_url item = Some (rec_url r) /\
        rec_source r = it_source item /\
        rec_published r = it_published item /\
        rec_saved_at r = w_now w.
Proof.
  intros st st'.
  assert (H : run_loop no_isalnum no_lower st four_entries = Ok st')
    by (vm_compute; reflexivity).
  split; [exact H|]. split; [vm_compute; reflexivity|].
  exact (run_loop_records_come_from_feed no_isalnum no_lower st st'
           four_entries H).
Defined.

(** An instance of X11: the metadata have no title, the page has one. *)
Lemma strong_primary_is_returned_witness :
  100 <= Py.len sample_text /\
  extract_page (mkPage (Some sample_text) None (Some [long_block])
                       [long_block] (Some (Py.lit "Page title")))
  = (or_empty None, sample_text).
Proof.
  assert (H : 100 <= Py.len sample_text) by (vm_compute; discriminate).
  split; [exact H|].
  exact (strong_primary_is_returned sample_text None
           (Some (Py.lit "Page title")) (Some [long_block]) [long_block] H).
Defined.

(** An instance of X12: a primary text of 9 characters, no article
    element, no paragraph: the 9 characters are lost. *)
Lemma weak_primary_is_replaced_witness :
  let pg := mkPage (Some (Py.lit "Subscribe")) None None []
                   (Some (Py.lit "Page title")) in
  Py.len (or_empty (page_extract pg)) < 100 /\
  snd (extract_page pg) = long_blocks (page_paragraphs pg) /\
  (snd (extract_page pg) = [] \/ 20 < Py.len (snd (extract_page pg))) /\
  fst (extract_page pg) = Py.lit "Page title".
Proof.
  intros pg.
  assert (H : Py.len (or_empty (page_extract pg)) < 100) by reflexivity.
  split; [exact H|].
  exact (weak_primary_is_replaced pg H).
Defined.

(** An instance of X13. *)
Lemma looks_relevant_ascii_witness :
  let title := Py.lit "City COUNCIL meets" in
  let text := Py.lit "Nothing else." in
  forallb Py.is_ascii title = true /\
  forallb Py.is_ascii text = true /\
  (looks_relevant no_lower title text = true <->
   exists k, In k KEYWORDS /\
             (substring k (map Py.ascii_lower title) \/
              substring k (map Py.ascii_lower text))).
Proof.
  intros title text.
  assert (H1 : forallb Py.is_ascii title = true) by reflexivity.
  assert (H2 : forallb Py.is_ascii text = true) by reflexivity.
  split; [exact H1|]. split; [exact H2|].
  exact (looks_relevant_ascii no_lower title text H1 H2).
Defined.

(** An instance of X15: the title has an underscore. *)
Lemma article_id_of_md_filename_witness :
  let published := Py.lit "2024-11-05T17:00:00+00:00" in
  let today := Py.lit "2024-11-06" in
  let title := Py.lit "Zoning: a_b vote" in
  forallb is_lower_hex sample_id = true /\
  forallb (fun c => negb ((c =? 95) || (c =? 47) || (c =? 46)))
          (published_date published today) = true /\
  Vectorize.article_id
    (Py.lit "out" ++ Py.lit "/" ++
     md_filename no_isalnum published today sample_id title) = Ok sample_id.
Proof.
  intros published today title.
  assert (H1 : forallb is_lower_hex sample_id = true) by reflexivity.
  assert (H2 : forallb (fun c => negb ((c =? 95) || (c =? 47) || (c =? 46)))
                       (published_date published today) = true)
    by reflexivity.
  split; [exact H1|]. split; [exact H2|].
  exact (article_id_of_md_filename no_isalnum (Py.lit "out") published today
           sample_id title H1 H2).
Defined.

(** An instance of X16: the body has a delimiter. *)
Lemma frontmatter_survives_any_body_witness :
  let body := Py.lit "one---two" in
  plain_record sample_record = true /\
  has_char 13 body = false /\
  exists first rest,
    Vectorize.split (Py.lit "---") (body_block body) = first :: rest /\
    Vectorize.read_document (record_md_text sample_record body) =
      Some (Vectorize.frontmatter_of sample_record, Py.strip first).
Proof.
  intros body.
  assert (H1 : plain_record sample_record = true) by reflexivity.
  assert (H2 : has_char 13 body = false) by reflexivity.
  split; [exact H1|]. split; [exact H2|].
  exact (frontmatter_survives_any_body sample_record body H1 H2).
Defined.

(** An instance of X18: the old file has a token line and a CR LF. *)
Lemma update_env_tokens_replaces_witness :
  let a := Py.lit "tok1" in
  let r := Py.lit "ref1" in
  let new_env := update_env_tokens (Some old_env) a r in
  one_line a = true /\ one_line r = true /\
  env_lines new_env =
    filter not_token_line (env_lines old_env) ++
    [access_prefix ++ a; refresh_prefix ++ r] /\
  filter (Py.startswith access_prefix) (env_lines new_env) =
    [access_prefix ++ a] /\
  filter (Py.startswith refresh_prefix) (env_lines new_env) =
    [refresh_prefix ++ r] /\
  update_env_tokens (Some new_env) (Py.lit "tok2") (Py.lit "ref2") =
    update_env_tokens (Some old_env) (Py.lit "tok2") (Py.lit "ref2").
Proof.
  intros a r new_env.
  assert (H1 : one_line a = true) by reflexivity.
  assert (H2 : one_line r = true) by reflexivity.
  split; [exact H1|]. split; [exact H2|].
  exact (update_env_tokens_replaces (Some old_env) a r (Py.lit "tok2")
           (Py.lit "ref2") H1 H2).
Defined.

(** An instance of X20. *)
Lemma md_filename_length_witness :
  let published := Py.lit "Tue, 05 Nov 2024 17:00:00 +0000" in
  published <> [] /\
  sha16 sample_url = Ok sample_id /\
  (20 < length (md_filename no_isalnum published (Py.lit "2024-11-06")
                            sample_id (Py.lit "Zoning vote")) <= 81)%nat.
Proof.
  intros published.
  assert (H1 : published <> []) by discriminate.
  assert (H2 : sha16 sample_url = Ok sample_id) by (vm_compute; reflexivity).
  split; [exact H1|]. split; [exact H2|].
  exact (md_filename_length no_isalnum published (Py.lit "2024-11-06")
           sample_url sample_id (Py.lit "Zoning vote") H1 H2).
Defined.

(** An instance of X22: a date written with slashes puts them into the
    name, a title with a slash does not. *)
Lemma md_filename_slash_only_from_date_witness :
  sha16 sample_url = Ok sample_id /\
  has_char 47 (md_filename no_isalnum (Py.lit "11/05/2024")
                 (Py.lit "2024-11-06") sample_id (Py.lit "A/B")) =
  has_char 47 (published_date (Py.lit "11/05/2024") (Py.lit "2024-11-06")).
Proof.
  assert (H : sha16 sample_url = Ok sample_id) by (vm_compute; reflexivity).
  split; [exact H|].
  exact (md_filename_slash_only_from_date no_isalnum (Py.lit "11/05/2024")
           (Py.lit "2024-11-06") sample_url sample_id (Py.lit "A/B") H).
Defined.

Example update_env_tokens_sample :
  update_env_tokens (Some old_env) (Py.lit "tok1") (Py.lit "ref1") =
  Py.lit "BOX_CLIENT_ID=abc" ++ [Py.nl] ++ Py.lit "BOX_FOLDER_ID=0" ++
  [Py.nl] ++ Py.lit "BOX_ACCESS_TOKEN=tok1" ++ [Py.nl] ++
  Py.lit "BOX_REFRESH_TOKEN=ref1".
Proof. reflexivity. Qed.
